(** * Clarity: the flat-file record store and the time-aggregation engine

    A shallow embedding of the persistence core of the Clarity desktop
    application (TypeScript, Electron main process):

    - [src/database/csvDb.ts]        the CSV tables (subjects, todos, notes)
    - [src/database/timerDatabase.ts] timer entries and hidden subjects
    - [src/main/store.ts]            sessions, daily stats, subject totals
    - [src/main/timer.ts], [src/main.ts]  the session wrappers and IPC handlers
    - the reminder module            the reminder file and its poll loop
    - [src/timeUtils.ts]             local calendar days

    Modelling conventions.

    - A JavaScript [number] held by the store is an integer ([Z]); on integers
      [Math.floor] is the identity and [x || 0] is [x].
    - A JavaScript string is a Rocq [string] (a list of bytes); [trim] and
      [toLowerCase] act on the ASCII range, other bytes are left alone.
    - Code that throws is a computation in the [Eff] monad below: a state
      transformer that ends in [Returned v] or [Thrown message]; what was
      written to the state before the throw stays written.
    - The clock, the time zone, the random session id and the locale collation
      are supplied by the caller as explicit arguments.
    - An object used as a map from names to values is the map of its own
      properties; reading a name it has no property for gives what every
      object inherits under that name ([constructor], [__proto__] and the
      like), when there is such a thing. *)

From Stdlib Require Import ZArith List String Ascii Bool Lia Permutation Sorted.
From Stdlib Require Import DecimalString.
From stdpp Require Import gmap strings.
Import ListNotations.

Local Open Scope string_scope.
Local Open Scope list_scope.
Local Open Scope Z_scope.

(* ================================================================== *)
(** ** JavaScript primitives used by the store *)
(* ================================================================== *)

Module Js.

(** [WhiteSpace] and [LineTerminator] code points below 128, the ones
    [String.prototype.trim] strips. *)
Definition isWhiteSpace (c : ascii) : bool :=
  let n := nat_of_ascii c in
  ((9 <=? n)%nat && (n <=? 13)%nat) || (n =? 32)%nat.

Fixpoint trimStart (s : string) : string :=
  match s with
  | EmptyString => EmptyString
  | String c s' => if isWhiteSpace c then trimStart s' else s
  end.

Fixpoint trimEnd (s : string) : string :=
  match s with
  | EmptyString => EmptyString
  | String c s' =>
      match trimEnd s' with
      | EmptyString => if isWhiteSpace c then EmptyString else String c EmptyString
      | t => String c t
      end
  end.

Definition trim (s : string) : string := trimEnd (trimStart s).

Definition lowerChar (c : ascii) : ascii :=
  let n := nat_of_ascii c in
  if ((65 <=? n)%nat && (n <=? 90)%nat)%bool then ascii_of_nat (n + 32) else c.

Fixpoint toLowerCase (s : string) : string :=
  match s with
  | EmptyString => EmptyString
  | String c s' => String (lowerChar c) (toLowerCase s')
  end.

(** Truthiness of a string: every string but the empty one. *)
Definition truthy (s : string) : bool :=
  match s with EmptyString => false | _ => true end.

(** [a || b] on an optional string argument ([undefined] is [None]). *)
Definition orElse (a : option string) (b : string) : string :=
  match a with
  | Some s => if truthy s then s else b
  | None => b
  end.

(** [Math.max(0, Math.floor(x || 0))] on an integer. *)
Definition clamp0 (x : Z) : Z := Z.max 0 x.

(** An optional numeric field read as [field || 0]. *)
Definition orZero (x : option Z) : Z :=
  match x with Some v => v | None => 0 end.

(** [Array.prototype.sort(cmp)]: a stable sort.  [cmp a b <= 0] keeps [a]
    before [b] when [a] stood before [b]. *)
Fixpoint insertBy {A : Type} (cmp : A -> A -> Z) (x : A) (l : list A) : list A :=
  match l with
  | [] => [x]
  | y :: l' => if cmp x y <=? 0 then x :: l else y :: insertBy cmp x l'
  end.

Definition sort {A : Type} (cmp : A -> A -> Z) (l : list A) : list A :=
  fold_right (insertBy cmp) [] l.

(** [String(n)] for an integer. *)
Definition stringOfZ (n : Z) : string := NilZero.string_of_int (Z.to_int n).

(** [s.padStart(len, "0")]. *)
Fixpoint zeros (n : nat) : string :=
  match n with O => EmptyString | S n' => String "0"%char (zeros n') end.

Definition padStart0 (len : nat) (s : string) : string :=
  zeros (len - String.length s) ++ s.

(** [Math.max(...xs)] for a non-empty argument list [x, ...xs]. *)
Definition mathMax (x : Z) (xs : list Z) : Z := fold_left Z.max xs x.

(** [arr.findIndex(p)]; [None] stands for [-1]. *)
Fixpoint findIndex {A : Type} (p : A -> bool) (l : list A) : option nat :=
  match l with
  | [] => None
  | x :: l' => if p x then Some O else option_map S (findIndex p l')
  end.

(** [arr[i] = f(arr[i])] for an index inside the array. *)
Fixpoint updateAt {A : Type} (i : nat) (f : A -> A) (l : list A) : list A :=
  match l, i with
  | [], _ => []
  | x :: l', O => f x :: l'
  | x :: l', S i' => x :: updateAt i' f l'
  end.

(** [arr.includes(x)] on strings. *)
Definition includes (x : string) (l : list string) : bool :=
  existsb (fun y => (y =? x)%string) l.

(** A [Set<string>] is the list of its members in insertion order, the
    order [[...set]] and [Array.from(set)] list them in; [set.add(x)]. *)
Fixpoint setAdd (x : string) (s : list string) : list string :=
  match s with
  | [] => [x]
  | y :: s' => if (y =? x)%string then s else y :: setAdd x s'
  end.

(** [new Set(xs)] *)
Definition setOf (xs : list string) : list string :=
  fold_left (fun s x => setAdd x s) xs [].

(** A [Map<string, V>] is the list of its entries in insertion order;
    [map.has(key)], [map.get(key)] and [map.set(key, value)], which keeps
    the place of a key that is present. *)
Fixpoint mapFind {V : Type} (key : string) (m : list (string * V)) : option V :=
  match m with
  | [] => None
  | (k, v) :: m' => if (k =? key)%string then Some v else mapFind key m'
  end.

Definition mapHas {V : Type} (key : string) (m : list (string * V)) : bool :=
  match mapFind key m with Some _ => true | None => false end.

Fixpoint mapPut {V : Type} (key : string) (value : V) (m : list (string * V))
  : list (string * V) :=
  match m with
  | [] => [(key, value)]
  | (k, v) :: m' =>
      if (k =? key)%string then (key, value) :: m' else (k, v) :: mapPut key value m'
  end.

(** The names every plain object inherits from [Object.prototype].  Read
    on an object that has no property of its own under the name, each of
    them gives the inherited function ([__proto__] gives the prototype),
    which is truthy. *)
Definition inheritedNames : list string :=
  ["constructor"; "__defineGetter__"; "__defineSetter__"; "hasOwnProperty";
   "__lookupGetter__"; "__lookupSetter__"; "isPrototypeOf"; "propertyIsEnumerable";
   "toString"; "valueOf"; "__proto__"; "toLocaleString"].

Definition inherited (key : string) : bool := includes key inheritedNames.

(** [s.split(sep)] for a separator of one character. *)
Fixpoint split (sep : ascii) (s : string) : list string :=
  match s with
  | EmptyString => [EmptyString]
  | String c s' =>
      if Ascii.eqb c sep then EmptyString :: split sep s'
      else match split sep s' with
           | piece :: pieces => String c piece :: pieces
           | [] => [String c EmptyString]
           end
  end.

(** [arr.slice(0, n)]; a negative [n] counts from the end. *)
Definition sliceTo {A : Type} (n : Z) (l : list A) : list A :=
  if n <? 0 then firstn (Z.to_nat (Z.of_nat (length l) + n)) l
  else firstn (Z.to_nat n) l.

(** [Math.ceil(x / d)] for integers [x] and [d > 0]. *)
Definition ceilDiv (x d : Z) : Z := - ((- x) / d).

(** The number a property name denotes when it is an array index: a
    decimal numeral without a leading zero, below [2^32 - 1]. *)
Fixpoint digitsValue (s : string) (acc : N) : option N :=
  match s with
  | EmptyString => Some acc
  | String c s' =>
      let n := N_of_ascii c in
      if ((48 <=? n) && (n <=? 57))%N then digitsValue s' (10 * acc + (n - 48))%N
      else None
  end.

Definition arrayIndex (key : string) : option N :=
  match key with
  | EmptyString => None
  | String "0" EmptyString => Some 0%N
  | String "0" _ => None
  | _ =>
      match digitsValue key 0%N with
      | Some n => if (n <? 4294967295)%N then Some n else None
      | None => None
      end
  end.

(** [Object.values(obj)] for an object whose properties were created in
    the order of [entries]: the array indices in ascending order first, then
    the other names in the order of creation. *)
Definition objectValues {V : Type} (entries : list (string * V)) : list V :=
  let indexed :=
    flat_map (fun kv => match arrayIndex (fst kv) with
                        | Some n => [(n, snd kv)]
                        | None => []
                        end) entries in
  let named :=
    List.filter (fun kv => match arrayIndex (fst kv) with
                           | Some _ => false
                           | None => true
                           end) entries in
  map snd (sort (fun a b => Z.of_N (fst a) - Z.of_N (fst b)) indexed) ++ map snd named.

End Js.

(* ================================================================== *)
(** ** Computations that read and write a state and may throw *)
(* ================================================================== *)

Inductive outcome (A : Type) : Type :=
| Returned (value : A)
| Thrown (message : string).
Arguments Returned {A} value.
Arguments Thrown {A} message.

Definition Eff (S A : Type) : Type := S -> S * outcome A.

Definition ret {S A : Type} (a : A) : Eff S A := fun s => (s, Returned a).

Definition throw {S A : Type} (message : string) : Eff S A :=
  fun s => (s, Thrown message).

Definition bind {S A B : Type} (m : Eff S A) (k : A -> Eff S B) : Eff S B :=
  fun s =>
    match m s with
    | (s', Returned a) => k a s'
    | (s', Thrown e) => (s', Thrown e)
    end.

(** [try { m } catch (e) { handler e }] *)
Definition tryCatch {S A : Type} (m : Eff S A) (handler : string -> Eff S A) : Eff S A :=
  fun s =>
    match m s with
    | (s', Returned a) => (s', Returned a)
    | (s', Thrown e) => handler e s'
    end.

Definition gets {S A : Type} (f : S -> A) : Eff S A := fun s => (s, Returned (f s)).

Definition modify {S : Type} (f : S -> S) : Eff S unit := fun s => (f s, Returned tt).

Definition when {S : Type} (b : bool) (m : Eff S unit) : Eff S unit :=
  if b then m else ret tt.

Declare Scope eff_scope.
Delimit Scope eff_scope with eff.
Notation "x <- m ;; k" := (bind m (fun x => k))
  (at level 100, m at next level, right associativity) : eff_scope.
Notation "m ;; k" := (bind m (fun _ => k))
  (at level 100, right associativity) : eff_scope.

Definition isThrown {A : Type} (o : outcome A) : bool :=
  match o with Thrown _ => true | Returned _ => false end.

(* ================================================================== *)
(** ** The three files of a table and the calls that may fail *)
(* ================================================================== *)

Module Fs.

(** [filePath], [filePath + ".tmp"] and [filePath + ".bak"]. *)
Inductive Path : Type := Primary | Temp | Backup.

(** What is on disk for one table.  A file's content is the row list it
    parses to; [None] is a file that does not exist. *)
Record Files (Content : Type) : Type := mkFiles {
  primary : option Content;
  temp : option Content;
  backup : option Content
}.
Arguments mkFiles {Content} primary temp backup.
Arguments primary {Content} _.
Arguments temp {Content} _.
Arguments backup {Content} _.

(** Which of the four file-system calls of one save throws ([true]). *)
Record Faults : Type := mkFaults {
  writeTemp : bool;        (* fs.writeFileSync(tempFilePath, ...)       *)
  renameToBackup : bool;   (* fs.renameSync(filePath, backupFilePath)   *)
  renameIntoPlace : bool;  (* fs.renameSync(tempFilePath, filePath)     *)
  renameRestore : bool     (* fs.renameSync(backupFilePath, filePath)   *)
}.

Definition noFaults : Faults := mkFaults false false false false.

Section Calls.
Context {Content : Type}.

Definition readPath (p : Path) (fs : Files Content) : option Content :=
  match p with
  | Primary => primary fs
  | Temp => temp fs
  | Backup => backup fs
  end.

Definition setPath (p : Path) (c : option Content) (fs : Files Content) : Files Content :=
  match p with
  | Primary => mkFiles c (temp fs) (backup fs)
  | Temp => mkFiles (primary fs) c (backup fs)
  | Backup => mkFiles (primary fs) (temp fs) c
  end.

Definition existsSync (p : Path) : Eff (Files Content) bool :=
  gets (fun fs => match readPath p fs with Some _ => true | None => false end).

Definition pathName (p : Path) : string :=
  match p with
  | Primary => "file"
  | Temp => "file.tmp"
  | Backup => "file.bak"
  end.

Definition writeFileSync (fails : bool) (p : Path) (c : Content) : Eff (Files Content) unit :=
  if fails then throw ("EIO: write " ++ pathName p)
  else modify (setPath p (Some c)).

(** A rename that fails leaves both paths as they were; one that succeeds
    replaces the destination and removes the source. *)
Definition renameSync (fails : bool) (src dst : Path) : Eff (Files Content) unit :=
  fun fs =>
    if fails then (fs, Thrown ("EPERM: rename " ++ pathName src ++ " -> " ++ pathName dst))
    else match readPath src fs with
         | None => (fs, Thrown ("ENOENT: rename " ++ pathName src ++ " -> " ++ pathName dst))
         | Some c => (setPath src None (setPath dst (Some c) fs), Returned tt)
         end.

(** The step of the [try] block that throws first, if one does. *)
Inductive Step : Type := WriteTemp | RenameToBackup | RenameIntoPlace.

Definition failingStep (faults : Faults) (fs : Files Content) : option Step :=
  if writeTemp faults then Some WriteTemp
  else if (match primary fs with Some _ => true | None => false end) && renameToBackup faults
       then Some RenameToBackup
  else if renameIntoPlace faults then Some RenameIntoPlace
  else None.

(** The error that step throws. *)
Definition errorOf (step : Step) : string :=
  match step with
  | WriteTemp => "EIO: write file.tmp"
  | RenameToBackup => "EPERM: rename file -> file.bak"
  | RenameIntoPlace => "EPERM: rename file.tmp -> file"
  end.

End Calls.
End Fs.

(* ================================================================== *)
(** ** src/database/csvDb.ts *)
(* ================================================================== *)

(** [T extends { id: number }] *)
Class HasId (T : Type) : Type := idOf : T -> Z.

(** The rows of the four tables.  An optional field is [None] in a row
    that has no such key, as a row read from a file without that column. *)
Module Todo.
Record t : Type := mk {
  id : Z;
  date : string;
  text : string;
  done : Z;
  starred : Z;
  due_date : option string;
  created_at : string
}.
End Todo.

#[export] Instance Todo_HasId : HasId Todo.t := Todo.id.

Module Subject.
Record t : Type := mk {
  id : Z;
  name : string;
  created_at : string
}.
End Subject.

Module Note.
Record t : Type := mk {
  id : Z;
  title : string;
  content : option string;
  color : option string;
  created_at : string
}.
End Note.

Module Setting.
Record t : Type := mk {
  key : string;
  value : string
}.
End Setting.

#[export] Instance Subject_HasId : HasId Subject.t := Subject.id.
#[export] Instance Note_HasId : HasId Note.t := Note.id.

(** [Partial<Omit<Subject, "id">>], [Partial<Omit<Todo, "id">>] and
    [Partial<Omit<Note, "id">>]: a field that is [None] is absent. *)
Module SubjectUpdates.
Record t : Type := mk {
  name : option string;
  created_at : option string
}.
End SubjectUpdates.

Module TodoUpdates.
Record t : Type := mk {
  date : option string;
  text : option string;
  done : option Z;
  starred : option Z;
  due_date : option string;
  created_at : option string
}.
End TodoUpdates.

Module NoteUpdates.
Record t : Type := mk {
  title : option string;
  content : option string;
  color : option string;
  created_at : option string
}.
End NoteUpdates.

Module CsvDatabase.

(** [writeCSV(filename, data)] on the three files of [filename]. *)
Definition writeCSV {T : Type} (faults : Fs.Faults) (data : list T)
  : Eff (Fs.Files (list T)) unit :=
  tryCatch
    (Fs.writeFileSync (Fs.writeTemp faults) Fs.Temp data ;;
     present <- Fs.existsSync Fs.Primary ;;
     when present (Fs.renameSync (Fs.renameToBackup faults) Fs.Primary Fs.Backup) ;;
     Fs.renameSync (Fs.renameIntoPlace faults) Fs.Temp Fs.Primary)%eff
    (fun error =>
       (tryCatch
          (saved <- Fs.existsSync Fs.Backup ;;
           when saved (Fs.renameSync (Fs.renameRestore faults) Fs.Backup Fs.Primary))
          (fun restoreError => ret tt) ;;
        throw error)%eff).

(** [readCSV(filename)]: the rows of the primary file, [[]] when it is
    missing. *)
Definition readCSV {T : Type} : Eff (Fs.Files (list T)) (list T) :=
  gets (fun fs => match Fs.primary fs with Some rows => rows | None => [] end).

Definition getNextId {T : Type} `{HasId T} (data : list T) : Z :=
  match data with
  | [] => 1
  | item :: rest => Js.mathMax (idOf item) (map idOf rest) + 1
  end.

(** In [addTodo] and [deleteTodo] the table is the row list [getTodos]
    returns and [writeCSV] replaces it, which is what the file-level
    [writeCSV] does when none of its calls fails. *)
Definition getTodos : Eff (list Todo.t) (list Todo.t) := gets (fun rows => rows).

Definition writeTodos (rows : list Todo.t) : Eff (list Todo.t) unit :=
  modify (fun _ => rows).

Definition withId (todo : Todo.t) (id : Z) : Todo.t :=
  Todo.mk id (Todo.date todo) (Todo.text todo) (Todo.done todo)
          (Todo.starred todo) (Todo.due_date todo) (Todo.created_at todo).

(** [addTodo(todo)]; the [id] field of the argument is ignored, as in
    [{ ...todo, id }]. *)
Definition addTodo (todo : Todo.t) : Eff (list Todo.t) Z :=
  (todos <- getTodos ;;
   let id := getNextId todos in
   let newTodo := withId todo id in
   writeTodos (todos ++ [newTodo]) ;;
   ret id)%eff.

Definition deleteTodo (id : Z) : Eff (list Todo.t) bool :=
  (todos <- getTodos ;;
   let filtered := List.filter (fun todo => negb (Todo.id todo =? id)) todos in
   if (length filtered =? length todos)%nat then ret false
   else (writeTodos filtered ;; ret true))%eff.

(** The rows [readCSV] gives back once [writeCSV] has saved [rows].
    [Papa.unparse] takes the columns of the file from the keys of the first
    row: a row read back has a string in each of these columns, the empty
    string where the row that was written had no value, and no other column.
    The one column a todo can be without is [due_date].  The rows [addTodo]
    and [deleteTodo] write are taken with the columns of the file. *)
Definition conformTodo (first row : Todo.t) : Todo.t :=
  Todo.mk (Todo.id row) (Todo.date row) (Todo.text row) (Todo.done row) (Todo.starred row)
          (match Todo.due_date first with
           | Some _ => Some (default "" (Todo.due_date row))
           | None => None
           end)
          (Todo.created_at row).

Definition savedTodos (rows : list Todo.t) : list Todo.t :=
  match rows with
  | [] => []
  | first :: _ => map (conformTodo first) rows
  end.

(** [{ ...todos[index], ...updates }] *)
Definition patchTodo (todo : Todo.t) (updates : TodoUpdates.t) : Todo.t :=
  Todo.mk (Todo.id todo)
          (default (Todo.date todo) (TodoUpdates.date updates))
          (default (Todo.text todo) (TodoUpdates.text updates))
          (default (Todo.done todo) (TodoUpdates.done updates))
          (default (Todo.starred todo) (TodoUpdates.starred updates))
          (match TodoUpdates.due_date updates with
           | Some due => Some due
           | None => Todo.due_date todo
           end)
          (default (Todo.created_at todo) (TodoUpdates.created_at updates)).

Definition updateTodo (id : Z) (updates : TodoUpdates.t) : Eff (list Todo.t) bool :=
  (todos <- getTodos ;;
   match Js.findIndex (fun todo => Todo.id todo =? id) todos with
   | None => ret false
   | Some index =>
       let patched := Js.updateAt index (fun todo => patchTodo todo updates) todos in
       writeTodos (savedTodos patched) ;;
       ret true
   end)%eff.

(** The subject table, with the same convention. *)
Definition getSubjects : Eff (list Subject.t) (list Subject.t) := gets (fun rows => rows).

Definition writeSubjects (rows : list Subject.t) : Eff (list Subject.t) unit :=
  modify (fun _ => rows).

(** [addSubject(name)]; [isoNow] is [new Date().toISOString()]. *)
Definition addSubject (isoNow : string) (name : string) : Eff (list Subject.t) Z :=
  (subjects <- getSubjects ;;
   let normalizedName := Js.toLowerCase (Js.trim name) in
   (* Check if a subject with the same name (case-insensitive) already exists *)
   match List.find (fun s => (Js.toLowerCase (Subject.name s) =? normalizedName)%string)
                   subjects with
   | Some existing => ret (Subject.id existing)
   | None =>
       let id := getNextId subjects in
       let newSubject := Subject.mk id (Js.trim name) isoNow in
       writeSubjects (subjects ++ [newSubject]) ;;
       ret id
   end)%eff.

Definition patchSubject (subject : Subject.t) (updates : SubjectUpdates.t) : Subject.t :=
  Subject.mk (Subject.id subject)
             (default (Subject.name subject) (SubjectUpdates.name updates))
             (default (Subject.created_at subject) (SubjectUpdates.created_at updates)).

Definition updateSubject (id : Z) (updates : SubjectUpdates.t) : Eff (list Subject.t) bool :=
  (subjects <- getSubjects ;;
   match Js.findIndex (fun subject => Subject.id subject =? id) subjects with
   | None => ret false
   | Some index =>
       writeSubjects (Js.updateAt index (fun subject => patchSubject subject updates)
                                  subjects) ;;
       ret true
   end)%eff.

Definition deleteSubject (id : Z) : Eff (list Subject.t) bool :=
  (subjects <- getSubjects ;;
   let filtered := List.filter (fun subject => negb (Subject.id subject =? id)) subjects in
   if (length filtered =? length subjects)%nat then ret false
   else (writeSubjects filtered ;; ret true))%eff.

(** The note table. *)
Definition getNotes : Eff (list Note.t) (list Note.t) := gets (fun rows => rows).

Definition writeNotes (rows : list Note.t) : Eff (list Note.t) unit :=
  modify (fun _ => rows).

Definition noteWithId (note : Note.t) (id : Z) : Note.t :=
  Note.mk id (Note.title note) (Note.content note) (Note.color note) (Note.created_at note).

(** [addNote(note)]; the [id] field of the argument is ignored, as in
    [{ ...note, id }]. *)
Definition addNote (note : Note.t) : Eff (list Note.t) Z :=
  (notes <- getNotes ;;
   let id := getNextId notes in
   let newNote := noteWithId note id in
   writeNotes (notes ++ [newNote]) ;;
   ret id)%eff.

(** The notes read back after a save, as [savedTodos]; a note can be
    without [content] and without [color]. *)
Definition conformNote (first row : Note.t) : Note.t :=
  Note.mk (Note.id row) (Note.title row)
          (match Note.content first with
           | Some _ => Some (default "" (Note.content row))
           | None => None
           end)
          (match Note.color first with
           | Some _ => Some (default "" (Note.color row))
           | None => None
           end)
          (Note.created_at row).

Definition savedNotes (rows : list Note.t) : list Note.t :=
  match rows with
  | [] => []
  | first :: _ => map (conformNote first) rows
  end.

Definition patchNote (note : Note.t) (updates : NoteUpdates.t) : Note.t :=
  Note.mk (Note.id note)
          (default (Note.title note) (NoteUpdates.title updates))
          (match NoteUpdates.content updates with
           | Some content => Some content
           | None => Note.content note
           end)
          (match NoteUpdates.color updates with
           | Some color => Some color
           | None => Note.color note
           end)
          (default (Note.created_at note) (NoteUpdates.created_at updates)).

Definition updateNote (id : Z) (updates : NoteUpdates.t) : Eff (list Note.t) bool :=
  (notes <- getNotes ;;
   match Js.findIndex (fun note => Note.id note =? id) notes with
   | None => ret false
   | Some index =>
       let patched := Js.updateAt index (fun note => patchNote note updates) notes in
       writeNotes (savedNotes patched) ;;
       ret true
   end)%eff.

Definition deleteNote (id : Z) : Eff (list Note.t) bool :=
  (notes <- getNotes ;;
   let filtered := List.filter (fun note => negb (Note.id note =? id)) notes in
   if (length filtered =? length notes)%nat then ret false
   else (writeNotes filtered ;; ret true))%eff.

(** The settings table. *)
Definition getSettings : Eff (list Setting.t) (list Setting.t) := gets (fun rows => rows).

Definition writeSettings (rows : list Setting.t) : Eff (list Setting.t) unit :=
  modify (fun _ => rows).

Definition setSetting (key value : string) : Eff (list Setting.t) unit :=
  (settings <- getSettings ;;
   match Js.findIndex (fun setting => (Setting.key setting =? key)%string) settings with
   | None => writeSettings (settings ++ [Setting.mk key value])
   | Some index =>
       writeSettings (Js.updateAt index (fun setting => Setting.mk (Setting.key setting) value)
                                  settings)
   end)%eff.

(** [getSetting(key)]; [null] is [None]. *)
Definition getSetting (key : string) : Eff (list Setting.t) (option string) :=
  (settings <- getSettings ;;
   let setting := List.find (fun s => (Setting.key s =? key)%string) settings in
   ret (option_map Setting.value setting))%eff.

(** The four tables of [csvDb] together, and an operation on one of them
    as an operation on all. *)
Record Csv : Type := mkCsv {
  subjects : list Subject.t;   (* subjects.csv *)
  todos : list Todo.t;         (* todos.csv    *)
  notes : list Note.t;         (* notes.csv    *)
  settings : list Setting.t    (* settings.csv *)
}.

Definition onSubjects {A : Type} (m : Eff (list Subject.t) A) : Eff Csv A :=
  fun db =>
    let '(rows, r) := m (subjects db) in (mkCsv rows (todos db) (notes db) (settings db), r).

Definition onTodos {A : Type} (m : Eff (list Todo.t) A) : Eff Csv A :=
  fun db =>
    let '(rows, r) := m (todos db) in (mkCsv (subjects db) rows (notes db) (settings db), r).

Definition onNotes {A : Type} (m : Eff (list Note.t) A) : Eff Csv A :=
  fun db =>
    let '(rows, r) := m (notes db) in (mkCsv (subjects db) (todos db) rows (settings db), r).

Definition onSettings {A : Type} (m : Eff (list Setting.t) A) : Eff Csv A :=
  fun db =>
    let '(rows, r) := m (settings db) in (mkCsv (subjects db) (todos db) (notes db) rows, r).

End CsvDatabase.

(* ================================================================== *)
(** ** src/main/crud.ts *)
(* ================================================================== *)

(** The values a field of a row or of a [where] clause can hold;
    [Inherited name] is the function or object every row inherits under
    [name], which is what [item[name]] gives for such a name. *)
Module Value.

Inductive t : Type :=
| Num (n : Z)
| Str (s : string)
| Null
| Undefined
| Inherited (name : string).

(** How the language compares a number with a string: both as numbers,
    the string converted by the language.  The three comparisons are
    supplied by the caller, and so is the string the language converts an
    inherited value to when it compares it with a number or a string. *)
Record Coercion : Type := mkCoercion {
  numEqStr : Z -> string -> bool;   (* n == s *)
  numLtStr : Z -> string -> bool;   (* n <  s *)
  strLtNum : string -> Z -> bool;   (* s <  n *)
  inheritedText : string -> string  (* String(item[name]) *)
}.

(** [a == b]; an inherited value equals itself, and a number or a string
    that its string equals. *)
Definition looseEq (coercion : Coercion) (a b : t) : bool :=
  match a, b with
  | Num x, Num y => x =? y
  | Str x, Str y => (x =? y)%string
  | Num x, Str y => numEqStr coercion x y
  | Str x, Num y => numEqStr coercion y x
  | Null, Null | Null, Undefined | Undefined, Null | Undefined, Undefined => true
  | Inherited x, Inherited y => (x =? y)%string
  | Inherited x, Str y => (inheritedText coercion x =? y)%string
  | Str x, Inherited y => (x =? inheritedText coercion y)%string
  | Inherited x, Num y => numEqStr coercion y (inheritedText coercion x)
  | Num x, Inherited y => numEqStr coercion x (inheritedText coercion y)
  | _, _ => false
  end.

(** The primitive value a comparison by [<] works on. *)
Definition toPrimitive (coercion : Coercion) (v : t) : t :=
  match v with
  | Inherited name => Str (inheritedText coercion name)
  | _ => v
  end.

(** [a < b]; [null] counts as [0], [undefined] compares [false] with
    everything. *)
Definition lessThan (coercion : Coercion) (a b : t) : bool :=
  match toPrimitive coercion a, toPrimitive coercion b with
  | Str x, Str y => String.ltb x y
  | Undefined, _ | _, Undefined => false
  | Num x, Num y => x <? y
  | Num x, Null => x <? 0
  | Null, Num y => 0 <? y
  | Null, Null => false
  | Num x, Str y => numLtStr coercion x y
  | Str x, Num y => strLtNum coercion x y
  | Null, Str y => numLtStr coercion 0 y
  | Str x, Null => strLtNum coercion x 0
  | Inherited _, _ | _, Inherited _ => false
  end.

End Value.

(** [item[key]] on the rows of a table. *)
Class HasFields (T : Type) : Type := field : string -> T -> Value.t.

(** [item[key]] for a key the row has no field for. *)
Definition noField (key : string) : Value.t :=
  if Js.inherited key then Value.Inherited key else Value.Undefined.

Definition optionalField (v : option string) : Value.t :=
  match v with Some s => Value.Str s | None => Value.Undefined end.

#[export] Instance Subject_HasFields : HasFields Subject.t :=
  fun key subject =>
    if (key =? "id")%string then Value.Num (Subject.id subject)
    else if (key =? "name")%string then Value.Str (Subject.name subject)
    else if (key =? "created_at")%string then Value.Str (Subject.created_at subject)
    else noField key.

#[export] Instance Todo_HasFields : HasFields Todo.t :=
  fun key todo =>
    if (key =? "id")%string then Value.Num (Todo.id todo)
    else if (key =? "date")%string then Value.Str (Todo.date todo)
    else if (key =? "text")%string then Value.Str (Todo.text todo)
    else if (key =? "done")%string then Value.Num (Todo.done todo)
    else if (key =? "starred")%string then Value.Num (Todo.starred todo)
    else if (key =? "due_date")%string then optionalField (Todo.due_date todo)
    else if (key =? "created_at")%string then Value.Str (Todo.created_at todo)
    else noField key.

#[export] Instance Note_HasFields : HasFields Note.t :=
  fun key note =>
    if (key =? "id")%string then Value.Num (Note.id note)
    else if (key =? "title")%string then Value.Str (Note.title note)
    else if (key =? "content")%string then optionalField (Note.content note)
    else if (key =? "color")%string then optionalField (Note.color note)
    else if (key =? "created_at")%string then Value.Str (Note.created_at note)
    else noField key.

#[export] Instance Setting_HasFields : HasFields Setting.t :=
  fun key setting =>
    if (key =? "key")%string then Value.Str (Setting.key setting)
    else if (key =? "value")%string then Value.Str (Setting.value setting)
    else noField key.

(** The [data] argument of [insert]: the fields of a row, each optional. *)
Module Data.
Record t : Type := mk {
  name : option string;
  date : option string;
  text : option string;
  done : option Z;
  starred : option Z;
  due_date : option string;
  created_at : option string;
  title : option string;
  content : option string;
  color : option string;
  key : option string;
  value : option string
}.

Definition empty : t := mk None None None None None None None None None None None None.
End Data.

Module Crud.

(** [options: { orderBy?: string; limit?: number }] *)
Record Options : Type := mkOptions {
  orderBy : option string;
  limit : option Z
}.

Definition noOptions : Options := mkOptions None None.

(** What [query] returns: rows of the table that was named, [[]] for a
    name that is none of the four. *)
Inductive Rows : Type :=
| SubjectRows (rows : list Subject.t)
| TodoRows (rows : list Todo.t)
| NoteRows (rows : list Note.t)
| SettingRows (rows : list Setting.t)
| NoRows.

Section Select.
Variable coercion : Value.Coercion.
Context {T : Type} `{HasFields T}.

(** [Object.entries(where).every(([key, value]) => item[key] == value)] *)
Definition matches (where_ : list (string * Value.t)) (item : T) : bool :=
  forallb (fun kv => Value.looseEq coercion (field (fst kv) item) (snd kv)) where_.

(** The comparator of [data.sort(...)]. *)
Definition compareBy (fieldName direction : string) (a b : T) : Z :=
  let aVal := field fieldName a in
  let bVal := field fieldName b in
  if Value.lessThan coercion aVal bVal
  then (if (direction =? "DESC")%string then 1 else -1)
  else if Value.lessThan coercion bVal aVal
  then (if (direction =? "DESC")%string then -1 else 1)
  else 0.

(** The part of [query] after the table is read: filter, sort, limit.
    [where_] lists the entries of [where]; it is [[]] when [where] is
    absent or has no key. *)
Definition select (where_ : list (string * Value.t)) (options : Options) (data : list T)
  : list T :=
  let data1 :=
    match where_ with
    | [] => data
    | _ => List.filter (matches where_) data
    end in
  let data2 :=
    match orderBy options with
    | Some clause =>
        if Js.truthy clause
        then
          (* const [field, direction = "ASC"] = options.orderBy.split(" ") *)
          let parts := Js.split " "%char clause in
          let fieldName := match parts with f :: _ => f | [] => "" end in
          let direction := match parts with _ :: d :: _ => d | _ => "ASC" end in
          Js.sort (compareBy fieldName direction) data1
        else data1
    | None => data1
    end in
  match limit options with
  | Some n => if n =? 0 then data2 else Js.sliceTo n data2
  | None => data2
  end.

End Select.

Section Query.
Variable coercion : Value.Coercion.

Definition query (table : string) (where_ : list (string * Value.t)) (options : Options)
  : Eff CsvDatabase.Csv Rows :=
  if (table =? "subjects")%string then
    (data <- CsvDatabase.onSubjects CsvDatabase.getSubjects ;;
     ret (SubjectRows (select coercion where_ options data)))%eff
  else if (table =? "todos")%string then
    (data <- CsvDatabase.onTodos CsvDatabase.getTodos ;;
     ret (TodoRows (select coercion where_ options data)))%eff
  else if (table =? "notes")%string then
    (data <- CsvDatabase.onNotes CsvDatabase.getNotes ;;
     ret (NoteRows (select coercion where_ options data)))%eff
  else if (table =? "settings")%string then
    (data <- CsvDatabase.onSettings CsvDatabase.getSettings ;;
     ret (SettingRows (select coercion where_ options data)))%eff
  else ret NoRows.

End Query.

(** [x || 0] on an optional number. *)
Definition numberOr0 (x : option Z) : Z := Js.orZero x.

(** [x || null] on an optional string. *)
Definition stringOrNull (x : option string) : option string :=
  match x with
  | Some s => if Js.truthy s then Some s else None
  | None => None
  end.

(** A field that is [x || null] in the row [insert] hands over, as the
    file holds it: the row has the key, and [null] is saved as the empty
    field. *)
Definition savedOrNull (x : option string) : option string :=
  Some (default "" (stringOrNull x)).

(** [insert(table, data)]; the result is the [id] of [{ id }], and
    [isoNow] is [new Date().toISOString()]. *)
Definition insert (isoNow : string) (table : string) (data : Data.t)
  : Eff CsvDatabase.Csv Z :=
  if (table =? "subjects")%string then
    match Data.name data with
    | Some name => CsvDatabase.onSubjects (CsvDatabase.addSubject isoNow name)
    | None => throw "Cannot read properties of undefined (reading 'trim')"
    end
  else if (table =? "todos")%string then
    let todoData :=
      Todo.mk 0
              (Js.orElse (Data.date data) "")
              (Js.orElse (Data.text data) "")
              (numberOr0 (Data.done data))
              (numberOr0 (Data.starred data))
              (savedOrNull (Data.due_date data))
              (Js.orElse (Data.created_at data) isoNow) in
    CsvDatabase.onTodos (CsvDatabase.addTodo todoData)
  else if (table =? "notes")%string then
    let noteData :=
      Note.mk 0
              (Js.orElse (Data.title data) "")
              (savedOrNull (Data.content data))
              (savedOrNull (Data.color data))
              (Js.orElse (Data.created_at data) isoNow) in
    CsvDatabase.onNotes (CsvDatabase.addNote noteData)
  else if (table =? "settings")%string then
    (* a key or value that is absent is written to the file as the empty
       string; an absent key matches no stored key *)
    (match Data.key data with
     | Some key =>
         CsvDatabase.onSettings (CsvDatabase.setSetting key (default "" (Data.value data)))
     | None =>
         CsvDatabase.onSettings
           (settings <- CsvDatabase.getSettings ;;
            CsvDatabase.writeSettings
              (settings ++ [Setting.mk "" (default "" (Data.value data))]))
     end ;;
     ret 0)%eff
  else throw ("Unknown table: " ++ table).

Definition subjectUpdates (data : Data.t) : SubjectUpdates.t :=
  SubjectUpdates.mk (Data.name data) (Data.created_at data).

Definition todoUpdates (data : Data.t) : TodoUpdates.t :=
  TodoUpdates.mk (Data.date data) (Data.text data) (Data.done data) (Data.starred data)
                 (Data.due_date data) (Data.created_at data).

Definition noteUpdates (data : Data.t) : NoteUpdates.t :=
  NoteUpdates.mk (Data.title data) (Data.content data) (Data.color data)
                 (Data.created_at data).

Definition update (table : string) (id : Z) (data : Data.t) : Eff CsvDatabase.Csv bool :=
  if (table =? "subjects")%string then
    CsvDatabase.onSubjects (CsvDatabase.updateSubject id (subjectUpdates data))
  else if (table =? "todos")%string then
    CsvDatabase.onTodos (CsvDatabase.updateTodo id (todoUpdates data))
  else if (table =? "notes")%string then
    CsvDatabase.onNotes (CsvDatabase.updateNote id (noteUpdates data))
  else ret false.

Definition remove (table : string) (id : Z) : Eff CsvDatabase.Csv bool :=
  if (table =? "subjects")%string then CsvDatabase.onSubjects (CsvDatabase.deleteSubject id)
  else if (table =? "todos")%string then CsvDatabase.onTodos (CsvDatabase.deleteTodo id)
  else if (table =? "notes")%string then CsvDatabase.onNotes (CsvDatabase.deleteNote id)
  else ret false.

Definition setSetting (key value : string) : Eff CsvDatabase.Csv unit :=
  CsvDatabase.onSettings (CsvDatabase.setSetting key value).

Definition getSetting (key : string) : Eff CsvDatabase.Csv (option string) :=
  CsvDatabase.onSettings (CsvDatabase.getSetting key).

End Crud.

(* ================================================================== *)
(** ** src/main/todos.ts *)
(* ================================================================== *)

(** [{ date, text, starred?, dueDate? }] *)
Module NewTodo.
Record t : Type := mk {
  date : string;
  text : string;
  starred : option bool;
  dueDate : option string
}.
End NewTodo.

(** [{ done?, starred?, text?, dueDate? }] *)
Module TodoChanges.
Record t : Type := mk {
  done : option bool;
  starred : option bool;
  text : option string;
  dueDate : option string
}.
End TodoChanges.

(** [{ title, content?, color? }] *)
Module NewNote.
Record t : Type := mk {
  title : string;
  content : option string;
  color : option string
}.
End NewNote.

(** [{ title?, content?, color? }] *)
Module NoteChanges.
Record t : Type := mk {
  title : option string;
  content : option string;
  color : option string
}.
End NoteChanges.

(** [{ success: true, id }] *)
Module Added.
Record t : Type := mk {
  success : bool;
  id : Z
}.
End Added.

Module Todos.

Section Queries.
Variable coercion : Value.Coercion.

Definition getTodosByDate (date : string) : Eff CsvDatabase.Csv Crud.Rows :=
  Crud.query coercion "todos" [("date", Value.Str date)]
             (Crud.mkOptions (Some "starred DESC, id") None).

Definition getStarredTodos : Eff CsvDatabase.Csv Crud.Rows :=
  Crud.query coercion "todos" [("starred", Value.Num 1)] (Crud.mkOptions (Some "id") None).

Definition getNotes : Eff CsvDatabase.Csv Crud.Rows :=
  Crud.query coercion "notes" [] (Crud.mkOptions (Some "created_at DESC") None).

(** [getNoteById(id)]; [null] is [None]. *)
Definition getNoteById (id : Z) : Eff CsvDatabase.Csv (option Note.t) :=
  (notes <- Crud.query coercion "notes" [("id", Value.Num id)] Crud.noOptions ;;
   ret (match notes with
        | Crud.NoteRows (note :: _) => Some note
        | _ => None
        end))%eff.

Definition getAllTodos : Eff CsvDatabase.Csv Crud.Rows :=
  Crud.query coercion "todos" [] (Crud.mkOptions (Some "starred DESC, id") None).

End Queries.

(** [flag ? 1 : 0] on an optional boolean. *)
Definition oneIf (flag : option bool) : Z :=
  match flag with Some true => 1 | _ => 0 end.

Definition addTodo (isoNow : string) (todo : NewTodo.t) : Eff CsvDatabase.Csv Added.t :=
  (id <- Crud.insert isoNow "todos"
           (Data.mk None (Some (NewTodo.date todo)) (Some (NewTodo.text todo))
                    (Some 0) (Some (oneIf (NewTodo.starred todo)))
                    (Crud.stringOrNull (NewTodo.dueDate todo)) (Some isoNow)
                    None None None None None) ;;
   ret (Added.mk true id))%eff.

Definition updateTodo (id : Z) (updates : TodoChanges.t) : Eff CsvDatabase.Csv bool :=
  let updateData :=
    Data.mk None None (TodoChanges.text updates)
            (option_map (fun done : bool => if done then 1 else 0) (TodoChanges.done updates))
            (option_map (fun starred : bool => if starred then 1 else 0)
                        (TodoChanges.starred updates))
            (TodoChanges.dueDate updates) None
            None None None None None in
  Crud.update "todos" id updateData.

Definition deleteTodo (id : Z) : Eff CsvDatabase.Csv bool := Crud.remove "todos" id.

Definition addNote (isoNow : string) (note : NewNote.t) : Eff CsvDatabase.Csv Added.t :=
  (id <- Crud.insert isoNow "notes"
           (Data.mk None None None None None None (Some isoNow)
                    (Some (NewNote.title note))
                    (Crud.stringOrNull (NewNote.content note))
                    (Crud.stringOrNull (NewNote.color note))
                    None None) ;;
   ret (Added.mk true id))%eff.

Definition updateNote (id : Z) (updates : NoteChanges.t) : Eff CsvDatabase.Csv bool :=
  Crud.update "notes" id
    (Data.mk None None None None None None None
             (NoteChanges.title updates) (NoteChanges.content updates)
             (NoteChanges.color updates) None None).

Definition deleteNote (id : Z) : Eff CsvDatabase.Csv bool := Crud.remove "notes" id.

End Todos.

(* ================================================================== *)
(** ** src/main/background.ts *)
(* ================================================================== *)

Module Background.

Definition setViewBackground (view filePath : string) : Eff CsvDatabase.Csv unit :=
  Crud.setSetting ("background_" ++ view) filePath.

Definition getViewBackground (view : string) : Eff CsvDatabase.Csv (option string) :=
  Crud.getSetting ("background_" ++ view).

Definition removeViewBackground (view : string) : Eff CsvDatabase.Csv unit :=
  Crud.setSetting ("background_" ++ view) "".

Definition views : list string := ["timer"; "stats"; "settings"; "todo"; "notes"].

(** [getAllBackgrounds()]; the result lists the entries of the object
    in the order they were set. *)
Fixpoint collectBackgrounds (pending : list string) (backgrounds : list (string * string))
  : Eff CsvDatabase.Csv (list (string * string)) :=
  match pending with
  | [] => ret backgrounds
  | view :: rest =>
      (background <- getViewBackground view ;;
       match background with
       | Some path =>
           if Js.truthy path
           then collectBackgrounds rest (Js.mapPut view path backgrounds)
           else collectBackgrounds rest backgrounds
       | None => collectBackgrounds rest backgrounds
       end)%eff
  end.

Definition getAllBackgrounds : Eff CsvDatabase.Csv (list (string * string)) :=
  collectBackgrounds views [].

Definition setBackground (filePath : string) : Eff CsvDatabase.Csv unit :=
  Crud.setSetting "background" filePath.

Definition getBackground : Eff CsvDatabase.Csv (option string) :=
  Crud.getSetting "background".

End Background.

(* ================================================================== *)
(** ** src/timeUtils.ts *)
(* ================================================================== *)

Module TimeUtils.

(** A [Date] as its getters show it in the machine's time zone. *)
Record LocalDate : Type := mkLocalDate {
  getFullYear : Z;
  getMonth : Z;     (* 0 .. 11 *)
  getDate : Z       (* 1 .. 31 *)
}.

(** [pad(n)]: [String(n).padStart(2, "0")] *)
Definition pad (n : Z) : string := Js.padStart0 2 (Js.stringOfZ n).

Definition localDateString (d : LocalDate) : string :=
  Js.stringOfZ (getFullYear d) ++ "-" ++ pad (getMonth d + 1) ++ "-" ++ pad (getDate d).

(** [msToHMS(totalSecondsOrMs, inputIsMs = false)]; [%] is the remainder
    that takes the sign of the dividend. *)
Definition msToHMS (totalSecondsOrMs : Z) (inputIsMs : bool) : string :=
  let totalSeconds := if inputIsMs then totalSecondsOrMs / 1000 else totalSecondsOrMs in
  let h := totalSeconds / 3600 in
  let m := Z.rem totalSeconds 3600 / 60 in
  let s := Z.rem totalSeconds 60 in
  if 0 <? h then pad h ++ ":" ++ pad m ++ ":" ++ pad s
  else pad m ++ ":" ++ pad s.

Definition MAX_SAFE_TIMEOUT : Z := 2147483647.

Definition clampTimeoutDelay (delayMs : Z) : Z :=
  Z.min (Z.max 0 delayMs) MAX_SAFE_TIMEOUT.

(** [scheduleWithClampedTimeout(fn, delayMs)].  The closure state: the
    [cancelled] flag, what [remaining] holds, the delay of the timeout
    that is set and not yet fired or cleared, how often [fn] has run, and
    the time that has passed when a timeout fires. *)
Module Scheduler.

Record t : Type := mk {
  cancelled : bool;
  remaining : Z;
  pending : option Z;
  calls : nat;
  elapsed : Z
}.

(** [step()] *)
Definition step (s : t) : t :=
  if cancelled s then s
  else
    let take := Z.min (remaining s) MAX_SAFE_TIMEOUT in
    mk (cancelled s) (remaining s - take) (Some take) (calls s) (elapsed s).

(** The timeout that is set fires and its callback runs. *)
Definition fire (s : t) : t :=
  match pending s with
  | None => s
  | Some take =>
      let s1 := mk (cancelled s) (remaining s) None (calls s) (elapsed s + take) in
      if cancelled s1 then s1
      else if remaining s1 <=? 0
           then mk (cancelled s1) (remaining s1) None (S (calls s1)) (elapsed s1)
           else step s1
  end.

(** [cancel()] of the handle that is returned. *)
Definition cancel (s : t) : t :=
  mk true (remaining s) None (calls s) (elapsed s).

Definition scheduleWithClampedTimeout (delayMs : Z) : t :=
  step (mk false (Z.max 0 delayMs) None 0 0).

(** What can happen to a schedule, and a sequence of such events. *)
Inductive Event : Type := Fire | Cancel.

Definition handle (event : Event) (s : t) : t :=
  match event with
  | Fire => fire s
  | Cancel => cancel s
  end.

Fixpoint run (events : list Event) (s : t) : t :=
  match events with
  | [] => s
  | event :: rest => run rest (handle event s)
  end.

End Scheduler.

End TimeUtils.

(* ================================================================== *)
(** ** src/database/timerDatabase.ts *)
(* ================================================================== *)

Module TimerData.
Record t : Type := mk {
  id : Z;
  subject : string;
  date : string;
  total_minutes : Z;
  last_updated : string
}.
End TimerData.

Module HiddenSubject.
Record t : Type := mk {
  id : Z;
  subject : string;
  hidden_at : string
}.
End HiddenSubject.

(** One row of [getSubjectTotalsByDateRange]. *)
Module SubjectTotal.
Record t : Type := mk {
  subject : string;
  total_minutes : Z
}.
End SubjectTotal.

(** One row of [getSubjectDateAggregatedData]. *)
Module SubjectDate.
Record t : Type := mk {
  subject : string;
  date : string;
  total_minutes : Z
}.
End SubjectDate.

(** One row of [getDailyAggregatedData]. *)
Module DayTotal.
Record t : Type := mk {
  date : string;
  total_minutes : Z;
  subjects : list string
}.
End DayTotal.

(** [{ startDate, endDate }] *)
Module DateRange.
Record t : Type := mk {
  startDate : string;
  endDate : string
}.
End DateRange.

#[export] Instance TimerData_HasId : HasId TimerData.t := TimerData.id.
#[export] Instance HiddenSubject_HasId : HasId HiddenSubject.t := HiddenSubject.id.

(** What [new Date()] gives at the moment of a call. *)
Record Clock : Type := mkClock {
  today : TimeUtils.LocalDate;   (* new Date(), read in local time *)
  isoNow : string                (* new Date().toISOString()       *)
}.

Module TimerDatabase.

(** [writeCSV(filename, data)], the private copy of this class. *)
Definition writeCSV {T : Type} (faults : Fs.Faults) (data : list T)
  : Eff (Fs.Files (list T)) unit :=
  tryCatch
    (Fs.writeFileSync (Fs.writeTemp faults) Fs.Temp data ;;
     present <- Fs.existsSync Fs.Primary ;;
     when present (Fs.renameSync (Fs.renameToBackup faults) Fs.Primary Fs.Backup) ;;
     Fs.renameSync (Fs.renameIntoPlace faults) Fs.Temp Fs.Primary)%eff
    (fun error =>
       (tryCatch
          (saved <- Fs.existsSync Fs.Backup ;;
           when saved (Fs.renameSync (Fs.renameRestore faults) Fs.Backup Fs.Primary))
          (fun restoreError => ret tt) ;;
        throw error)%eff).

Definition getNextId {T : Type} `{HasId T} (data : list T) : Z :=
  match data with
  | [] => 1
  | item :: rest => Js.mathMax (idOf item) (map idOf rest) + 1
  end.

Definition normalizeSubject (subject : string) : string :=
  Js.toLowerCase (Js.trim subject).

Definition getCurrentLocalDate (clock : Clock) : string :=
  TimeUtils.localDateString (today clock).

(** The two tables of this class.  In the operations below a table is the
    row list [readCSV] returns and [writeCSV] replaces it, which is what
    the file-level [writeCSV] does when none of its calls fails. *)
Record Tables : Type := mkTables {
  timer_data : list TimerData.t;            (* timer_data.csv      *)
  hidden_subjects : list HiddenSubject.t    (* hidden_subjects.csv *)
}.

Definition readTimerData : Eff Tables (list TimerData.t) := gets timer_data.
Definition readHiddenSubjects : Eff Tables (list HiddenSubject.t) := gets hidden_subjects.

Definition writeTimerData (rows : list TimerData.t) : Eff Tables unit :=
  modify (fun tables => mkTables rows (hidden_subjects tables)).

Definition writeHiddenSubjects (rows : list HiddenSubject.t) : Eff Tables unit :=
  modify (fun tables => mkTables (timer_data tables) rows).

(** The predicate of [timerData.find(...)] in [addOrUpdateTimerData]. *)
Definition isEntryFor (normalizedSubject actualDate : string) (entry : TimerData.t) : bool :=
  (normalizeSubject (TimerData.subject entry) =? normalizedSubject)%string
  && (TimerData.date entry =? actualDate)%string.

(** [existingEntry.total_minutes += minutesToAdd;
     existingEntry.last_updated = new Date().toISOString()] *)
Definition bump (minutesToAdd : Z) (iso : string) (entry : TimerData.t) : TimerData.t :=
  TimerData.mk (TimerData.id entry) (TimerData.subject entry) (TimerData.date entry)
               (TimerData.total_minutes entry + minutesToAdd) iso.

(** [addOrUpdateTimerData(subject, date?, minutesToAdd = 1)].  The entry
    that [find] returns is an element of [timerData], so the two
    assignments change the array that is written back. *)
Definition addOrUpdateTimerData (clock : Clock) (subject : string)
    (date : option string) (minutes : option Z) : Eff Tables TimerData.t :=
  let minutesToAdd := match minutes with Some m => m | None => 1 end in
  let normalizedSubject := normalizeSubject subject in
  let actualDate := Js.orElse date (getCurrentLocalDate clock) in
  (timerData <- readTimerData ;;
   match Js.findIndex (isEntryFor normalizedSubject actualDate) timerData with
   | Some index =>
       let updated := Js.updateAt index (bump minutesToAdd (isoNow clock)) timerData in
       writeTimerData updated ;;
       ret (nth index updated (TimerData.mk 0 "" "" 0 ""))
   | None =>
       let id := getNextId timerData in
       let newEntry :=
         TimerData.mk id normalizedSubject actualDate minutesToAdd (isoNow clock) in
       writeTimerData (timerData ++ [newEntry]) ;;
       ret newEntry
   end)%eff.

Definition getAllTimerData : Eff Tables (list TimerData.t) := readTimerData.

(** [entry.date >= startDate && entry.date <= endDate] on strings. *)
Definition inRange (startDate endDate : string) (entry : TimerData.t) : bool :=
  String.leb startDate (TimerData.date entry) && String.leb (TimerData.date entry) endDate.

Definition getTimerDataByDateRange (startDate endDate : string)
  : Eff Tables (list TimerData.t) :=
  (allData <- getAllTimerData ;;
   ret (List.filter (inRange startDate endDate) allData))%eff.

(** The rows the three range queries work on. *)
Definition selectData (startDate endDate : option string) : Eff Tables (list TimerData.t) :=
  match startDate, endDate with
  | Some s, Some e =>
      if Js.truthy s && Js.truthy e then getTimerDataByDateRange s e
      else getAllTimerData
  | _, _ => getAllTimerData
  end.

(** [hideSubject(subject)] *)
Definition hideSubject (clock : Clock) (subject : string) : Eff Tables bool :=
  let normalizedSubject := normalizeSubject subject in
  (hiddenSubjects <- readHiddenSubjects ;;
   if existsb (fun hs => (HiddenSubject.subject hs =? normalizedSubject)%string) hiddenSubjects
   then ret false   (* already hidden *)
   else
     let id := getNextId hiddenSubjects in
     let newHiddenSubject := HiddenSubject.mk id normalizedSubject (isoNow clock) in
     writeHiddenSubjects (hiddenSubjects ++ [newHiddenSubject]) ;;
     ret true)%eff.

(** [deleteSubjectCompletely(subject)] *)
Definition deleteSubjectCompletely (subject : string) : Eff Tables bool :=
  let normalizedSubject := normalizeSubject subject in
  (timerData <- readTimerData ;;
   let filteredTimerData :=
     List.filter (fun entry => negb (TimerData.subject entry =? normalizedSubject)%string)
                 timerData in
   hiddenSubjects <- readHiddenSubjects ;;
   let filteredHiddenSubjects :=
     List.filter (fun hs => negb (HiddenSubject.subject hs =? normalizedSubject)%string)
                 hiddenSubjects in
   deleted <- (if (length filteredTimerData <? length timerData)%nat
               then (writeTimerData filteredTimerData ;; ret true)
               else ret false) ;;
   when (length filteredHiddenSubjects <? length hiddenSubjects)%nat
        (writeHiddenSubjects filteredHiddenSubjects) ;;
   ret deleted)%eff.

(** [checkIfSubjectExists(subject)] *)
Definition checkIfSubjectExists (subject : string) : Eff Tables bool :=
  let normalized := normalizeSubject subject in
  (timerData <- readTimerData ;;
   ret (existsb (fun entry =>
                   (normalizeSubject (TimerData.subject entry) =? normalized)%string)
                timerData))%eff.

(** [getHiddenSubjects()] *)
Definition getHiddenSubjects : Eff Tables (list string) :=
  (hiddenSubjects <- readHiddenSubjects ;;
   ret (map HiddenSubject.subject hiddenSubjects))%eff.

(** [getAllSubjects()] *)
Definition getAllSubjects : Eff Tables (list string) :=
  (timerData <- getAllTimerData ;;
   hiddenSubjects <- getHiddenSubjects ;;
   let allSubjects := Js.setOf (map TimerData.subject timerData) in
   (* Filter out hidden subjects *)
   ret (List.filter (fun subject => negb (Js.includes subject hiddenSubjects))
                    allSubjects))%eff.

(** [unhideSubject(subject)] *)
Definition unhideSubject (subject : string) : Eff Tables bool :=
  let normalizedSubject := normalizeSubject subject in
  (hiddenSubjects <- readHiddenSubjects ;;
   let filtered :=
     List.filter (fun hs => negb (HiddenSubject.subject hs =? normalizedSubject)%string)
                 hiddenSubjects in
   if (length filtered =? length hiddenSubjects)%nat
   then ret false   (* was not hidden *)
   else (writeHiddenSubjects filtered ;; ret true))%eff.

(** [getCurrentYearRange()] *)
Definition getCurrentYearRange (clock : Clock) : DateRange.t :=
  let year := TimeUtils.getFullYear (today clock) in
  DateRange.mk (Js.stringOfZ year ++ "-01-01") (Js.stringOfZ year ++ "-12-31").

(** A [Map<string, number>]: keys in insertion order, [set] on a key that
    is present keeps its place. *)
Fixpoint mapGet (key : string) (m : list (string * Z)) : option Z :=
  match m with
  | [] => None
  | (k, v) :: m' => if (k =? key)%string then Some v else mapGet key m'
  end.

Fixpoint mapSet (key : string) (value : Z) (m : list (string * Z)) : list (string * Z) :=
  match m with
  | [] => [(key, value)]
  | (k, v) :: m' =>
      if (k =? key)%string then (key, value) :: m' else (k, v) :: mapSet key value m'
  end.

Definition accumulate (totals : list (string * Z)) (entry : TimerData.t) : list (string * Z) :=
  let current := Js.orZero (mapGet (TimerData.subject entry) totals) in
  mapSet (TimerData.subject entry) (current + TimerData.total_minutes entry) totals.

Definition getSubjectTotalsByDateRange (startDate endDate : option string)
  : Eff Tables (list SubjectTotal.t) :=
  (data <- selectData startDate endDate ;;
   let totals := fold_left accumulate data [] in
   ret (Js.sort (fun a b => SubjectTotal.total_minutes b - SubjectTotal.total_minutes a)
                (map (fun kv => SubjectTotal.mk (fst kv) (snd kv)) totals)))%eff.

(** The value [dailyMap] holds for a date. *)
Record DayData : Type := mkDayData {
  day_minutes : Z;              (* total_minutes *)
  day_subjects : list string    (* subjects: Set<string> *)
}.

(** The body of the [forEach] in [getDailyAggregatedData]; [dayData] is
    the object the map holds, so the two updates change the map. *)
Definition addToDay (dailyMap : list (string * DayData)) (entry : TimerData.t)
  : list (string * DayData) :=
  let dailyMap1 :=
    if negb (Js.mapHas (TimerData.date entry) dailyMap)
    then Js.mapPut (TimerData.date entry) (mkDayData 0 []) dailyMap
    else dailyMap in
  match Js.mapFind (TimerData.date entry) dailyMap1 with
  | Some dayData =>
      Js.mapPut (TimerData.date entry)
                (mkDayData (day_minutes dayData + TimerData.total_minutes entry)
                           (Js.setAdd (TimerData.subject entry) (day_subjects dayData)))
                dailyMap1
  | None => dailyMap1
  end.

Section Collation.
(** [a.localeCompare(b)], fixed by the locale of the process. *)
Variable localeCompare : string -> string -> Z.

Definition getDailyAggregatedData (startDate endDate : option string)
  : Eff Tables (list DayTotal.t) :=
  (data <- selectData startDate endDate ;;
   let dailyMap := fold_left addToDay data [] in
   ret (Js.sort (fun a b => localeCompare (DayTotal.date b) (DayTotal.date a))
                (map (fun kv => DayTotal.mk (fst kv) (day_minutes (snd kv))
                                            (day_subjects (snd kv)))
                     dailyMap)))%eff.

Definition getSubjectDateAggregatedData (startDate endDate : option string)
  : Eff Tables (list SubjectDate.t) :=
  (data <- selectData startDate endDate ;;
   ret (Js.sort (fun a b => localeCompare (SubjectDate.date b) (SubjectDate.date a))
                (map (fun entry => SubjectDate.mk (TimerData.subject entry)
                                                 (TimerData.date entry)
                                                 (TimerData.total_minutes entry))
                     data)))%eff.
End Collation.

End TimerDatabase.

(* ================================================================== *)
(** ** src/main/store.ts *)
(* ================================================================== *)

Module DailyStat.
Record t : Type := mk {
  date : string;
  subject : string;
  timeInSubject : Z;
  breakMinutes : Z;
  pauseMinutes : Z
}.
End DailyStat.

Module SessionRow.
Record t : Type := mk {
  id : string;
  subjectId : option Z;
  subjectName : string;
  startTime : Z;
  endTime : option Z;
  durationMinutes : option Z;
  pausedSeconds : option Z
}.
End SessionRow.

(** The [increments] argument of [updateDailyStat]; every field optional. *)
Module Increments.
Record t : Type := mk {
  timeInSubject : option Z;
  breakMinutes : option Z;
  pauseMinutes : option Z
}.
End Increments.

Module Store.

(** The part of the electron-store [Schema] the operations below touch.
    [subjectTotals] holds the entries of the object, the [totalTime] of each
    under its key. *)
Record Schema : Type := mkSchema {
  subjectTotals : gmap string Z;
  dailyStats : list DailyStat.t;
  sessions : list SessionRow.t
}.

Definition defaults : Schema := mkSchema ∅ [] [].

(** [store.get(key)] hands out a copy; only [store.set] changes the store. *)
Definition getSubjectTotals : Eff Schema (gmap string Z) := gets subjectTotals.
Definition getDailyStats : Eff Schema (list DailyStat.t) := gets dailyStats.
Definition getSessions : Eff Schema (list SessionRow.t) := gets sessions.

Definition setSubjectTotals (totals : gmap string Z) : Eff Schema unit :=
  modify (fun s => mkSchema totals (dailyStats s) (sessions s)).

Definition setDailyStats (daily : list DailyStat.t) : Eff Schema unit :=
  modify (fun s => mkSchema (subjectTotals s) daily (sessions s)).

Definition setSessions (arr : list SessionRow.t) : Eff Schema unit :=
  modify (fun s => mkSchema (subjectTotals s) (dailyStats s) arr).

(** [String(subject || "").trim().toLowerCase()] *)
Definition keyOf (subject : string) : string := Js.toLowerCase (Js.trim subject).

(** What [totals[key]] is when a call returns it: the entry of the key,
    given by its [totalTime], or the value every object inherits under that
    name. *)
Inductive Total : Type :=
| Entry (totalTime : Z)
| InheritedValue.

(** [!totals[key]]: the object has no entry under [key] and inherits
    nothing under that name.  An entry is an object, which is truthy. *)
Definition lacks (totals : gmap string Z) (key : string) : bool :=
  match totals !! key with
  | Some _ => false
  | None => negb (Js.inherited key)
  end.

Definition incrementSubjectTotal (subjectName : string) (minutes : Z) : Eff Schema Total :=
  let key := keyOf subjectName in
  if negb (Js.truthy key) then throw "Invalid subject name"
  else
    (totals <- getSubjectTotals ;;
     let totals1 := if lacks totals key then <[key := 0]> totals else totals in
     match totals1 !! key with
     | Some totalTime =>
         let totalTime' := totalTime + Js.clamp0 minutes in
         setSubjectTotals (<[key := totalTime']> totals1) ;;
         ret (Entry totalTime')
     | None =>
         (* [totals[key]] is the inherited value: the sum is assigned to a
            property of that value, which is no part of the store *)
         setSubjectTotals totals1 ;;
         ret InheritedValue
     end)%eff.

Definition addDailyStat (stat : DailyStat.t) : Eff Schema DailyStat.t :=
  let s := DailyStat.mk (DailyStat.date stat)
                        (keyOf (DailyStat.subject stat))
                        (Js.clamp0 (DailyStat.timeInSubject stat))
                        (Js.clamp0 (DailyStat.breakMinutes stat))
                        (Js.clamp0 (DailyStat.pauseMinutes stat)) in
  (daily <- getDailyStats ;;
   setDailyStats (daily ++ [s]) ;;
   (* keep subject totals in sync *)
   incrementSubjectTotal (DailyStat.subject s) (DailyStat.timeInSubject s) ;;
   ret s)%eff.

(** The predicate of [daily.findIndex(...)] in [updateDailyStat]. *)
Definition isRowFor (date key : string) (d : DailyStat.t) : bool :=
  (DailyStat.date d =? date)%string && (DailyStat.subject d =? key)%string.

(** The three assignments to [daily[idx]]. *)
Definition addInto (safeTime safeBreak safePause : Z) (d : DailyStat.t) : DailyStat.t :=
  DailyStat.mk (DailyStat.date d) (DailyStat.subject d)
               (Js.clamp0 (DailyStat.timeInSubject d + safeTime))
               (Js.clamp0 (DailyStat.breakMinutes d + safeBreak))
               (Js.clamp0 (DailyStat.pauseMinutes d + safePause)).

Definition noStat : DailyStat.t := DailyStat.mk "" "" 0 0 0.

Definition updateDailyStat (date subject : string) (increments : Increments.t)
  : Eff Schema DailyStat.t :=
  let key := keyOf subject in
  if negb (Js.truthy date) || negb (Js.truthy key)
  then throw "date and subject are required for updateDailyStat"
  else
    let safeTime := Js.clamp0 (Js.orZero (Increments.timeInSubject increments)) in
    let safeBreak := Js.clamp0 (Js.orZero (Increments.breakMinutes increments)) in
    let safePause := Js.clamp0 (Js.orZero (Increments.pauseMinutes increments)) in
    (daily <- getDailyStats ;;
     match Js.findIndex (isRowFor date key) daily with
     | None =>
         let newRow := DailyStat.mk date key safeTime safeBreak safePause in
         setDailyStats (daily ++ [newRow]) ;;
         (* Keep subjectTotals in sync *)
         (if 0 <? safeTime
          then (incrementSubjectTotal key safeTime ;; ret tt)
          else ret tt) ;;
         ret newRow
     | Some idx =>
         let before := DailyStat.timeInSubject (nth idx daily noStat) in
         let daily1 := Js.updateAt idx (addInto safeTime safeBreak safePause) daily in
         setDailyStats daily1 ;;
         let delta := DailyStat.timeInSubject (nth idx daily1 noStat) - before in
         (if 0 <? delta
          then (incrementSubjectTotal key delta ;; ret tt)
          else ret tt) ;;
         ret (nth idx daily1 noStat)
     end)%eff.

Definition noSession : SessionRow.t := SessionRow.mk "" None "" 0 None None None.

(** [startSessionInStore(subjectName, subjectId)].  [id] is the value of
    [makeSessionId()] and [now] that of [Date.now()]. *)
Definition startSessionInStore (id : string) (now : Z) (subjectName : string)
    (subjectId : option Z) : Eff Schema SessionRow.t :=
  let row := SessionRow.mk id subjectId
               (Js.trim (if Js.truthy subjectName then subjectName else "general"))
               now None None None in
  (arr <- getSessions ;;
   setSessions (arr ++ [row]) ;;
   ret row)%eff.

(** The assignments to [row] in [completeSessionInStore]. *)
Definition finish (now durationMinutes pausedSeconds : Z) (row : SessionRow.t) : SessionRow.t :=
  SessionRow.mk (SessionRow.id row) (SessionRow.subjectId row) (SessionRow.subjectName row)
                (SessionRow.startTime row)
                (Some now)
                (Some (Js.clamp0 durationMinutes))
                (Some (Js.clamp0 pausedSeconds)).

Section Zone.
(** [new Date(epochMs)] read in the machine's time zone. *)
Variable zone : Z -> TimeUtils.LocalDate.

Definition completeSessionInStore (now : Z) (sessionId : string)
    (durationMinutes pausedSeconds : Z) : Eff Schema SessionRow.t :=
  (arr <- getSessions ;;
   match Js.findIndex (fun r => (SessionRow.id r =? sessionId)%string) arr with
   | None => throw "session not found"
   | Some idx =>
       let row := finish now durationMinutes pausedSeconds (nth idx arr noSession) in
       setSessions (Js.updateAt idx (fun _ => row) arr) ;;
       (* merge into daily stats using local date derived from startTime *)
       let date := TimeUtils.localDateString (zone (SessionRow.startTime row)) in
       updateDailyStat date (SessionRow.subjectName row)
         (Increments.mk (Some (Js.orZero (SessionRow.durationMinutes row))) (Some 0) (Some 0)) ;;
       ret row
   end)%eff.

End Zone.

(** The assignments to the copied [row] in [updateSessionProgress]. *)
Definition progress (activeSeconds pausedSeconds : Z) (row : SessionRow.t) : SessionRow.t :=
  SessionRow.mk (SessionRow.id row) (SessionRow.subjectId row) (SessionRow.subjectName row)
                (SessionRow.startTime row) (SessionRow.endTime row)
                (Some (Js.clamp0 (activeSeconds / 60)))
                (Some (Js.clamp0 pausedSeconds)).

(** [updateSessionProgress(sessionId, activeSeconds, pausedSeconds)];
    [null] is [None]. *)
Definition updateSessionProgress (sessionId : string) (activeSeconds pausedSeconds : Z)
  : Eff Schema (option SessionRow.t) :=
  if negb (Js.truthy sessionId) then throw "sessionId required"
  else
    (arr <- getSessions ;;
     match Js.findIndex (fun r => (SessionRow.id r =? sessionId)%string) arr with
     | None => ret None   (* no session found, nothing to update *)
     | Some idx =>
         let row := progress activeSeconds pausedSeconds (nth idx arr noSession) in
         setSessions (Js.updateAt idx (fun _ => row) arr) ;;
         ret (Some row)
     end)%eff.

(** [addSubjectTotal(subjectName)] *)
Definition addSubjectTotal (subjectName : string) : Eff Schema Total :=
  let key := keyOf subjectName in
  if negb (Js.truthy key) then throw "Invalid subject name"
  else
    (totals <- getSubjectTotals ;;
     let totals1 := if lacks totals key then <[key := 0]> totals else totals in
     setSubjectTotals totals1 ;;
     ret (match totals1 !! key with
          | Some totalTime => Entry totalTime
          | None => InheritedValue
          end))%eff.

Definition addSubject (subjectName : string) : Eff Schema Total := addSubjectTotal subjectName.

(** [removeSubjectFromStore(subjectName)]; [delete totals[key]] removes
    the entry of the key when there is one and does nothing otherwise. *)
Definition removeSubjectFromStore (subjectName : string) : Eff Schema bool :=
  let key := keyOf subjectName in
  (totals <- getSubjectTotals ;;
   if negb (lacks totals key) then
     (setSubjectTotals (delete key totals) ;;
      daily <- getDailyStats ;;
      setDailyStats (List.filter (fun r => negb (DailyStat.subject r =? key)%string) daily) ;;
      ret true)
   else ret false)%eff.

Definition getDailyStatsByDate (date : string) : Eff Schema (list DailyStat.t) :=
  (daily <- getDailyStats ;;
   ret (List.filter (fun d => (DailyStat.date d =? date)%string) daily))%eff.

Definition getAllSessionsFromStore : Eff Schema (list SessionRow.t) := getSessions.

Section Dates.
Variable zone : Z -> TimeUtils.LocalDate.

Definition getSessionsForDate (date : string) : Eff Schema (list SessionRow.t) :=
  (all <- getAllSessionsFromStore ;;
   ret (List.filter
          (fun s => (TimeUtils.localDateString (zone (SessionRow.startTime s)) =? date)%string)
          all))%eff.

Definition getSessionsBetweenDates (startDate endDate : string)
  : Eff Schema (list SessionRow.t) :=
  (all <- getAllSessionsFromStore ;;
   ret (List.filter
          (fun s =>
             let d := TimeUtils.localDateString (zone (SessionRow.startTime s)) in
             String.leb startDate d && String.leb d endDate)
          all))%eff.

End Dates.

(** [clearStore()], on the keys of the schema modelled here. *)
Definition clearStore : Eff Schema unit := modify (fun _ => defaults).

End Store.

(* ================================================================== *)
(** ** src/database/aggregators.ts *)
(* ================================================================== *)

(** One row of [getSubjectTimeStats]. *)
Module SubjectStat.
Record t : Type := mk {
  subject : string;
  total_minutes : Z;
  session_count : Z
}.
End SubjectStat.

Module Aggregators.

Definition getDailyStatsBetweenDates (startDate endDate : option string)
  : Eff Store.Schema (list DailyStat.t) :=
  match startDate, endDate with
  | Some s, Some e =>
      if negb (Js.truthy s) || negb (Js.truthy e) then Store.getDailyStats
      else
        (all <- Store.getDailyStats ;;
         ret (List.filter
                (fun r => String.leb s (DailyStat.date r) && String.leb (DailyStat.date r) e)
                all))%eff
  | _, _ => Store.getDailyStats
  end.

(** The body of the loop of [getSubjectTimeStats]; [map] lists the
    entries of the object in the order they were created.  Where the object
    has no entry for the subject and inherits a value under that name,
    [map[subject]] is that value: no entry is created, and the two additions
    go to properties of the inherited value. *)
Definition countRow (map : list (string * SubjectStat.t)) (row : DailyStat.t)
  : list (string * SubjectStat.t) :=
  let subject := DailyStat.subject row in
  let map1 :=
    if negb (Js.mapHas subject map || Js.inherited subject)
    then Js.mapPut subject (SubjectStat.mk subject 0 0) map
    else map in
  match Js.mapFind subject map1 with
  | Some stat =>
      Js.mapPut subject
                (SubjectStat.mk (SubjectStat.subject stat)
                                (SubjectStat.total_minutes stat + DailyStat.timeInSubject row)
                                (SubjectStat.session_count stat + 1))
                map1
  | None => map1
  end.

(** [getSubjectTimeStats(startDate?, endDate?)] *)
Definition getSubjectTimeStats (startDate endDate : option string)
  : Eff Store.Schema (list SubjectStat.t) :=
  (daily <- getDailyStatsBetweenDates startDate endDate ;;
   let map := fold_left countRow daily [] in
   ret (Js.sort (fun a b => SubjectStat.total_minutes b - SubjectStat.total_minutes a)
                (Js.objectValues map)))%eff.

End Aggregators.

(* ================================================================== *)
(** ** src/main/timer.ts and the session handlers of src/main.ts *)
(* ================================================================== *)

(** [{ id, startTime }] *)
Module Started.
Record t : Type := mk {
  id : string;
  startTime : Z
}.
End Started.

Module Timer.

Definition completeSession (zone : Z -> TimeUtils.LocalDate) (now : Z) (sessionId : string)
    (durationMinutes pausedSeconds : Z) : Eff Store.Schema SessionRow.t :=
  (completed <- Store.completeSessionInStore zone now sessionId durationMinutes pausedSeconds ;;
   ret completed)%eff.

(** [saveSessionProgress(sessionId, activeSeconds, pausedSeconds)];
    [sessionId] is a string or a number. *)
Definition saveSessionProgress (sessionId : string + Z) (activeSeconds pausedSeconds : Z)
  : Eff Store.Schema (option SessionRow.t) :=
  Store.updateSessionProgress
    (match sessionId with inl s => s | inr n => Js.stringOfZ n end)
    activeSeconds pausedSeconds.

(** The CSV tables and the store, both of which [startSession] uses. *)
Record State : Type := mkState {
  tables : CsvDatabase.Csv;
  pomodoro : Store.Schema
}.

Definition onTables {A : Type} (m : Eff CsvDatabase.Csv A) : Eff State A :=
  fun st => let '(db, r) := m (tables st) in (mkState db (pomodoro st), r).

Definition onPomodoro {A : Type} (m : Eff Store.Schema A) : Eff State A :=
  fun st => let '(store, r) := m (pomodoro st) in (mkState (tables st) store, r).

(** [startSession(subjectIdentifier)]: a subject id of the subject table
    ([inl]) or a subject name ([inr]); [sessionId] is the value of
    [makeSessionId()] and [now] that of [Date.now()]. *)
Definition startSession (coercion : Value.Coercion) (sessionId : string) (now : Z)
    (subjectIdentifier : Z + string) : Eff State Started.t :=
  (resolved <-
     match subjectIdentifier with
     | inl number =>
         tryCatch
           (rows <- onTables (Crud.query coercion "subjects" [("id", Value.Num number)]
                                         (Crud.mkOptions None (Some 1))) ;;
            ret (match rows with
                 | Crud.SubjectRows (row :: _) =>
                     (if Js.truthy (Subject.name row) then Subject.name row else "general",
                      if Subject.id row =? 0 then None else Some (Subject.id row))
                 | _ => ("general", None)
                 end))
           (fun err => ret ("general", None))
     | inr name => ret (if Js.truthy name then name else "general", None)
     end ;;
   let subjectName := fst resolved in
   let subjectRefId : option Z := snd resolved in
   (* ensure subject exists in store totals map *)
   onPomodoro (Store.addSubject subjectName) ;;
   session <- onPomodoro (Store.startSessionInStore sessionId now subjectName subjectRefId) ;;
   ret (Started.mk (SessionRow.id session) (SessionRow.startTime session)))%eff.

End Timer.

Module Main.

(** The main process: the store and what went to the console. *)
Record Process : Type := mkProcess {
  store : Store.Schema;
  console : list string
}.

Definition onStore {A : Type} (m : Eff Store.Schema A) : Eff Process A :=
  fun p =>
    let '(s, r) := m (store p) in (mkProcess s (console p), r).

Definition consoleLog (line : string) : Eff Process unit :=
  modify (fun p => mkProcess (store p) (console p ++ [line])).

(** [validateIPCSender(event)]; [trusted] says whether the sender frame is
    one of the application's own. *)
Definition validateIPCSender (trusted : bool) : Eff Process bool :=
  if trusted then ret true
  else (consoleLog "Blocked IPC call from untrusted source" ;; ret false)%eff.

(** [ipcMain.handle("sessions:complete", ...)] *)
Definition sessionsComplete (trusted : bool) (zone : Z -> TimeUtils.LocalDate) (now : Z)
    (sessionId : string) (durationMinutes pausedSeconds : Z) : Eff Process bool :=
  (ok <- validateIPCSender trusted ;;
   if negb ok then ret false
   else
     tryCatch
       (onStore (Timer.completeSession zone now sessionId durationMinutes pausedSeconds) ;;
        ret true)
       (fun error =>
          consoleLog ("Error completing session: " ++ error) ;;
          ret false))%eff.

(** [{ ok, error? }] *)
Record Ack : Type := mkAck {
  ok : bool;
  error : option string
}.

(** [ipcMain.handle("sessions:updateProgress", ...)]; [String(error)] of
    an [Error] is "Error: " followed by its message. *)
Definition sessionsUpdateProgress (trusted : bool) (sessionId : string)
    (activeSeconds pausedSeconds : Z) : Eff Process Ack :=
  (allowed <- validateIPCSender trusted ;;
   if negb allowed then ret (mkAck false (Some "unauthorized"))
   else
     tryCatch
       (onStore (Store.updateSessionProgress sessionId activeSeconds pausedSeconds) ;;
        ret (mkAck true None))
       (fun error =>
          consoleLog ("Error updating session progress: " ++ error) ;;
          ret (mkAck false (Some ("Error: " ++ error)%string))))%eff.

(** The [payload] of "sessions:saveProgress"; a field that is [None] is
    absent, and a payload that is [null] has every field absent. *)
Record Payload : Type := mkPayload {
  payloadSessionId : option string;     (* sessionId     *)
  payloadActiveSeconds : option Z;      (* activeSeconds *)
  payloadPausedSeconds : option Z;      (* pausedSeconds *)
  payloadBreakSeconds : option Z;       (* breakSeconds  *)
  payloadPersistPause : option bool     (* persistPause  *)
}.

(** [ipcMain.handle("sessions:saveProgress", ...)]; [today] is what
    [new Date()] shows in local time. *)
Definition sessionsSaveProgress (trusted : bool) (today : TimeUtils.LocalDate)
    (payload : Payload) : Eff Process Ack :=
  (allowed <- validateIPCSender trusted ;;
   if negb allowed then ret (mkAck false (Some "unauthorized"))
   else
     tryCatch
       (let sessionId := payloadSessionId payload in
        let activeSeconds := default 0 (payloadActiveSeconds payload) in
        let pausedSeconds := default 0 (payloadPausedSeconds payload) in
        let breakSeconds := default 0 (payloadBreakSeconds payload) in
        let persistPause := default false (payloadPersistPause payload) in
        match sessionId with
        | Some id =>
            when (Js.truthy id)
                 (tryCatch
                    (onStore (Store.updateSessionProgress id activeSeconds pausedSeconds) ;;
                     ret tt)
                    (fun err => consoleLog ("updateSessionProgress failed: " ++ err)))
        | None => ret tt
        end ;;
        let date := TimeUtils.localDateString today in
        when (0 <? breakSeconds)
             (tryCatch
                (onStore (Store.updateDailyStat date "break"
                            (Increments.mk None (Some (Js.ceilDiv breakSeconds 60)) None)) ;;
                 ret tt)
                (fun err => consoleLog ("updateDailyStat (break) failed: " ++ err))) ;;
        when (persistPause && (0 <? pausedSeconds))
             (tryCatch
                (onStore (Store.updateDailyStat date "pause"
                            (Increments.mk None None (Some (Js.ceilDiv pausedSeconds 60)))) ;;
                 ret tt)
                (fun err => consoleLog ("updateDailyStat (pause) failed: " ++ err))) ;;
        ret (mkAck true None))
       (fun error =>
          consoleLog ("Error saving session progress: " ++ error) ;;
          ret (mkAck false (Some ("Error: " ++ error)%string))))%eff.

End Main.

(* ================================================================== *)
(** ** The reminder module *)
(* ================================================================== *)

Module Reminder.
Record t : Type := mk {
  id : string;
  title : string;
  body : option string;
  timestamp : Z      (* epoch ms *)
}.
End Reminder.

Module Reminders.

(** The reminder file with its [.tmp] and [.bak] siblings, the
    notifications shown so far (oldest first, each recorded as the reminder
    it was shown for) and the console. *)
Record Process : Type := mkProcess {
  files : Fs.Files (list Reminder.t);
  shown : list Reminder.t;
  console : list string
}.

Definition onFiles {A : Type} (m : Eff (Fs.Files (list Reminder.t)) A) : Eff Process A :=
  fun p =>
    let '(fs, r) := m (files p) in (mkProcess fs (shown p) (console p), r).

Definition consoleLog (line : string) : Eff Process unit :=
  modify (fun p => mkProcess (files p) (shown p) (console p ++ [line])).

(** What [loadReminders] pushes for a stored record whose timestamp is a
    number: [body] is kept only when it is truthy. *)
Definition normalized (r : Reminder.t) : Reminder.t :=
  Reminder.mk (Reminder.id r) (Reminder.title r)
              (match Reminder.body r with
               | Some b => if Js.truthy b then Some b else None
               | None => None
               end)
              (Reminder.timestamp r).

(** [loadReminders()].  The file holds records with numeric timestamps, as
    [saveReminders] writes them; a file that cannot be read gives [[]]. *)
Definition loadReminders : Eff (Fs.Files (list Reminder.t)) (list Reminder.t) :=
  gets (fun fs =>
          match Fs.primary fs with
          | Some stored => map normalized stored
          | None => []
          end).

Definition saveReminders (faults : Fs.Faults) (data : list Reminder.t)
  : Eff (Fs.Files (list Reminder.t)) unit :=
  tryCatch
    (Fs.writeFileSync (Fs.writeTemp faults) Fs.Temp data ;;
     present <- Fs.existsSync Fs.Primary ;;
     when present (Fs.renameSync (Fs.renameToBackup faults) Fs.Primary Fs.Backup) ;;
     Fs.renameSync (Fs.renameIntoPlace faults) Fs.Temp Fs.Primary)%eff
    (fun error =>
       (tryCatch
          (saved <- Fs.existsSync Fs.Backup ;;
           when saved (Fs.renameSync (Fs.renameRestore faults) Fs.Backup Fs.Primary))
          (fun restoreError => ret tt) ;;
        throw error)%eff).

(** [showNotification(r.title, r.body, mainWindow)]; it never throws. *)
Definition showNotification (r : Reminder.t) : Eff Process unit :=
  modify (fun p => mkProcess (files p) (shown p ++ [r]) (console p)).

Fixpoint forEach {S A : Type} (l : list A) (f : A -> Eff S unit) : Eff S unit :=
  match l with
  | [] => ret tt
  | x :: l' => (f x ;; forEach l' f)%eff
  end.

Definition isDue (now : Z) (r : Reminder.t) : bool := Reminder.timestamp r <=? now.
Definition isLater (now : Z) (r : Reminder.t) : bool := now <? Reminder.timestamp r.

(** The closure [check] of [startReminderChecker]: one poll tick at time
    [now]; [faults] says which calls of its [saveReminders] throw. *)
Definition check (faults : Fs.Faults) (now : Z) : Eff Process unit :=
  tryCatch
    (list <- onFiles loadReminders ;;
     match list with
     | [] => ret tt
     | _ =>
         let due := List.filter (isDue now) list in
         match due with
         | [] => ret tt
         | _ =>
             let remaining := List.filter (isLater now) list in
             forEach due showNotification ;;
             onFiles (saveReminders faults remaining)
         end
     end)%eff
    (fun err => consoleLog ("Reminder checker failed: " ++ err)).

(** [startReminderChecker]: [check] runs at once and then at every
    interval; [ticks] lists the time of each run and the faults of its save. *)
Fixpoint startReminderChecker (ticks : list (Z * Fs.Faults)) : Eff Process unit :=
  match ticks with
  | [] => ret tt
  | (now, faults) :: later => (check faults now ;; startReminderChecker later)%eff
  end.

(** [ipcMain.handle("reminder:add", ...)]; [ts] is
    [normalizeTimestamp(rem.timestamp)], [None] for [null]. *)
Definition reminderAdd (faults : Fs.Faults) (id title : string) (body : option string)
    (ts : option Z) : Eff Process Reminder.t :=
  tryCatch
    (list <- onFiles loadReminders ;;
     match ts with
     | None => throw "Invalid reminder timestamp"
     | Some stamp =>
         let item := normalized (Reminder.mk id title body stamp) in
         let sorted :=
           Js.sort (fun a b => Reminder.timestamp a - Reminder.timestamp b) (list ++ [item]) in
         onFiles (saveReminders faults sorted) ;;
         ret item
     end)%eff
    (fun err => (consoleLog ("reminder:add failed: " ++ err) ;; throw err)%eff).

(** [ipcMain.handle("reminder:list", ...)] *)
Definition reminderList : Eff Process (list Reminder.t) :=
  tryCatch
    (onFiles loadReminders)
    (fun err => (consoleLog ("reminder:list failed: " ++ err) ;; ret [])%eff).

(** [ipcMain.handle("reminder:remove", ...)] *)
Definition reminderRemove (faults : Fs.Faults) (id : string) : Eff Process bool :=
  tryCatch
    (list <- onFiles loadReminders ;;
     onFiles (saveReminders faults
                (List.filter (fun r => negb (Reminder.id r =? id)%string) list)) ;;
     ret true)%eff
    (fun err => (consoleLog ("reminder:remove failed: " ++ err) ;; ret false)%eff).

End Reminders.

(* ================================================================== *)
(** ** Notions the properties are stated with *)
(* ================================================================== *)

(** [save] fails on [fs] with the error of its failing step and leaves
    the primary file with the content it had. *)
Definition failsKeepingPrimary {T : Type} (faults : Fs.Faults) (fs : Fs.Files (list T))
    (save : Eff (Fs.Files (list T)) unit) : Prop :=
  Fs.primary (fst (save fs)) = Fs.primary fs /\
  exists step, Fs.failingStep faults fs = Some step /\
               snd (save fs) = Thrown (Fs.errorOf step).

(** Calls on the todo table and what a caller observes of them. *)
Module TodoTrace.

Inductive Call : Type :=
| AddTodo (todo : Todo.t)
| DeleteTodo (id : Z).

Inductive Event : Type :=
| Assigned (id : Z)    (* addTodo returned id           *)
| Deleted (id : Z).    (* deleteTodo(id) returned true  *)

Definition step (call : Call) (table : list Todo.t) : list Todo.t * list Event :=
  match call with
  | AddTodo todo =>
      match CsvDatabase.addTodo todo table with
      | (table', Returned id) => (table', [Assigned id])
      | (table', Thrown _) => (table', [])
      end
  | DeleteTodo id =>
      match CsvDatabase.deleteTodo id table with
      | (table', Returned true) => (table', [Deleted id])
      | (table', _) => (table', [])
      end
  end.

Fixpoint run (calls : list Call) (table : list Todo.t) : list Todo.t * list Event :=
  match calls with
  | [] => (table, [])
  | call :: rest =>
      let '(table1, events1) := step call table in
      let '(table2, events2) := run rest table1 in
      (table2, events1 ++ events2)
  end.

(** Some insert hands out the id of a record deleted earlier. *)
Definition reusesDeletedId (events : list Event) : Prop :=
  exists before id after,
    events = before ++ Assigned id :: after /\ In (Deleted id) before.

End TodoTrace.

(** What a todo holds apart from its due date. *)
Definition apartFromDue (todo : Todo.t) : Todo.t :=
  Todo.mk (Todo.id todo) (Todo.date todo) (Todo.text todo) (Todo.done todo)
          (Todo.starred todo) None (Todo.created_at todo).

(** What the aggregation claims speak about. *)
Definition sumZ (l : list Z) : Z := fold_right Z.add 0 l.

Module TimerSpec.

(** The key an entry is looked up by: normalised subject and date. *)
Definition keyOfEntry (entry : TimerData.t) : string * string :=
  (TimerDatabase.normalizeSubject (TimerData.subject entry), TimerData.date entry).

(** At most one entry per normalised (subject, date). *)
Definition uniqueKeys (table : list TimerData.t) : Prop :=
  List.NoDup (map keyOfEntry table).

(** The entries of one key and the minutes they hold. *)
Definition entriesFor (subject date : string) (table : list TimerData.t) : list TimerData.t :=
  List.filter (TimerDatabase.isEntryFor subject date) table.

Definition minutesFor (subject date : string) (table : list TimerData.t) : Z :=
  sumZ (map TimerData.total_minutes (entriesFor subject date table)).

(** Sum of the minutes of the rows of one subject in the flat
    per-entry projection. *)
Definition minutesOfSubject (subject : string) (rows : list SubjectDate.t) : Z :=
  sumZ (map SubjectDate.total_minutes
            (List.filter (fun r => (SubjectDate.subject r =? subject)%string) rows)).

(** The total reported for one subject, zero when it has no row. *)
Definition totalFor (subject : string) (totals : list SubjectTotal.t) : Z :=
  match List.find (fun r => (SubjectTotal.subject r =? subject)%string) totals with
  | Some r => SubjectTotal.total_minutes r
  | None => 0
  end.

(** The rows [selectData] returns; it reads and changes nothing. *)
Definition selected (startDate endDate : option string) (tables : TimerDatabase.Tables) : list TimerData.t :=
  match startDate, endDate with
  | Some s, Some e =>
      if Js.truthy s && Js.truthy e
      then List.filter (TimerDatabase.inRange s e) (TimerDatabase.timer_data tables)
      else TimerDatabase.timer_data tables
  | _, _ => TimerDatabase.timer_data tables
  end.

(** Minutes of one subject among timer entries. *)
Definition subjectSum (subject : string) (data : list TimerData.t) : Z :=
  sumZ (map TimerData.total_minutes
            (List.filter (fun e => (TimerData.subject e =? subject)%string) data)).

(** Minutes held under one key of the [Map]. *)
Definition assocSum (subject : string) (m : list (string * Z)) : Z :=
  sumZ (map snd (List.filter (fun kv => (fst kv =? subject)%string) m)).

(** The filter of [deleteSubjectCompletely]. *)
Definition keepsOther (key : string) (subject : string) : bool := negb (subject =? key)%string.

(** The names in the hidden-subjects table. *)
Definition hiddenNames (tables : TimerDatabase.Tables) : list string :=
  map HiddenSubject.subject (TimerDatabase.hidden_subjects tables).

(** Every stored subject is in the form [normalizeSubject] gives. *)
Definition normalised (table : list TimerData.t) : Prop :=
  List.Forall (fun e => TimerDatabase.normalizeSubject (TimerData.subject e)
                        = TimerData.subject e) table.

(** The entries of one date, their minutes and their subjects in the
    order they first occur. *)
Definition onDate (date : string) (data : list TimerData.t) : list TimerData.t :=
  List.filter (fun e => (TimerData.date e =? date)%string) data.

Definition dateSum (date : string) (data : list TimerData.t) : Z :=
  sumZ (map TimerData.total_minutes (onDate date data)).

Definition subjectsOn (date : string) (data : list TimerData.t) : list string :=
  Js.setOf (map TimerData.subject (onDate date data)).

(** What the loop body of [getDailyAggregatedData] does to the value
    held for the entry's date, and the value a date starts with. *)
Definition countIn (dayData : TimerDatabase.DayData) (entry : TimerData.t)
  : TimerDatabase.DayData :=
  TimerDatabase.mkDayData
    (TimerDatabase.day_minutes dayData + TimerData.total_minutes entry)
    (Js.setAdd (TimerData.subject entry) (TimerDatabase.day_subjects dayData)).

Definition emptyDay : TimerDatabase.DayData := TimerDatabase.mkDayData 0 [].

(** Non-increasing totals. *)
Definition ranked (rows : list SubjectTotal.t) : Prop :=
  StronglySorted
    (fun a b => SubjectTotal.total_minutes b <= SubjectTotal.total_minutes a) rows.

End TimerSpec.

(** What the reminder claim speaks about. *)
Module ReminderSpec.

Definition Reminder_eq_dec (x y : Reminder.t) : {x = y} + {x <> y}.
Proof.
  decide equality; try apply Z.eq_dec; try apply string_dec.
  decide equality; apply string_dec.
Defined.

(** How many times [r] stands in a list of reminders. *)
Definition countOf (r : Reminder.t) (l : list Reminder.t) : nat :=
  count_occ Reminder_eq_dec l r.

(** The reminders the file holds, as [loadReminders] reads them. *)
Definition stored (fs : Fs.Files (list Reminder.t)) : list Reminder.t :=
  match Fs.primary fs with
  | Some records => map Reminders.normalized records
  | None => []
  end.

(** Ascending timestamps. *)
Definition ascending (l : list Reminder.t) : Prop :=
  StronglySorted (fun a b => Reminder.timestamp a <= Reminder.timestamp b) l.

(** Poll ticks at the given times whose save does not fail. *)
Definition quiet (times : list Z) : list (Z * Fs.Faults) :=
  map (fun now => (now, Fs.noFaults)) times.

(** The calls that reach the reminder file: the two IPC handlers and the
    poll tick, none of them with a failing save. *)
Inductive Request : Type :=
| Add (id title : string) (body : option string) (ts : option Z)
| Remove (id : string)
| Tick (now : Z).

Definition serve (request : Request) : Eff Reminders.Process unit :=
  match request with
  | Add id title body ts =>
      tryCatch (Reminders.reminderAdd Fs.noFaults id title body ts ;; ret tt)%eff
               (fun _ => ret tt)
  | Remove id => (Reminders.reminderRemove Fs.noFaults id ;; ret tt)%eff
  | Tick now => Reminders.check Fs.noFaults now
  end.

Fixpoint serveAll (requests : list Request) : Eff Reminders.Process unit :=
  match requests with
  | [] => ret tt
  | request :: rest => (serve request ;; serveAll rest)%eff
  end.

(** The comparator of the [sort] in [reminder:add]. *)
Definition byTimestamp (a b : Reminder.t) : Z := Reminder.timestamp a - Reminder.timestamp b.

End ReminderSpec.

(** What the daily-stat claim speaks about: the minutes the rows hold
    for a key and for a subject, the subject totals, and the ledger of what
    the calls of a run were asked to add. *)
Module StatSpec.

Definition timeInSubjectOf (date subject : string) (daily : list DailyStat.t) : Z :=
  sumZ (map DailyStat.timeInSubject (List.filter (Store.isRowFor date subject) daily)).

Definition timeOfSubject (subject : string) (daily : list DailyStat.t) : Z :=
  sumZ (map DailyStat.timeInSubject
            (List.filter (fun d => (DailyStat.subject d =? subject)%string) daily)).

Definition totalOf (subject : string) (totals : gmap string Z) : Z :=
  default 0 (totals !! subject).

(** The subject totals agree with the rows. *)
Definition inSync (store : Store.Schema) : Prop :=
  forall subject,
    totalOf subject (Store.subjectTotals store)
    = timeOfSubject subject (Store.dailyStats store).

(** The same for the subjects whose name is not one every object
    inherits. *)
Definition inSyncOrdinary (store : Store.Schema) : Prop :=
  forall subject,
    Js.inherited subject = false ->
    totalOf subject (Store.subjectTotals store)
    = timeOfSubject subject (Store.dailyStats store).

Definition nonNegative (daily : list DailyStat.t) : Prop :=
  List.Forall (fun d => 0 <= DailyStat.timeInSubject d) daily.

(** The calls that reach the daily stats. *)
Inductive Call : Type :=
| UpdateDailyStat (date subject : string) (increments : Increments.t)
| AddDailyStat (stat : DailyStat.t)
| StartSession (id : string) (now : Z) (subjectName : string) (subjectId : option Z)
| CompleteSession (now : Z) (sessionId : string) (durationMinutes pausedSeconds : Z).

Definition sameKey (date subject date' subject' : string) : bool :=
  (date' =? date)%string && (subject' =? subject)%string.

(** The optional call of [incrementSubjectTotal] that follows a change of
    [timeInSubject] by [delta]. *)
Definition syncTotals (key : string) (delta : Z) (store : Store.Schema) : Store.Schema :=
  if 0 <? delta then fst (Store.incrementSubjectTotal key delta store) else store.

(** [store'] is [store] with [added] minutes more under (date, key), in
    the rows and, unless [key] is a name every object inherits, in the
    subject totals alike. *)
Definition addsUnder (date key : string) (added : Z) (store store' : Store.Schema) : Prop :=
  (forall d s,
     timeInSubjectOf d s (Store.dailyStats store')
     = timeInSubjectOf d s (Store.dailyStats store)
       + if sameKey d s date key then added else 0) /\
  (forall s,
     timeOfSubject s (Store.dailyStats store')
     = timeOfSubject s (Store.dailyStats store) + if (key =? s)%string then added else 0) /\
  (forall s,
     Js.inherited key = false \/ Js.inherited s = false ->
     totalOf s (Store.subjectTotals store')
     = totalOf s (Store.subjectTotals store) + if (s =? key)%string then added else 0) /\
  (nonNegative (Store.dailyStats store) -> nonNegative (Store.dailyStats store')).

Section Zone.
Variable zone : Z -> TimeUtils.LocalDate.

Definition perform (call : Call) : Eff Store.Schema unit :=
  match call with
  | UpdateDailyStat date subject increments =>
      (Store.updateDailyStat date subject increments ;; ret tt)%eff
  | AddDailyStat stat => (Store.addDailyStat stat ;; ret tt)%eff
  | StartSession id now subjectName subjectId =>
      (Store.startSessionInStore id now subjectName subjectId ;; ret tt)%eff
  | CompleteSession now sessionId durationMinutes pausedSeconds =>
      (Store.completeSessionInStore zone now sessionId durationMinutes pausedSeconds ;;
       ret tt)%eff
  end.

(** The store after a sequence of calls; a call that throws does not stop
    the ones after it. *)
Fixpoint run (calls : list Call) (store : Store.Schema) : Store.Schema :=
  match calls with
  | [] => store
  | call :: rest => run rest (fst (perform call store))
  end.

Fixpoint allReturn (calls : list Call) (store : Store.Schema) : bool :=
  match calls with
  | [] => true
  | call :: rest =>
      negb (isThrown (snd (perform call store)))
      && allReturn rest (fst (perform call store))
  end.

(** Minutes a call is asked to add under (date, subject): the increment of
    [updateDailyStat] and of [addDailyStat], the duration of a completed
    session, each clamped at zero as the store clamps it. *)
Definition credited (store : Store.Schema) (call : Call) (date subject : string) : Z :=
  match call with
  | UpdateDailyStat date' subject' increments =>
      if sameKey date subject date' (Store.keyOf subject')
      then Js.clamp0 (Js.orZero (Increments.timeInSubject increments)) else 0
  | AddDailyStat stat =>
      if sameKey date subject (DailyStat.date stat) (Store.keyOf (DailyStat.subject stat))
      then Js.clamp0 (DailyStat.timeInSubject stat) else 0
  | StartSession _ _ _ _ => 0
  | CompleteSession _ sessionId durationMinutes _ =>
      match List.find (fun r => (SessionRow.id r =? sessionId)%string) (Store.sessions store) with
      | Some row =>
          if sameKey date subject
               (TimeUtils.localDateString (zone (SessionRow.startTime row)))
               (Store.keyOf (SessionRow.subjectName row))
          then Js.clamp0 durationMinutes else 0
      | None => 0
      end
  end.

Fixpoint ledger (calls : list Call) (store : Store.Schema) (date subject : string) : Z :=
  match calls with
  | [] => 0
  | call :: rest =>
      credited store call date subject
      + ledger rest (fst (perform call store)) date subject
  end.

End Zone.

(** Break and pause minutes the rows hold for a key. *)
Definition breakMinutesOf (date subject : string) (daily : list DailyStat.t) : Z :=
  sumZ (map DailyStat.breakMinutes (List.filter (Store.isRowFor date subject) daily)).

Definition pauseMinutesOf (date subject : string) (daily : list DailyStat.t) : Z :=
  sumZ (map DailyStat.pauseMinutes (List.filter (Store.isRowFor date subject) daily)).

(** No row holds a negative number of minutes. *)
Definition tidy (daily : list DailyStat.t) : Prop :=
  List.Forall (fun d => 0 <= DailyStat.timeInSubject d /\
                        0 <= DailyStat.breakMinutes d /\
                        0 <= DailyStat.pauseMinutes d) daily.

(** How many rows a subject has. *)
Definition rowsOfSubject (subject : string) (daily : list DailyStat.t) : Z :=
  Z.of_nat (length (List.filter (fun d => (DailyStat.subject d =? subject)%string) daily)).

(** The rows [getDailyStatsBetweenDates] returns. *)
Definition selectedStats (startDate endDate : option string) (store : Store.Schema)
  : list DailyStat.t :=
  match startDate, endDate with
  | Some s, Some e =>
      if negb (Js.truthy s) || negb (Js.truthy e) then Store.dailyStats store
      else List.filter
             (fun r => String.leb s (DailyStat.date r) && String.leb (DailyStat.date r) e)
             (Store.dailyStats store)
  | _, _ => Store.dailyStats store
  end.

(** The entry [getSubjectTimeStats] creates for a subject, and what the
    loop body does to the entry of the row's subject. *)
Definition freshStat (subject : string) : SubjectStat.t := SubjectStat.mk subject 0 0.

Definition countStat (stat : SubjectStat.t) (row : DailyStat.t) : SubjectStat.t :=
  SubjectStat.mk (SubjectStat.subject stat)
                 (SubjectStat.total_minutes stat + DailyStat.timeInSubject row)
                 (SubjectStat.session_count stat + 1).

End StatSpec.

(** A string that does not begin with white space. *)
Definition startsClean (s : string) : Prop :=
  match s with
  | EmptyString => True
  | String c _ => Js.isWhiteSpace c = false
  end.

(** Values the examples and witnesses are run on. *)
Definition sampleTodo : Todo.t := Todo.mk 0 "2025-01-01" "Be awesome" 0 1 None "".

Definition sampleClock : Clock :=
  mkClock (TimeUtils.mkLocalDate 2025 0 2) "2025-01-02T09:00:00.000Z".

Definition sampleSession : SessionRow.t :=
  SessionRow.mk "s_1735722000000_42" None "Math" 1735722000000 None None None.

Definition sampleZone (epochMs : Z) : TimeUtils.LocalDate :=
  TimeUtils.mkLocalDate 2025 0 1.

(** A comparison of numbers with strings for the examples, in which no
    number meets a string and no inherited value is compared. *)
Definition sampleCoercion : Value.Coercion :=
  Value.mkCoercion (fun _ _ => false) (fun _ _ => false) (fun _ _ => false)
                   (fun name => name).

Definition sampleReminders : list Reminder.t :=
  [Reminder.mk "a" "Stand up" None 1000;
   Reminder.mk "b" "Submit report" (Some "before noon") 2000;
   Reminder.mk "c" "Call back" None 3000].

(* ================================================================== *)
(** * Properties *)
(* ================================================================== *)

(** Unfolds a computation of the [Eff] monad down to its state
    transformer. *)
Ltac run_eff :=
  unfold bind, tryCatch, ret, throw, gets, modify, when in *; simpl in *.

(* ------------------------------------------------------------------ *)
(** ** The model on sample inputs *)
(* ------------------------------------------------------------------ *)

Example trim_strips_both_ends : Js.trim "  deep  work " = "deep  work".
Proof. reflexivity. Qed.

Example localDateString_pads :
  TimeUtils.localDateString (TimeUtils.mkLocalDate 2025 0 5) = "2025-01-05".
Proof. reflexivity. Qed.

Example sort_is_stable :
  Js.sort (fun a b => snd b - snd a) [("a", 5); ("b", 7); ("c", 5)]
  = [("b", 7); ("a", 5); ("c", 5)].
Proof. reflexivity. Qed.

Example getNextId_after_gap :
  CsvDatabase.getNextId [CsvDatabase.withId sampleTodo 7; CsvDatabase.withId sampleTodo 3] = 8.
Proof. reflexivity. Qed.

Example range_queries_on_sample :
  let tables :=
    TimerDatabase.mkTables
      [TimerData.mk 1 "math" "2025-01-01" 30 ""; TimerData.mk 2 "art" "2025-01-02" 50 "";
       TimerData.mk 3 "math" "2025-01-03" 15 ""; TimerData.mk 4 "math" "2025-02-01" 99 ""] [] in
  snd (TimerDatabase.getSubjectTotalsByDateRange (Some "2025-01-01") (Some "2025-01-31") tables)
  = Returned [SubjectTotal.mk "art" 50; SubjectTotal.mk "math" 45] /\
  snd (TimerDatabase.getSubjectTotalsByDateRange None (Some "2025-01-31") tables)
  = Returned [SubjectTotal.mk "math" 144; SubjectTotal.mk "art" 50].
Proof. split; reflexivity. Qed.

(* ------------------------------------------------------------------ *)
(** ** The save sequence *)
(* ------------------------------------------------------------------ *)

Section AtomicSave.
Context {T : Type}.
Implicit Types (faults : Fs.Faults) (data : list T) (fs : Fs.Files (list T)).

(** The two classes carry the same method. *)
Lemma TimerDatabase_writeCSV_is_CsvDatabase_writeCSV faults data fs :
  TimerDatabase.writeCSV faults data fs = CsvDatabase.writeCSV faults data fs.
Proof. reflexivity. Qed.

(** With no failing call the new rows are in place, the temporary file is
    gone and the rows that were in place are the backup. *)
Lemma writeCSV_no_fault data fs :
  CsvDatabase.writeCSV Fs.noFaults data fs =
  (Fs.mkFiles (Some data) None
              (match Fs.primary fs with Some old => Some old | None => Fs.backup fs end),
   Returned tt).
Proof.
  destruct fs as [[old|] tmp bak]; reflexivity.
Qed.

(** What was saved is what [readCSV] returns next. *)
Lemma readCSV_after_writeCSV data fs :
  snd (CsvDatabase.readCSV (fst (CsvDatabase.writeCSV Fs.noFaults data fs))) = Returned data.
Proof. now rewrite writeCSV_no_fault. Qed.

(** Whatever fails, the caller gets the error of the step that failed
    first, never the one of the restore. *)
Lemma writeCSV_outcome faults data fs :
  snd (CsvDatabase.writeCSV faults data fs) =
  match Fs.failingStep faults fs with
  | Some step => Thrown (Fs.errorOf step)
  | None => Returned tt
  end.
Proof.
  destruct faults as [[] [] [] []], fs as [[old|] tmp [bak|]]; reflexivity.
Qed.

(** A save that does not fail puts the new rows in place. *)
Lemma writeCSV_success faults data fs :
  Fs.failingStep faults fs = None ->
  Fs.primary (fst (CsvDatabase.writeCSV faults data fs)) = Some data.
Proof.
  destruct faults as [[] [] [] []], fs as [[old|] tmp [bak|]];
    cbv; intros H; congruence.
Qed.

End AtomicSave.

(** When the rename into place fails after the primary file was moved to
    the backup path and the restore fails as well, the table is left
    without a primary file. *)
Lemma writeCSV_restore_failure_loses_primary :
  let faults := Fs.mkFaults false false true true in
  let fs := Fs.mkFiles (Some ["1,old"]) None None in
  Fs.failingStep faults fs = Some Fs.RenameIntoPlace /\
  CsvDatabase.writeCSV faults ["1,new"] fs =
    (Fs.mkFiles None (Some ["1,new"]) (Some ["1,old"]),
     Thrown "EPERM: rename file.tmp -> file") /\
  Fs.primary (fst (CsvDatabase.writeCSV faults ["1,new"] fs)) <> Fs.primary fs.
Proof.
  repeat split. cbv. discriminate.
Qed.

(** C1: the code at the input where it departs from the claim.  A save
    over an existing file leaves the rows it replaced in the backup file.
    In the next save the temporary file is written and the backup rename
    fails, with the primary file untouched; the handler finds the backup of
    the earlier save and moves it over the primary file, which then holds
    the older rows and not its pre-write content.  The error is rethrown.
    This is [writeCSV] of both classes. *)
Theorem writeCSV_stale_backup_replaces_primary :
  let faults := Fs.mkFaults false true false false in
  let fs :=
    fst (CsvDatabase.writeCSV Fs.noFaults ["1,current"]
           (Fs.mkFiles (Some ["1,older"]) None None)) in
  fs = Fs.mkFiles (Some ["1,current"]) None (Some ["1,older"]) /\
  Fs.failingStep faults fs = Some Fs.RenameToBackup /\
  CsvDatabase.writeCSV faults ["1,new"] fs =
    (Fs.mkFiles (Some ["1,older"]) (Some ["1,new"]) None,
     Thrown "EPERM: rename file -> file.bak") /\
  TimerDatabase.writeCSV faults ["1,new"] fs = CsvDatabase.writeCSV faults ["1,new"] fs /\
  Fs.primary (fst (CsvDatabase.writeCSV faults ["1,new"] fs)) <> Fs.primary fs.
Proof.
  repeat split. cbv. discriminate.
Qed.

(** The same when there was no primary file and the rename into place
    fails: the handler puts the backup of an earlier save in its place. *)
Lemma writeCSV_stale_backup_fills_missing_primary :
  let faults := Fs.mkFaults false false true false in
  let fs := Fs.mkFiles None None (Some ["1,older"]) in
  Fs.failingStep faults fs = Some Fs.RenameIntoPlace /\
  CsvDatabase.writeCSV faults ["1,new"] fs =
    (Fs.mkFiles (Some ["1,older"]) (Some ["1,new"]) None,
     Thrown "EPERM: rename file.tmp -> file").
Proof.
  split; reflexivity.
Qed.

(** Where a failing save keeps the primary file.  A save fails after the
    temporary file was written.  If it is the rename into place that fails,
    the restore succeeds and no backup of an earlier save stands in for a
    missing primary file, or it is the backup rename that fails and no
    backup of an earlier save is on disk (or the restore fails too), the
    primary file holds its pre-write content after the handler, and the
    error of the failing step is rethrown.  This holds for [writeCSV] of
    both classes. *)
Lemma writeCSV_failure_keeps_primary
    {T : Type} (faults : Fs.Faults) (data : list T) (fs : Fs.Files (list T)) :
  (Fs.failingStep faults fs = Some Fs.RenameIntoPlace /\
   Fs.renameRestore faults = false /\
   (Fs.primary fs = None -> Fs.backup fs = None))
  \/
  (Fs.failingStep faults fs = Some Fs.RenameToBackup /\
   (Fs.backup fs = None \/ Fs.renameRestore faults = true)) ->
  failsKeepingPrimary faults fs (CsvDatabase.writeCSV faults data) /\
  failsKeepingPrimary faults fs (TimerDatabase.writeCSV faults data).
Proof.
  intros Hcase. unfold failsKeepingPrimary.
  change (TimerDatabase.writeCSV faults data) with (CsvDatabase.writeCSV faults data).
  destruct faults as [wt rb rp rr], fs as [[old|] tmp [bak|]];
    destruct wt, rb, rp, rr; cbv in Hcase |- *;
    destruct Hcase as [(Hstep & Hrestore & Hbak) | (Hstep & Hbak)];
    try discriminate; try (destruct Hbak; discriminate);
    try (specialize (Hbak eq_refl); discriminate);
    (split; (split; [reflexivity | eexists; split; reflexivity])).
Qed.

Lemma writeCSV_failure_keeps_primary_on_sample :
  failsKeepingPrimary (Fs.mkFaults false false true false)
    (Fs.mkFiles (Some ["1,old"]) None None)
    (CsvDatabase.writeCSV (Fs.mkFaults false false true false) ["1,new"]) /\
  failsKeepingPrimary (Fs.mkFaults false false true false)
    (Fs.mkFiles (Some ["1,old"]) None None)
    (TimerDatabase.writeCSV (Fs.mkFaults false false true false) ["1,new"]).
Proof.
  apply (writeCSV_failure_keeps_primary
           (Fs.mkFaults false false true false) ["1,new"]
           (Fs.mkFiles (Some ["1,old"]) None None)).
  left. split; [reflexivity | split; [reflexivity | discriminate]].
Defined.

(* ------------------------------------------------------------------ *)
(** ** Identifiers of the CSV tables *)
(* ------------------------------------------------------------------ *)

Section NextId.

Lemma mathMax_upper_bound (xs : list Z) (x : Z) :
  x <= Js.mathMax x xs /\
  forall y, In y xs -> y <= Js.mathMax x xs.
Proof.
  unfold Js.mathMax. revert x.
  induction xs as [|z xs IH]; intros x; simpl.
  - split; [lia | intros y []].
  - destruct (IH (Z.max x z)) as [Hx Hxs]. split; [lia |].
    intros y [<- | Hy]; [lia | auto].
Qed.

Lemma mathMax_is_an_argument (xs : list Z) (x : Z) :
  In (Js.mathMax x xs) (x :: xs).
Proof.
  unfold Js.mathMax. revert x.
  induction xs as [|z xs IH]; intros x; simpl.
  - now left.
  - destruct (IH (Z.max x z)) as [Heq | Hin].
    + rewrite <- Heq. destruct (Z.max_spec x z) as [[_ ->] | [_ ->]]; auto.
    + auto.
Qed.

Context {T : Type} `{HasId T}.

Lemma getNextId_above (data : list T) (item : T) :
  In item data -> idOf item < CsvDatabase.getNextId data.
Proof.
  destruct data as [|first rest]; [intros [] |].
  intros Hin. simpl.
  destruct (mathMax_upper_bound (map idOf rest) (idOf first)) as [Hfirst Hrest].
  destruct Hin as [<- | Hin]; [lia |].
  specialize (Hrest (idOf item) (in_map idOf rest item Hin)). lia.
Qed.

Lemma getNextId_is_max_plus_one (data : list T) (m : Z) :
  In m (map idOf data) ->
  (forall i, In i (map idOf data) -> i <= m) ->
  CsvDatabase.getNextId data = m + 1.
Proof.
  destruct data as [|first rest]; [intros [] |].
  intros Hm Hmax. simpl in *.
  pose proof (mathMax_is_an_argument (map idOf rest) (idOf first)) as Harg.
  destruct (mathMax_upper_bound (map idOf rest) (idOf first)) as [Hfirst Hrest].
  specialize (Hmax _ Harg).
  assert (m <= Js.mathMax (idOf first) (map idOf rest))
    by (destruct Hm as [<- | Hm]; auto).
  lia.
Qed.

End NextId.

Lemma NoDup_map_filter {A B : Type} (f : A -> B) (p : A -> bool) (l : list A) :
  List.NoDup (map f l) -> List.NoDup (map f (List.filter p l)).
Proof.
  induction l as [|a l IH]; simpl; intros Hnd; [constructor |].
  inversion Hnd as [|? ? Hnotin Hrest]; subst.
  destruct (p a); simpl; auto.
  constructor; auto.
  intros Hin. apply Hnotin.
  apply in_map_iff in Hin as (x & Hfx & Hx).
  apply filter_In in Hx as [Hx _].
  rewrite <- Hfx. now apply in_map.
Qed.

Lemma addTodo_runs (todo : Todo.t) (table : list Todo.t) :
  CsvDatabase.addTodo todo table =
  (table ++ [CsvDatabase.withId todo (CsvDatabase.getNextId table)],
   Returned (CsvDatabase.getNextId table)).
Proof. reflexivity. Qed.

Lemma deleteTodo_table (id : Z) (table : list Todo.t) :
  fst (CsvDatabase.deleteTodo id table) =
  List.filter (fun todo => negb (Todo.id todo =? id)) table.
Proof.
  unfold CsvDatabase.deleteTodo. run_eff.
  destruct (Nat.eqb_spec
              (length (List.filter (fun todo => negb (Todo.id todo =? id)) table))
              (length table)) as [Hlen | Hlen]; simpl; [| reflexivity].
  symmetry. apply forallb_filter_id.
  clear - Hlen. induction table as [|a l IH]; simpl in *; [reflexivity |].
  destruct (negb (Todo.id a =? id)) eqn:Ha; simpl in *.
  - apply IH. lia.
  - pose proof (filter_length_le (fun todo => negb (Todo.id todo =? id)) l). lia.
Qed.

Lemma step_keeps_ids_distinct (call : TodoTrace.Call) (table : list Todo.t) :
  List.NoDup (map Todo.id table) ->
  List.NoDup (map Todo.id (fst (TodoTrace.step call table))).
Proof.
  intros Hnd. destruct call as [todo | id]; simpl.
  - rewrite map_app. simpl.
    apply NoDup_app_remove_l with (l := []). simpl.
    apply Permutation_NoDup with (l := CsvDatabase.getNextId table :: map Todo.id table).
    + apply Permutation_cons_append.
    + constructor; [| assumption].
      intros Hin. apply in_map_iff in Hin as (r & Hr & Hin).
      pose proof (getNextId_above table r Hin) as Hlt.
      change (Todo.id r < CsvDatabase.getNextId table) in Hlt. lia.
  - pose proof (deleteTodo_table id table) as Htable.
    destruct (CsvDatabase.deleteTodo id table) as [table' [[] | e]]; simpl in *;
      subst table'; now apply NoDup_map_filter.
Qed.

Lemma run_keeps_ids_distinct (calls : list TodoTrace.Call) (table : list Todo.t) :
  List.NoDup (map Todo.id table) ->
  List.NoDup (map Todo.id (fst (TodoTrace.run calls table))).
Proof.
  revert table. induction calls as [|call rest IH]; intros table Hnd; simpl; [assumption |].
  pose proof (step_keeps_ids_distinct call table Hnd) as Hstep.
  destruct (TodoTrace.step call table) as [table1 events1]. simpl in Hstep.
  specialize (IH table1 Hstep).
  destruct (TodoTrace.run rest table1) as [table2 events2]. exact IH.
Qed.

(** C2, as stated, fails: after the record with the largest id is deleted
    the next insert hands out that id again. *)
Lemma addTodo_reuses_id_of_deleted_maximum :
  let calls := [TodoTrace.AddTodo sampleTodo; TodoTrace.AddTodo sampleTodo;
                TodoTrace.DeleteTodo 2; TodoTrace.AddTodo sampleTodo] in
  snd (TodoTrace.run calls []) =
    [TodoTrace.Assigned 1; TodoTrace.Assigned 2; TodoTrace.Deleted 2; TodoTrace.Assigned 2] /\
  TodoTrace.reusesDeletedId (snd (TodoTrace.run calls [])).
Proof.
  split; [reflexivity |].
  exists [TodoTrace.Assigned 1; TodoTrace.Assigned 2; TodoTrace.Deleted 2], 2, [].
  split; [reflexivity | simpl; auto].
Qed.

(** C2 (amended).  An insert assigns [max(existing ids) + 1], or [1] when
    the table is empty.  The new id is greater than every id then in the
    table, so through every sequence of inserts and deletes the records in
    the table keep pairwise distinct ids; an id is handed out again only
    when no record with that id or a greater one is left. *)
Theorem addTodo_assigns_max_plus_one (table : list Todo.t) (todo : Todo.t) :
  let id := CsvDatabase.getNextId table in
  CsvDatabase.addTodo todo table = (table ++ [CsvDatabase.withId todo id], Returned id) /\
  (table = [] -> id = 1) /\
  (forall m, In m (map Todo.id table) ->
             (forall i, In i (map Todo.id table) -> i <= m) -> id = m + 1) /\
  (forall r, In r table -> Todo.id r < id) /\
  (forall calls, List.NoDup (map Todo.id table) ->
                 List.NoDup (map Todo.id (fst (TodoTrace.run calls table)))).
Proof.
  intros id. subst id. repeat split.
  - intros ->. reflexivity.
  - intros m Hm Hmax. now apply (getNextId_is_max_plus_one table m).
  - intros r Hr. exact (getNextId_above table r Hr).
  - intros calls. apply run_keeps_ids_distinct.
Qed.

Lemma addTodo_assigns_max_plus_one_witness :
  CsvDatabase.getNextId [CsvDatabase.withId sampleTodo 1; CsvDatabase.withId sampleTodo 4] = 5 /\
  List.NoDup (map Todo.id
    (fst (TodoTrace.run [TodoTrace.DeleteTodo 1; TodoTrace.AddTodo sampleTodo]
            [CsvDatabase.withId sampleTodo 1; CsvDatabase.withId sampleTodo 4]))).
Proof.
  pose proof (addTodo_assigns_max_plus_one
                [CsvDatabase.withId sampleTodo 1; CsvDatabase.withId sampleTodo 4]
                sampleTodo) as (_ & _ & Hmax & _ & Hdistinct).
  split.
  - apply (Hmax 4); simpl; [auto |].
    intros i [<- | [<- | []]]; lia.
  - apply Hdistinct. simpl.
    repeat constructor; simpl; intuition discriminate.
Defined.

(* ------------------------------------------------------------------ *)
(** ** Subject normalisation *)
(* ------------------------------------------------------------------ *)

Section Normalisation.
Import Js.

Lemma isWhiteSpace_lowerChar (c : ascii) : isWhiteSpace (lowerChar c) = isWhiteSpace c.
Proof. destruct c as [[] [] [] [] [] [] [] []]; reflexivity. Qed.

Lemma lowerChar_idem (c : ascii) : lowerChar (lowerChar c) = lowerChar c.
Proof. destruct c as [[] [] [] [] [] [] [] []]; reflexivity. Qed.

Lemma toLowerCase_idem (s : string) : toLowerCase (toLowerCase s) = toLowerCase s.
Proof.
  induction s as [|c s IH]; simpl; [reflexivity |].
  now rewrite lowerChar_idem, IH.
Qed.

Lemma trimStart_toLowerCase (s : string) :
  trimStart (toLowerCase s) = toLowerCase (trimStart s).
Proof.
  induction s as [|c s IH]; simpl; [reflexivity |].
  rewrite isWhiteSpace_lowerChar. destruct (isWhiteSpace c); [assumption | reflexivity].
Qed.

Lemma trimEnd_toLowerCase (s : string) :
  trimEnd (toLowerCase s) = toLowerCase (trimEnd s).
Proof.
  induction s as [|c s IH]; simpl; [reflexivity |].
  rewrite IH, isWhiteSpace_lowerChar.
  destruct (trimEnd s) as [|d t]; simpl; [destruct (isWhiteSpace c) |]; reflexivity.
Qed.

Lemma trimStart_startsClean (s : string) : startsClean (trimStart s).
Proof.
  induction s as [|c s IH]; simpl; [exact I |].
  destruct (isWhiteSpace c) eqn:Hc; [assumption | exact Hc].
Qed.

Lemma trimStart_of_clean (s : string) : startsClean s -> trimStart s = s.
Proof. destruct s as [|c s]; simpl; [reflexivity | intros ->; reflexivity]. Qed.

Lemma trimEnd_startsClean (s : string) : startsClean s -> startsClean (trimEnd s).
Proof.
  destruct s as [|c s]; simpl; [trivial |].
  intros Hc. destruct (trimEnd s); simpl; [rewrite Hc |]; exact Hc.
Qed.

Lemma trimEnd_idem (s : string) : trimEnd (trimEnd s) = trimEnd s.
Proof.
  induction s as [|c s IH]; [reflexivity |].
  cbn [trimEnd]. destruct (trimEnd s) as [|d t] eqn:Hs.
  - destruct (isWhiteSpace c) eqn:Hc; [reflexivity |].
    cbn [trimEnd]. now rewrite Hc.
  - change (trimEnd (String c (String d t)))
      with (match trimEnd (String d t) with
            | EmptyString => if isWhiteSpace c then EmptyString else String c EmptyString
            | u => String c u
            end).
    now rewrite IH.
Qed.

Lemma trim_idem (s : string) : trim (trim s) = trim s.
Proof.
  unfold trim.
  rewrite (trimStart_of_clean (trimEnd (trimStart s))).
  - apply trimEnd_idem.
  - apply trimEnd_startsClean, trimStart_startsClean.
Qed.

Lemma trim_toLowerCase (s : string) : trim (toLowerCase s) = toLowerCase (trim s).
Proof. unfold trim. now rewrite trimStart_toLowerCase, trimEnd_toLowerCase. Qed.

Lemma normalizeSubject_idem (s : string) :
  TimerDatabase.normalizeSubject (TimerDatabase.normalizeSubject s)
  = TimerDatabase.normalizeSubject s.
Proof.
  unfold TimerDatabase.normalizeSubject.
  now rewrite trim_toLowerCase, trim_idem, toLowerCase_idem.
Qed.

Lemma keyOf_idem (s : string) : Store.keyOf (Store.keyOf s) = Store.keyOf s.
Proof. exact (normalizeSubject_idem s). Qed.

Example normalizeSubject_Math : TimerDatabase.normalizeSubject "  Math " = "math".
Proof. reflexivity. Qed.

End Normalisation.

(* ------------------------------------------------------------------ *)
(** ** Arrays: [findIndex], assignment at an index, [sort] *)
(* ------------------------------------------------------------------ *)

Section Arrays.
Context {A : Type}.
Implicit Types (p : A -> bool) (f : A -> A) (l : list A).

Lemma findIndex_None p l :
  Js.findIndex p l = None <-> forall x, In x l -> p x = false.
Proof.
  induction l as [|a l IH]; simpl.
  - split; [intros _ x [] | reflexivity].
  - destruct (p a) eqn:Ha.
    + split; [discriminate |]. intros Hall. specialize (Hall a (or_introl eq_refl)). congruence.
    + destruct (Js.findIndex p l) as [i|]; simpl.
      * split; [discriminate |]. intros Hall.
        assert (Some i = None) as Hcontra; [| discriminate].
        apply IH. intros x Hx. apply Hall. now right.
      * split; [| reflexivity]. intros _ x [<- | Hx]; [assumption |].
        now apply IH.
Qed.

(** [findIndex] finds the first element that satisfies the predicate. *)
Lemma findIndex_Some p l i :
  Js.findIndex p l = Some i ->
  exists l1 x l2,
    l = l1 ++ x :: l2 /\ length l1 = i /\ p x = true /\
    forall y, In y l1 -> p y = false.
Proof.
  revert i. induction l as [|a l IH]; intros i; simpl; [discriminate |].
  destruct (p a) eqn:Ha.
  - intros [= <-]. exists [], a, l. repeat split; auto. intros y [].
  - destruct (Js.findIndex p l) as [j|]; simpl; [| discriminate].
    intros [= <-]. destruct (IH j eq_refl) as (l1 & x & l2 & -> & Hlen & Hx & Hl1).
    exists (a :: l1), x, l2. simpl. repeat split; auto.
    intros y [<- | Hy]; auto.
Qed.

Lemma findIndex_first p l1 x l2 :
  (forall y, In y l1 -> p y = false) -> p x = true ->
  Js.findIndex p (l1 ++ x :: l2) = Some (length l1).
Proof.
  intros Hl1 Hx. induction l1 as [|a l1 IH]; simpl.
  - now rewrite Hx.
  - rewrite (Hl1 a (or_introl eq_refl)), IH; [reflexivity |].
    intros y Hy. apply Hl1. now right.
Qed.

Lemma updateAt_middle f l1 x l2 :
  Js.updateAt (length l1) f (l1 ++ x :: l2) = l1 ++ f x :: l2.
Proof. induction l1 as [|a l1 IH]; simpl; [reflexivity | now rewrite IH]. Qed.

Lemma nth_middle_eq l1 x l2 (d : A) : nth (length l1) (l1 ++ x :: l2) d = x.
Proof. induction l1 as [|a l1 IH]; simpl; [reflexivity | assumption]. Qed.

Lemma filter_none p l : (forall x, In x l -> p x = false) -> List.filter p l = [].
Proof.
  induction l as [|a l IH]; simpl; intros Hall; [reflexivity |].
  rewrite (Hall a (or_introl eq_refl)). apply IH. intros x Hx. apply Hall. now right.
Qed.

Lemma insertBy_Permutation (cmp : A -> A -> Z) (x : A) l :
  Permutation (x :: l) (Js.insertBy cmp x l).
Proof.
  induction l as [|y l IH]; simpl; [reflexivity |].
  destruct (cmp x y <=? 0); [reflexivity |].
  rewrite perm_swap. now apply perm_skip.
Qed.

(** [sort] rearranges, it neither drops nor adds an element. *)
Lemma sort_Permutation (cmp : A -> A -> Z) l : Permutation l (Js.sort cmp l).
Proof.
  induction l as [|x l IH]; simpl; [constructor |].
  rewrite <- insertBy_Permutation. now apply perm_skip.
Qed.

End Arrays.

Lemma sumZ_app (l1 l2 : list Z) : sumZ (l1 ++ l2) = sumZ l1 + sumZ l2.
Proof. induction l1 as [|a l1 IH]; simpl; [reflexivity | rewrite IH; lia]. Qed.

Lemma sumZ_Permutation (l1 l2 : list Z) : Permutation l1 l2 -> sumZ l1 = sumZ l2.
Proof. induction 1; simpl; lia. Qed.

(* ------------------------------------------------------------------ *)
(** ** The timer table: upsert *)
(* ------------------------------------------------------------------ *)

Section Upsert.
Import TimerDatabase TimerSpec.
Implicit Types (clock : Clock) (tables : Tables) (entry : TimerData.t).

Lemma isEntryFor_key subject date entry :
  isEntryFor subject date entry = true <-> keyOfEntry entry = (subject, date).
Proof.
  unfold isEntryFor, keyOfEntry. rewrite andb_true_iff, !String.eqb_eq.
  split; [intros [-> ->]; reflexivity | intros [= -> ->]; auto].
Qed.

Lemma isEntryFor_normalized subject date id minutes iso :
  isEntryFor (normalizeSubject subject) date
    (TimerData.mk id (normalizeSubject subject) date minutes iso) = true.
Proof.
  unfold isEntryFor. cbn [TimerData.subject TimerData.date].
  now rewrite normalizeSubject_idem, !String.eqb_refl.
Qed.

Lemma isEntryFor_bump subject date minutes iso entry :
  isEntryFor subject date (bump minutes iso entry) = isEntryFor subject date entry.
Proof. reflexivity. Qed.

(** No entry for the key: a new entry is appended. *)
Lemma addOrUpdateTimerData_creates clock subject date minutes tables :
  (forall e, In e (timer_data tables) ->
     isEntryFor (normalizeSubject subject)
                (Js.orElse date (getCurrentLocalDate clock)) e = false) ->
  addOrUpdateTimerData clock subject date minutes tables =
  let entry :=
    TimerData.mk (getNextId (timer_data tables)) (normalizeSubject subject)
                 (Js.orElse date (getCurrentLocalDate clock))
                 (match minutes with Some m => m | None => 1 end) (isoNow clock) in
  (mkTables (timer_data tables ++ [entry]) (hidden_subjects tables), Returned entry).
Proof.
  intros Hnone. apply findIndex_None in Hnone.
  unfold addOrUpdateTimerData, readTimerData, writeTimerData. run_eff.
  now rewrite Hnone.
Qed.

(** An entry for the key: the first one gets the minutes added. *)
Lemma addOrUpdateTimerData_updates clock subject date minutes tables l1 x l2 :
  timer_data tables = l1 ++ x :: l2 ->
  (forall e, In e l1 ->
     isEntryFor (normalizeSubject subject)
                (Js.orElse date (getCurrentLocalDate clock)) e = false) ->
  isEntryFor (normalizeSubject subject) (Js.orElse date (getCurrentLocalDate clock)) x = true ->
  addOrUpdateTimerData clock subject date minutes tables =
  let entry := bump (match minutes with Some m => m | None => 1 end) (isoNow clock) x in
  (mkTables (l1 ++ entry :: l2) (hidden_subjects tables), Returned entry).
Proof.
  intros Hdata Hl1 Hx.
  unfold addOrUpdateTimerData, readTimerData, writeTimerData. run_eff.
  rewrite Hdata, (findIndex_first _ l1 x l2 Hl1 Hx). simpl.
  now rewrite updateAt_middle, nth_middle_eq.
Qed.

Lemma minutesFor_app subject date l1 l2 :
  minutesFor subject date (l1 ++ l2) = minutesFor subject date l1 + minutesFor subject date l2.
Proof.
  unfold minutesFor, entriesFor. now rewrite List.filter_app, List.map_app, sumZ_app.
Qed.

(** What one call does: it returns an entry of the table under the
    normalised subject and the effective date, the minutes held for that
    key grow by the minutes passed, the hidden subjects are untouched and
    keys stay unique. *)
Lemma addOrUpdateTimerData_effect clock subject date minutes tables :
  let key := normalizeSubject subject in
  let day := Js.orElse date (getCurrentLocalDate clock) in
  let added := match minutes with Some m => m | None => 1 end in
  let result := addOrUpdateTimerData clock subject date minutes tables in
  (exists entry,
     snd result = Returned entry /\
     In entry (timer_data (fst result)) /\
     keyOfEntry entry = (key, day)) /\
  minutesFor key day (timer_data (fst result)) = minutesFor key day (timer_data tables) + added /\
  hidden_subjects (fst result) = hidden_subjects tables /\
  (uniqueKeys (timer_data tables) -> uniqueKeys (timer_data (fst result))).
Proof.
  intros key day added result. subst result.
  assert (forall id m iso, isEntryFor key day (TimerData.mk id key day m iso) = true) as Hnew
    by (intros; apply isEntryFor_normalized).
  assert (normalizeSubject key = key) as Hidem by apply normalizeSubject_idem.
  destruct (Js.findIndex (isEntryFor key day) (timer_data tables)) as [i|] eqn:Hfind.
  - apply findIndex_Some in Hfind as (l1 & x & l2 & Hdata & _ & Hx & Hl1).
    rewrite (addOrUpdateTimerData_updates clock subject date minutes tables l1 x l2 Hdata Hl1 Hx).
    cbn zeta. cbn [fst snd timer_data hidden_subjects]. fold added.
    clearbody key day added.
    repeat split.
    + eexists. split; [reflexivity |]. split.
      * apply in_or_app. right. now left.
      * now apply isEntryFor_key in Hx.
    + rewrite Hdata.
      change (l1 ++ bump added (isoNow clock) x :: l2)
        with (l1 ++ [bump added (isoNow clock) x] ++ l2).
      change (l1 ++ x :: l2) with (l1 ++ [x] ++ l2).
      rewrite !minutesFor_app. unfold minutesFor, entriesFor.
      cbn [List.filter app]. rewrite isEntryFor_bump, Hx.
      simpl. lia.
    + unfold uniqueKeys. rewrite Hdata, !map_app. simpl. trivial.
  - pose proof (proj1 (findIndex_None _ _) Hfind) as Hnone. clear Hfind.
    rewrite (addOrUpdateTimerData_creates clock subject date minutes tables Hnone).
    cbn zeta. cbn [fst snd timer_data hidden_subjects]. fold key day added.
    clearbody key day added.
    repeat split.
    + eexists. split; [reflexivity |]. split.
      * apply in_or_app. right. now left.
      * unfold keyOfEntry. cbn [TimerData.subject TimerData.date].
        now rewrite Hidem.
    + rewrite minutesFor_app. unfold minutesFor at 2, entriesFor.
      cbn [List.filter]. rewrite Hnew. simpl. lia.
    + unfold uniqueKeys. intros Hnd. rewrite map_app. simpl.
      apply NoDup_app_remove_l with (l := []). simpl.
      eapply Permutation_NoDup; [apply Permutation_cons_append |].
      constructor; [| assumption].
      intros Hin. apply in_map_iff in Hin as (e & He & Hin).
      specialize (Hnone e Hin).
      assert (isEntryFor key day e = true) as Htrue; [| congruence].
      apply isEntryFor_key. rewrite He. unfold keyOfEntry.
      cbn [TimerData.subject TimerData.date]. now rewrite Hidem.
Qed.

End Upsert.

Section UpsertClaims.
Import TimerDatabase TimerSpec.

(** C6.  From a timer table with no entry for "math" on 2025-01-01, adding
    30 minutes as "Math" and then 15 as "math" leaves exactly one entry for
    that key, holding 45 minutes; and every call of the upsert keeps the
    entries unique per normalised (subject, date). *)
Theorem addOrUpdateTimerData_merges_case_variants
    (clock1 clock2 : Clock) (tables : Tables) :
  (forall e, In e (timer_data tables) -> isEntryFor "math" "2025-01-01" e = false) ->
  (let after :=
     fst ((addOrUpdateTimerData clock1 "Math" (Some "2025-01-01") (Some 30) ;;
           addOrUpdateTimerData clock2 "math" (Some "2025-01-01") (Some 15))%eff tables) in
   exists entry,
     entriesFor "math" "2025-01-01" (timer_data after) = [entry] /\
     TimerData.subject entry = "math" /\
     TimerData.date entry = "2025-01-01" /\
     TimerData.total_minutes entry = 45)
  /\
  (forall clock subject date minutes (before : Tables),
     uniqueKeys (timer_data before) ->
     uniqueKeys (timer_data (fst (addOrUpdateTimerData clock subject date minutes before)))).
Proof.
  intros Hnone. split.
  - unfold bind.
    rewrite (addOrUpdateTimerData_creates clock1 "Math" (Some "2025-01-01") (Some 30)
               tables Hnone).
    cbv beta iota zeta.
    set (first := TimerData.mk (getNextId (timer_data tables)) (normalizeSubject "Math")
                               (Js.orElse (Some "2025-01-01") (getCurrentLocalDate clock1))
                               30 (isoNow clock1)).
    rewrite (addOrUpdateTimerData_updates clock2 "math" (Some "2025-01-01") (Some 15)
               (mkTables (timer_data tables ++ [first]) (hidden_subjects tables))
               (timer_data tables) first [] eq_refl Hnone eq_refl).
    cbv beta iota zeta. cbn [fst timer_data].
    exists (bump 15 (isoNow clock2) first).
    unfold entriesFor. rewrite List.filter_app, (filter_none _ _ Hnone).
    repeat split.
  - intros clock subject date minutes before.
    apply (addOrUpdateTimerData_effect clock subject date minutes before).
Qed.

Lemma addOrUpdateTimerData_merges_case_variants_witness :
  let tables := mkTables [TimerData.mk 1 "physics" "2025-01-01" 10 "2025-01-01T08:00:00.000Z";
                          TimerData.mk 2 "math" "2024-12-31" 5 "2024-12-31T08:00:00.000Z"] [] in
  exists entry,
    entriesFor "math" "2025-01-01"
      (timer_data
         (fst ((addOrUpdateTimerData sampleClock "Math" (Some "2025-01-01") (Some 30) ;;
                addOrUpdateTimerData sampleClock "math" (Some "2025-01-01") (Some 15))%eff
                 tables))) = [entry] /\
    TimerData.subject entry = "math" /\
    TimerData.date entry = "2025-01-01" /\
    TimerData.total_minutes entry = 45.
Proof.
  intros tables.
  refine (proj1 (addOrUpdateTimerData_merges_case_variants sampleClock sampleClock tables _)).
  intros e [<- | [<- | []]]; reflexivity.
Defined.

(** C9.  With the date omitted or empty the minutes go to the local
    calendar day [localDateString] gives for the current instant; with the
    minutes omitted exactly one minute is added. *)
Theorem addOrUpdateTimerData_defaults (clock : Clock) (subject : string) (tables : Tables) :
  let todayString := TimeUtils.localDateString (today clock) in
  let key := normalizeSubject subject in
  (forall date minutes,
     date = None \/ date = Some "" ->
     let result := addOrUpdateTimerData clock subject date minutes tables in
     result = addOrUpdateTimerData clock subject (Some todayString) minutes tables /\
     (exists entry,
        snd result = Returned entry /\ In entry (timer_data (fst result)) /\
        TimerData.date entry = todayString) /\
     minutesFor key todayString (timer_data (fst result))
     = minutesFor key todayString (timer_data tables)
       + match minutes with Some m => m | None => 1 end)
  /\
  (forall date,
     let result := addOrUpdateTimerData clock subject date None tables in
     result = addOrUpdateTimerData clock subject date (Some 1) tables /\
     minutesFor key (Js.orElse date todayString) (timer_data (fst result))
     = minutesFor key (Js.orElse date todayString) (timer_data tables) + 1).
Proof.
  intros todayString key. split.
  - intros date minutes Hdate result.
    assert (Js.orElse date (getCurrentLocalDate clock) = todayString) as Hday
      by (destruct Hdate as [-> | ->]; reflexivity).
    destruct (addOrUpdateTimerData_effect clock subject date minutes tables)
      as ((entry & Hret & Hin & Hkey) & Hsum & _).
    rewrite Hday in Hkey, Hsum.
    repeat split.
    + subst result. unfold addOrUpdateTimerData. rewrite Hday.
      assert (Js.orElse (Some todayString) (getCurrentLocalDate clock) = todayString) as ->
        by (unfold Js.orElse; destruct (Js.truthy todayString); reflexivity).
      reflexivity.
    + exists entry. repeat split; try assumption.
      now injection Hkey.
    + exact Hsum.
  - intros date result. split; [reflexivity |].
    apply (addOrUpdateTimerData_effect clock subject date None tables).
Qed.

Lemma addOrUpdateTimerData_defaults_witness :
  let tables := mkTables [TimerData.mk 1 "math" "2025-01-02" 10 "2025-01-02T08:00:00.000Z"] [] in
  addOrUpdateTimerData sampleClock " Math" None None tables =
    (mkTables [TimerData.mk 1 "math" "2025-01-02" 11 "2025-01-02T09:00:00.000Z"] [],
     Returned (TimerData.mk 1 "math" "2025-01-02" 11 "2025-01-02T09:00:00.000Z")) /\
  minutesFor "math" "2025-01-02"
    (timer_data (fst (addOrUpdateTimerData sampleClock " Math" None None tables))) = 10 + 1.
Proof.
  intros tables. split; [reflexivity |].
  exact (proj2 (proj2
    (proj1 (addOrUpdateTimerData_defaults sampleClock " Math" tables) None None
       (or_introl eq_refl)))).
Defined.

End UpsertClaims.

(* ------------------------------------------------------------------ *)
(** ** The timer table: deleting a subject *)
(* ------------------------------------------------------------------ *)

Lemma filter_same_length {A : Type} (p : A -> bool) (l : list A) :
  length (List.filter p l) = length l -> List.filter p l = l.
Proof.
  induction l as [|a l IH]; simpl; [reflexivity |].
  destruct (p a); simpl; intros Hlen.
  - f_equal. apply IH. lia.
  - pose proof (filter_length_le p l). lia.
Qed.

Lemma filter_shorter_or_same {A : Type} (p : A -> bool) (l : list A) :
  (if (length (List.filter p l) <? length l)%nat then List.filter p l else l)
  = List.filter p l.
Proof.
  destruct (Nat.ltb_spec (length (List.filter p l)) (length l)) as [Hlt | Hge];
    [reflexivity |].
  symmetry. apply filter_same_length.
  pose proof (filter_length_le p l). lia.
Qed.

Section DeleteSubject.
Import TimerDatabase TimerSpec.

(** What [deleteSubjectCompletely] leaves and what it returns: the rows of
    the normalised subject are gone from both tables, and the result says
    whether a {e timer} row was removed. *)
Lemma deleteSubjectCompletely_effect (subject : string) (tables : Tables) :
  let key := normalizeSubject subject in
  let kept := List.filter (fun entry => keepsOther key (TimerData.subject entry))
                          (timer_data tables) in
  let keptHidden := List.filter (fun hs => keepsOther key (HiddenSubject.subject hs))
                                (hidden_subjects tables) in
  deleteSubjectCompletely subject tables =
  (mkTables kept keptHidden, Returned (length kept <? length (timer_data tables))%nat).
Proof.
  intros key kept keptHidden.
  unfold deleteSubjectCompletely, readTimerData, readHiddenSubjects,
    writeTimerData, writeHiddenSubjects. run_eff.
  fold key. change (fun entry => negb (TimerData.subject entry =? key)%string)
    with (fun entry => keepsOther key (TimerData.subject entry)).
  change (fun hs => negb (HiddenSubject.subject hs =? key)%string)
    with (fun hs => keepsOther key (HiddenSubject.subject hs)).
  fold kept keptHidden.
  pose proof (filter_shorter_or_same
                (fun entry => keepsOther key (TimerData.subject entry)) (timer_data tables)) as Ht.
  pose proof (filter_shorter_or_same
                (fun hs => keepsOther key (HiddenSubject.subject hs)) (hidden_subjects tables)) as Hh.
  fold kept in Ht. fold keptHidden in Hh.
  destruct tables as [timer hidden]. simpl in *.
  destruct (length kept <? length timer)%nat; simpl;
    destruct (length keptHidden <? length hidden)%nat; simpl;
    rewrite <- ?Ht, <- ?Hh; reflexivity.
Qed.

(** After the call neither table holds a row of the normalised subject. *)
Lemma deleteSubjectCompletely_removes_all (subject : string) (tables : Tables) :
  let after := fst (deleteSubjectCompletely subject tables) in
  (forall entry, In entry (timer_data after) ->
                 TimerData.subject entry <> normalizeSubject subject) /\
  (forall hs, In hs (hidden_subjects after) ->
              HiddenSubject.subject hs <> normalizeSubject subject).
Proof.
  rewrite deleteSubjectCompletely_effect. cbn zeta. cbn [fst timer_data hidden_subjects].
  split; intros x Hx; apply filter_In in Hx as [_ Hkeep];
    unfold keepsOther in Hkeep; apply negb_true_iff, String.eqb_neq in Hkeep; exact Hkeep.
Qed.

(** C4: the code at the input where it departs from the claim.  On empty
    tables a subject is hidden and then deleted completely: its hidden row
    is removed, both tables end without a row for it, yet the call returns
    [false]. *)
Theorem deleteSubjectCompletely_hidden_only_returns_false :
  let empty := mkTables [] [] in
  let hidden := mkTables [] [HiddenSubject.mk 1 "math" "2025-01-02T09:00:00.000Z"] in
  hideSubject sampleClock "Math" empty = (hidden, Returned true) /\
  deleteSubjectCompletely "math" hidden = (empty, Returned false).
Proof. split; reflexivity. Qed.

(** The same at every state: whenever only hidden rows carry the subject,
    rows are removed and the result is [false]. *)
Lemma deleteSubjectCompletely_ignores_hidden_rows (subject : string) (tables : Tables) :
  (forall entry, In entry (timer_data tables) ->
                 TimerData.subject entry <> normalizeSubject subject) ->
  snd (deleteSubjectCompletely subject tables) = Returned false.
Proof.
  intros Hnone. rewrite deleteSubjectCompletely_effect. cbn zeta. cbn [snd].
  rewrite forallb_filter_id; [now rewrite Nat.ltb_irrefl |].
  apply forallb_forall. intros entry Hin. unfold keepsOther.
  apply negb_true_iff, String.eqb_neq. now apply Hnone.
Qed.

End DeleteSubject.

(* ------------------------------------------------------------------ *)
(** ** The timer table: range aggregation *)
(* ------------------------------------------------------------------ *)

Section Aggregation.
Import TimerDatabase TimerSpec.

Lemma selectData_reads startDate endDate tables :
  selectData startDate endDate tables = (tables, Returned (selected startDate endDate tables)).
Proof.
  unfold selectData, selected, getTimerDataByDateRange, getAllTimerData, readTimerData.
  destruct startDate as [s|], endDate as [e|]; try reflexivity.
  destruct (Js.truthy s && Js.truthy e); reflexivity.
Qed.

Lemma assocSum_absent subject m :
  ~ In subject (map fst m) -> assocSum subject m = 0.
Proof.
  intros Habsent. unfold assocSum. rewrite filter_none; [reflexivity |].
  intros [k v] Hin. simpl. apply String.eqb_neq. intros ->.
  apply Habsent. now apply (in_map fst) in Hin.
Qed.

Lemma assocSum_cons subject k v m :
  assocSum subject ((k, v) :: m)
  = (if (k =? subject)%string then v else 0) + assocSum subject m.
Proof. unfold assocSum. simpl. destruct (k =? subject)%string; reflexivity. Qed.

Lemma mapGet_assocSum subject m :
  List.NoDup (map fst m) -> Js.orZero (mapGet subject m) = assocSum subject m.
Proof.
  induction m as [|[k v] m IH]; simpl; intros Hnd; [reflexivity |].
  inversion Hnd as [|? ? Hk Hrest]; subst.
  rewrite assocSum_cons. destruct (String.eqb_spec k subject) as [-> | Hne]; simpl.
  - rewrite (assocSum_absent subject m Hk). lia.
  - now apply IH.
Qed.

Lemma mapSet_keys key value m x :
  In x (map fst (mapSet key value m)) -> x = key \/ In x (map fst m).
Proof.
  induction m as [|[k v] m IH]; simpl.
  - intros [<- | []]. now left.
  - destruct (String.eqb_spec k key) as [-> | Hne]; simpl.
    + intros [<- | Hin]; auto.
    + intros [<- | Hin]; auto. destruct (IH Hin); auto.
Qed.

Lemma mapSet_NoDup key value m :
  List.NoDup (map fst m) -> List.NoDup (map fst (mapSet key value m)).
Proof.
  induction m as [|[k v] m IH]; simpl; intros Hnd.
  - repeat constructor. intros [].
  - inversion Hnd as [|? ? Hk Hrest]; subst.
    destruct (String.eqb_spec k key) as [-> | Hne]; simpl.
    + now constructor.
    + constructor; [| now apply IH].
      intros Hin. apply mapSet_keys in Hin as [-> | Hin]; [now apply Hne | now apply Hk].
Qed.

Lemma assocSum_mapSet subject key value m :
  List.NoDup (map fst m) ->
  assocSum subject (mapSet key value m)
  = if (key =? subject)%string then value else assocSum subject m.
Proof.
  induction m as [|[k v] m IH]; simpl; intros Hnd.
  - rewrite assocSum_cons. unfold assocSum. simpl.
    destruct (key =? subject)%string; lia.
  - inversion Hnd as [|? ? Hk Hrest]; subst.
    destruct (String.eqb_spec k key) as [-> | Hne].
    + rewrite !assocSum_cons.
      destruct (String.eqb_spec key subject) as [-> | Hks]; [| reflexivity].
      rewrite (assocSum_absent subject m Hk). lia.
    + rewrite !assocSum_cons, (IH Hrest).
      destruct (String.eqb_spec k subject) as [-> | Hks]; [| reflexivity].
      destruct (String.eqb_spec key subject) as [-> | _]; [now destruct Hne | reflexivity].
Qed.

Lemma subjectSum_cons subject e data :
  subjectSum subject (e :: data)
  = (if (TimerData.subject e =? subject)%string then TimerData.total_minutes e else 0)
    + subjectSum subject data.
Proof.
  unfold subjectSum. simpl. destruct (TimerData.subject e =? subject)%string; reflexivity.
Qed.

(** The [Map] built by the [forEach] holds, under every subject, the sum
    of the minutes of its entries. *)
Lemma accumulate_all subject data m :
  List.NoDup (map fst m) ->
  List.NoDup (map fst (fold_left accumulate data m)) /\
  assocSum subject (fold_left accumulate data m) = assocSum subject m + subjectSum subject data.
Proof.
  revert m. induction data as [|e data IH]; intros m Hnd; simpl.
  - split; [assumption | unfold subjectSum; simpl; lia].
  - assert (List.NoDup (map fst (accumulate m e))) as Hnd'
      by (now apply mapSet_NoDup).
    destruct (IH (accumulate m e) Hnd') as [Hkeys Hsum].
    split; [assumption |].
    rewrite Hsum, subjectSum_cons. unfold accumulate.
    rewrite (assocSum_mapSet _ _ _ _ Hnd).
    destruct (String.eqb_spec (TimerData.subject e) subject) as [-> | Hne].
    + rewrite (mapGet_assocSum _ _ Hnd). lia.
    + lia.
Qed.

Lemma totalFor_sum subject (totals : list SubjectTotal.t) :
  List.NoDup (map SubjectTotal.subject totals) ->
  totalFor subject totals
  = sumZ (map SubjectTotal.total_minutes
              (List.filter (fun r => (SubjectTotal.subject r =? subject)%string) totals)).
Proof.
  unfold totalFor. induction totals as [|r totals IH]; simpl; intros Hnd; [reflexivity |].
  inversion Hnd as [|? ? Hr Hrest]; subst.
  destruct (String.eqb_spec (SubjectTotal.subject r) subject) as [<- | Hne]; simpl.
  - rewrite filter_none; [simpl; lia |].
    intros x Hx. apply String.eqb_neq. intros Heq. apply Hr. rewrite <- Heq.
    now apply in_map.
  - now apply IH.
Qed.

Lemma filtered_sum_Permutation {A : Type} (p : A -> bool) (f : A -> Z) (l l' : list A) :
  Permutation l l' ->
  sumZ (map f (List.filter p l)) = sumZ (map f (List.filter p l')).
Proof.
  induction 1 as [| x l l' _ IH | x y l | l l' l'' _ IH1 _ IH2]; simpl.
  - reflexivity.
  - destruct (p x); simpl; lia.
  - destruct (p x), (p y); simpl; lia.
  - lia.
Qed.

(** C7.  Over the same date range (both bounds given, or the all-time case
    when a bound is absent or empty), the minutes of the rows of
    [getSubjectDateAggregatedData] whose subject is [S] add up to the total
    [getSubjectTotalsByDateRange] reports for [S], which is zero when [S]
    has no row. *)
Theorem aggregation_consistency
    (localeCompare : string -> string -> Z)
    (startDate endDate : option string) (S : string) (tables : Tables) :
  exists rows totals,
    getSubjectDateAggregatedData localeCompare startDate endDate tables
      = (tables, Returned rows) /\
    getSubjectTotalsByDateRange startDate endDate tables = (tables, Returned totals) /\
    minutesOfSubject S rows = totalFor S totals.
Proof.
  unfold getSubjectDateAggregatedData, getSubjectTotalsByDateRange, bind.
  rewrite selectData_reads. cbv beta iota zeta. unfold ret.
  set (data := selected startDate endDate tables).
  eexists. eexists. split; [reflexivity |]. split; [reflexivity |].
  destruct (accumulate_all S data [] (List.NoDup_nil _)) as [Hkeys Hsum].
  set (m := fold_left accumulate data []) in *.
  rewrite totalFor_sum.
  - rewrite <- (filtered_sum_Permutation _ _ _ _ (sort_Permutation _ _)).
    unfold minutesOfSubject.
    rewrite <- (filtered_sum_Permutation _ _ _ _ (sort_Permutation _ _)).
    transitivity (subjectSum S data).
    + unfold subjectSum. clear. induction data as [|e data IH]; simpl; [reflexivity |].
      destruct (TimerData.subject e =? S)%string; simpl; now rewrite IH.
    + transitivity (assocSum S m); [rewrite Hsum; unfold assocSum; simpl; lia |].
      unfold assocSum. clear. induction m as [|[k v] m IH]; simpl; [reflexivity |].
      destruct (k =? S)%string; simpl; now rewrite IH.
  - eapply Permutation_NoDup; [apply Permutation_map, sort_Permutation |].
    rewrite map_map. simpl. exact Hkeys.
Qed.

End Aggregation.

(* ------------------------------------------------------------------ *)
(** ** Sessions *)
(* ------------------------------------------------------------------ *)

Section Sessions.
Import Store.
Implicit Types (store : Schema) (row : SessionRow.t).

Lemma unknown_id_not_found sessionId (arr : list SessionRow.t) :
  (forall row, In row arr -> SessionRow.id row <> sessionId) ->
  Js.findIndex (fun r => (SessionRow.id r =? sessionId)%string) arr = None.
Proof.
  intros Hunknown. apply findIndex_None. intros row Hin.
  apply String.eqb_neq. now apply Hunknown.
Qed.

(** In the store, completing an unknown session throws before anything is
    written. *)
Lemma completeSessionInStore_unknown_id
    (zone : Z -> TimeUtils.LocalDate) (now : Z) (sessionId : string)
    (durationMinutes pausedSeconds : Z) store :
  (forall row, In row (sessions store) -> SessionRow.id row <> sessionId) ->
  completeSessionInStore zone now sessionId durationMinutes pausedSeconds store
  = (store, Thrown "session not found").
Proof.
  intros Hunknown. unfold completeSessionInStore, getSessions. run_eff.
  now rewrite (unknown_id_not_found _ _ Hunknown).
Qed.

(** C3.  Completing a session whose id is not in the store, through the
    [sessions:complete] handler: the handler returns the boolean [false]
    (it does not throw), the error is reported on the console when the
    sender is trusted, and the store, its sessions and daily stats
    included, is what it was. *)
Theorem sessionsComplete_unknown_id_returns_false
    (trusted : bool) (zone : Z -> TimeUtils.LocalDate) (now : Z) (sessionId : string)
    (durationMinutes pausedSeconds : Z) (process : Main.Process) :
  (forall row, In row (sessions (Main.store process)) -> SessionRow.id row <> sessionId) ->
  let result :=
    Main.sessionsComplete trusted zone now sessionId durationMinutes pausedSeconds process in
  snd result = Returned false /\
  Main.store (fst result) = Main.store process /\
  sessions (Main.store (fst result)) = sessions (Main.store process) /\
  dailyStats (Main.store (fst result)) = dailyStats (Main.store process) /\
  (trusted = true ->
   Main.console (fst result)
   = Main.console process ++ ["Error completing session: session not found"]).
Proof.
  intros Hunknown result. subst result.
  unfold Main.sessionsComplete, Main.validateIPCSender, Main.consoleLog,
    Main.onStore, Timer.completeSession.
  destruct trusted; run_eff.
  - rewrite (completeSessionInStore_unknown_id zone now sessionId durationMinutes
               pausedSeconds _ Hunknown).
    simpl. destruct process as [store console]. simpl. repeat split; reflexivity.
  - repeat split; try reflexivity. discriminate.
Qed.

Lemma sessionsComplete_unknown_id_returns_false_witness :
  let process := Main.mkProcess (mkSchema ∅ [] [sampleSession]) [] in
  let result := Main.sessionsComplete true sampleZone 1735723500000 "s_0_0" 25 0 process in
  snd result = Returned false /\
  Main.store (fst result) = Main.store process /\
  sessions (Main.store (fst result)) = [sampleSession] /\
  dailyStats (Main.store (fst result)) = [] /\
  (true = true ->
   Main.console (fst result) = [] ++ ["Error completing session: session not found"]).
Proof.
  apply (sessionsComplete_unknown_id_returns_false true sampleZone 1735723500000
           "s_0_0" 25 0 (Main.mkProcess (mkSchema ∅ [] [sampleSession]) [])).
  intros row [<- | []]. discriminate.
Defined.

(** The three outcomes of [updateSessionProgress]. *)
Lemma updateSessionProgress_cases (sessionId : string) (activeSeconds pausedSeconds : Z) store :
  (sessionId = "" ->
   updateSessionProgress sessionId activeSeconds pausedSeconds store
   = (store, Thrown "sessionId required")) /\
  (sessionId <> "" ->
   (forall row, In row (sessions store) -> SessionRow.id row <> sessionId) ->
   updateSessionProgress sessionId activeSeconds pausedSeconds store
   = (store, Returned None)) /\
  (sessionId <> "" ->
   forall l1 row l2,
     sessions store = l1 ++ row :: l2 ->
     SessionRow.id row = sessionId ->
     (forall r, In r l1 -> SessionRow.id r <> sessionId) ->
     updateSessionProgress sessionId activeSeconds pausedSeconds store
     = (mkSchema (subjectTotals store) (dailyStats store)
                 (l1 ++ progress activeSeconds pausedSeconds row :: l2),
        Returned (Some (progress activeSeconds pausedSeconds row)))).
Proof.
  assert (forall s, s <> "" -> Js.truthy s = true) as Htruthy
    by (intros [|c s] Hs; [congruence | reflexivity]).
  unfold updateSessionProgress, getSessions, setSessions.
  repeat split.
  - intros ->. reflexivity.
  - intros Hid Hunknown. rewrite (Htruthy _ Hid). run_eff.
    now rewrite (unknown_id_not_found _ _ Hunknown).
  - intros Hid l1 row l2 Harr Hrow Hl1. rewrite (Htruthy _ Hid). run_eff.
    rewrite Harr, (findIndex_first _ l1 row l2).
    + simpl. now rewrite updateAt_middle, nth_middle_eq.
    + intros r Hr. apply String.eqb_neq. now apply Hl1.
    + now apply String.eqb_eq.
Qed.

(** C10, as stated, fails for the empty session id: it is in no session
    row, yet the call throws instead of returning [null]. *)
Lemma updateSessionProgress_empty_id_throws :
  let store := mkSchema ∅ [] [sampleSession] in
  (forall row, In row (sessions store) -> SessionRow.id row <> "") /\
  updateSessionProgress "" 120 5 store = (store, Thrown "sessionId required").
Proof.
  split; [| reflexivity].
  intros row [<- | []]. discriminate.
Qed.

(** C10 (amended).  For a non-empty session id that is in no session row,
    [updateSessionProgress] returns [null] and leaves the store as it was;
    for the empty id it throws, also leaving the store as it was.  For the
    first row with a non-empty id it overwrites [durationMinutes] with
    [floor(activeSeconds / 60)] and [pausedSeconds] with the value passed,
    each clamped at zero, and changes nothing else. *)
Theorem updateSessionProgress_overwrites
    (sessionId : string) (activeSeconds pausedSeconds : Z) (store : Schema) :
  (sessionId = "" ->
   updateSessionProgress sessionId activeSeconds pausedSeconds store
   = (store, Thrown "sessionId required"))
  /\
  (sessionId <> "" ->
   (forall row, In row (sessions store) -> SessionRow.id row <> sessionId) ->
   updateSessionProgress sessionId activeSeconds pausedSeconds store
   = (store, Returned None))
  /\
  (sessionId <> "" ->
   forall l1 row l2 minutes,
     sessions store = l1 ++ row :: l2 ->
     SessionRow.id row = sessionId ->
     (forall r, In r l1 -> SessionRow.id r <> sessionId) ->
     60 * minutes <= activeSeconds < 60 * minutes + 60 ->
     let row' :=
       SessionRow.mk (SessionRow.id row) (SessionRow.subjectId row)
                     (SessionRow.subjectName row) (SessionRow.startTime row)
                     (SessionRow.endTime row)
                     (Some (Z.max 0 minutes)) (Some (Z.max 0 pausedSeconds)) in
     updateSessionProgress sessionId activeSeconds pausedSeconds store
     = (mkSchema (subjectTotals store) (dailyStats store) (l1 ++ row' :: l2),
        Returned (Some row'))).
Proof.
  destruct (updateSessionProgress_cases sessionId activeSeconds pausedSeconds store)
    as (Hempty & Hunknown & Hknown).
  split; [exact Hempty |]. split; [exact Hunknown |].
  intros Hid l1 row l2 minutes Harr Hrow Hl1 Hfloor row'.
  rewrite (Hknown Hid l1 row l2 Harr Hrow Hl1).
  assert (activeSeconds / 60 = minutes) as Hdiv
    by (symmetry; apply Z.div_unique with (r := activeSeconds - 60 * minutes); lia).
  unfold progress, Js.clamp0. rewrite Hdiv. reflexivity.
Qed.

Lemma updateSessionProgress_overwrites_witness :
  updateSessionProgress "s_0_0" 125 (-3) (mkSchema ∅ [] [sampleSession])
    = (mkSchema ∅ [] [sampleSession], Returned None) /\
  updateSessionProgress "s_1735722000000_42" 125 (-3) (mkSchema ∅ [] [sampleSession])
    = (mkSchema ∅ []
         [SessionRow.mk "s_1735722000000_42" None "Math" 1735722000000 None (Some 2) (Some 0)],
       Returned (Some (SessionRow.mk "s_1735722000000_42" None "Math" 1735722000000
                                     None (Some 2) (Some 0)))).
Proof.
  split.
  - apply (proj1 (proj2 (updateSessionProgress_overwrites "s_0_0" 125 (-3)
                           (mkSchema ∅ [] [sampleSession]))));
      [discriminate |].
    intros row [<- | []]. discriminate.
  - apply (proj2 (proj2 (updateSessionProgress_overwrites "s_1735722000000_42" 125 (-3)
                           (mkSchema ∅ [] [sampleSession])))
             ltac:(discriminate) [] sampleSession [] 2);
      [reflexivity | reflexivity | intros r [] | lia].
Defined.

End Sessions.

(* ------------------------------------------------------------------ *)
(** ** Reminders *)
(* ------------------------------------------------------------------ *)

Section ReminderChecker.
Import Reminders ReminderSpec.
Implicit Types (p : Process) (r : Reminder.t) (l : list Reminder.t).

Lemma saveReminders_is_writeCSV faults l fs :
  saveReminders faults l fs = CsvDatabase.writeCSV faults l fs.
Proof. reflexivity. Qed.

Lemma normalized_idem r : normalized (normalized r) = normalized r.
Proof.
  destruct r as [id title [b|] ts]; unfold normalized; simpl; [| reflexivity].
  destruct (Js.truthy b) eqn:Hb; simpl; [now rewrite Hb | reflexivity].
Qed.

Lemma stored_normalized fs : map normalized (stored fs) = stored fs.
Proof.
  unfold stored. destruct (Fs.primary fs) as [records|]; [| reflexivity].
  rewrite map_map. apply map_ext. intros r. apply normalized_idem.
Qed.

Lemma map_normalized_filter (keep : Reminder.t -> bool) l :
  map normalized l = l -> map normalized (List.filter keep l) = List.filter keep l.
Proof.
  induction l as [|r l IH]; simpl; [reflexivity |].
  intros [= Hr Hl]. destruct (keep r); simpl; [rewrite Hr |]; now rewrite IH.
Qed.

Lemma forEach_showNotification l p :
  forEach l showNotification p
  = (mkProcess (files p) (shown p ++ l) (console p), Returned tt).
Proof.
  revert p. induction l as [|r l IH]; intros p; simpl.
  - rewrite app_nil_r. now destruct p.
  - unfold bind, showNotification, modify. rewrite IH. simpl.
    now rewrite <- app_assoc.
Qed.

Lemma isLater_not_due now r : isLater now r = negb (isDue now r).
Proof. unfold isLater, isDue. now rewrite Z.leb_antisym, negb_involutive. Qed.

Lemma nothing_due_all_later now l :
  List.filter (isDue now) l = [] -> List.filter (isLater now) l = l.
Proof.
  induction l as [|r l IH]; simpl; [reflexivity |].
  rewrite isLater_not_due. destruct (isDue now r); simpl; [discriminate |].
  intros Hl. now rewrite IH.
Qed.

(** One tick whose save does not fail: the due reminders are shown in the
    order in which they are stored, and what stays in the file are the
    reminders that are not due. *)
Lemma check_effect now p :
  exists p',
    check Fs.noFaults now p = (p', Returned tt) /\
    shown p' = shown p ++ List.filter (isDue now) (stored (files p)) /\
    stored (files p') = List.filter (isLater now) (stored (files p)) /\
    console p' = console p.
Proof.
  unfold check, tryCatch, bind, onFiles, loadReminders, gets.
  fold (stored (files p)).
  pose proof (stored_normalized (files p)) as Hnorm.
  destruct (stored (files p)) as [|r0 l0] eqn:Hstored.
  - exists p. simpl. rewrite app_nil_r, Hstored. now destruct p.
  - rewrite <- Hstored in *. set (l := stored (files p)) in *.
    replace (mkProcess (files p) (shown p) (console p)) with p by now destruct p.
    destruct (List.filter (isDue now) l) as [|d due] eqn:Hdue.
    + exists p. rewrite Hstored. unfold ret. rewrite <- Hstored. fold l.
      rewrite app_nil_r, (nothing_due_all_later _ _ Hdue). auto.
    + rewrite Hstored. rewrite <- Hstored. fold l.
      rewrite forEach_showNotification. cbv beta iota zeta.
      cbn [files shown console].
      rewrite saveReminders_is_writeCSV, writeCSV_no_fault.
      eexists. split; [reflexivity |]. cbn [files shown console].
      repeat split. unfold stored. cbn [Fs.primary].
      now apply map_normalized_filter.
Qed.

Lemma countOf_app r l1 l2 : countOf r (l1 ++ l2) = (countOf r l1 + countOf r l2)%nat.
Proof. apply count_occ_app. Qed.

Lemma countOf_filter (keep : Reminder.t -> bool) r l :
  countOf r (List.filter keep l) = if keep r then countOf r l else O.
Proof.
  unfold countOf. induction l as [|x l IH]; simpl; [now destruct (keep r) |].
  destruct (keep x) eqn:Hx; simpl; destruct (Reminder_eq_dec x r) as [-> | Hne];
    rewrite ?IH; try rewrite Hx; reflexivity.
Qed.

Lemma countOf_zero r l : countOf r l = O <-> ~ In r l.
Proof. unfold countOf. symmetry. apply count_occ_not_In. Qed.

(** A run of ticks that do not fail. *)
Lemma quiet_run times p :
  exists p', startReminderChecker (quiet times) p = (p', Returned tt).
Proof.
  revert p. induction times as [|now times IH]; intros p; simpl.
  - now exists p.
  - unfold bind. destruct (check_effect now p) as (p1 & -> & _).
    apply IH.
Qed.

Lemma quiet_run_app times1 times2 p :
  startReminderChecker (quiet (times1 ++ times2)) p
  = startReminderChecker (quiet times2) (fst (startReminderChecker (quiet times1) p)).
Proof.
  revert p. induction times1 as [|now times1 IH]; intros p; simpl; [reflexivity |].
  unfold bind. destruct (check_effect now p) as (p1 & -> & _). apply IH.
Qed.

(** Ticks before a reminder is due neither show it nor take it out of the
    file. *)
Lemma quiet_run_before_due r times p :
  Forall (fun now => now < Reminder.timestamp r) times ->
  let p' := fst (startReminderChecker (quiet times) p) in
  countOf r (shown p') = countOf r (shown p) /\
  countOf r (stored (files p')) = countOf r (stored (files p)).
Proof.
  revert p. induction times as [|now times IH]; intros p Hearly; simpl; [auto |].
  inversion Hearly as [|? ? Hnow Hrest]; subst.
  unfold bind. destruct (check_effect now p) as (p1 & -> & Hshown & Hstored & _).
  destruct (IH p1 Hrest) as [IHshown IHstored]. simpl in IHshown, IHstored.
  rewrite IHshown, IHstored, Hshown, Hstored, countOf_app, !countOf_filter.
  unfold isDue, isLater.
  destruct (Z.leb_spec (Reminder.timestamp r) now); [lia |].
  destruct (Z.ltb_spec now (Reminder.timestamp r)); [| lia].
  split; lia.
Qed.

(** Once a reminder is out of the file no tick shows it. *)
Lemma quiet_run_once_removed r times p :
  countOf r (stored (files p)) = O ->
  let p' := fst (startReminderChecker (quiet times) p) in
  countOf r (shown p') = countOf r (shown p) /\
  countOf r (stored (files p')) = O.
Proof.
  revert p. induction times as [|now times IH]; intros p Hgone; simpl; [auto |].
  unfold bind. destruct (check_effect now p) as (p1 & -> & Hshown & Hstored & _).
  assert (countOf r (stored (files p1)) = O) as Hgone1.
  { rewrite Hstored, countOf_filter. now destruct (isLater now r). }
  destruct (IH p1 Hgone1) as [IHshown IHstored]. simpl in IHshown, IHstored.
  rewrite IHshown, IHstored, Hshown, countOf_app, countOf_filter, Hgone.
  destruct (isDue now r); split; lia.
Qed.

Lemma StronglySorted_filter {A : Type} (R : A -> A -> Prop) (keep : A -> bool) (l : list A) :
  StronglySorted R l -> StronglySorted R (List.filter keep l).
Proof.
  induction 1 as [|a l Hl IH Ha]; simpl; [constructor |].
  destruct (keep a); [| assumption].
  constructor; [assumption |].
  apply List.Forall_forall. intros x Hx. apply filter_In in Hx as [Hx _].
  revert x Hx. now apply List.Forall_forall.
Qed.

Lemma insertBy_ascending r l :
  ascending l -> ascending (Js.insertBy byTimestamp r l).
Proof.
  unfold ascending. induction 1 as [|a l Hl IH Ha]; simpl.
  - repeat constructor.
  - unfold byTimestamp at 1. destruct (Z.leb_spec (Reminder.timestamp r - Reminder.timestamp a) 0).
    + constructor; [now constructor |].
      constructor; [lia |].
      eapply List.Forall_impl; [| exact Ha]. simpl. intros x Hx. lia.
    + constructor; [assumption |].
      eapply Permutation_Forall; [apply insertBy_Permutation |].
      constructor; [lia | assumption].
Qed.

Lemma sort_ascending l : ascending (Js.sort byTimestamp l).
Proof.
  induction l as [|r l IH]; simpl; [constructor | now apply insertBy_ascending].
Qed.

(** Where [reminder:add] puts a reminder in an ascending file: after every
    stored reminder that is not later than it, before the others. *)
Lemma sort_appended_position r l :
  ascending l ->
  Js.sort byTimestamp (l ++ [r])
  = List.filter (fun x => Reminder.timestamp x <=? Reminder.timestamp r) l
    ++ r :: List.filter (fun x => Reminder.timestamp r <? Reminder.timestamp x) l.
Proof.
  unfold ascending. induction 1 as [|a l Hl IH Ha]; [reflexivity |].
  change (Js.sort byTimestamp ((a :: l) ++ [r]))
    with (Js.insertBy byTimestamp a (Js.sort byTimestamp (l ++ [r]))).
  rewrite IH. cbn [List.filter].
  destruct (Z.leb_spec (Reminder.timestamp a) (Reminder.timestamp r)) as [Hle | Hgt].
  - destruct (Z.ltb_spec (Reminder.timestamp r) (Reminder.timestamp a)); [lia |].
    destruct (List.filter (fun x => Reminder.timestamp x <=? Reminder.timestamp r) l)
      as [|y ys] eqn:Hys; simpl.
    + unfold byTimestamp at 1.
      destruct (Z.leb_spec (Reminder.timestamp a - Reminder.timestamp r) 0); [reflexivity | lia].
    + assert (In y l) as Hy.
      { assert (In y (y :: ys)) as Hin by now left.
        rewrite <- Hys in Hin. now apply filter_In in Hin. }
      pose proof (proj1 (List.Forall_forall _ _) Ha y Hy) as Hay. simpl in Hay.
      unfold byTimestamp at 1.
      destruct (Z.leb_spec (Reminder.timestamp a - Reminder.timestamp y) 0); [reflexivity | lia].
  - destruct (Z.ltb_spec (Reminder.timestamp r) (Reminder.timestamp a)); [| lia].
    assert (List.filter (fun x => Reminder.timestamp x <=? Reminder.timestamp r) l = []) as ->.
    { apply filter_none. intros x Hx.
      pose proof (proj1 (List.Forall_forall _ _) Ha x Hx) as Hax. simpl in Hax.
      apply Z.leb_gt. lia. }
    assert (List.filter (fun x => Reminder.timestamp r <? Reminder.timestamp x) l = l) as ->.
    { apply forallb_filter_id, forallb_forall. intros x Hx.
      pose proof (proj1 (List.Forall_forall _ _) Ha x Hx) as Hax. simpl in Hax.
      apply Z.ltb_lt. lia. }
    simpl. unfold byTimestamp at 1.
    destruct (Z.leb_spec (Reminder.timestamp a - Reminder.timestamp r) 0); [lia |].
    f_equal. destruct l as [|y l']; simpl; [reflexivity |].
    inversion Ha as [|? ? Hay _]; subst.
    unfold byTimestamp at 1.
    destruct (Z.leb_spec (Reminder.timestamp a - Reminder.timestamp y) 0); [reflexivity | lia].
Qed.

Lemma reminderAdd_effect id title body stamp p :
  let item := normalized (Reminder.mk id title body stamp) in
  exists p',
    reminderAdd Fs.noFaults id title body (Some stamp) p = (p', Returned item) /\
    stored (files p') = Js.sort byTimestamp (stored (files p) ++ [item]) /\
    shown p' = shown p.
Proof.
  intros item. unfold reminderAdd, tryCatch, bind, onFiles, loadReminders, gets.
  fold (stored (files p)). cbv beta iota zeta. cbn [files shown console].
  rewrite saveReminders_is_writeCSV, writeCSV_no_fault. cbv beta iota zeta.
  eexists. split; [reflexivity |]. cbn [files shown]. split; [| reflexivity].
  unfold stored at 1. cbn [Fs.primary]. fold item. fold byTimestamp.
  assert (map normalized (stored (files p) ++ [item]) = stored (files p) ++ [item]) as Hnorm.
  { rewrite map_app, stored_normalized. simpl. unfold item. now rewrite normalized_idem. }
  remember (stored (files p) ++ [item]) as l eqn:Hl. clear Hl.
  assert (forall x, In x l -> normalized x = x) as Hfix.
  { clear - Hnorm. induction l as [|a l IH]; simpl in *; [intros x [] |].
    injection Hnorm as Ha Hl. intros x [<- | Hx]; auto. }
  assert (forall x, In x (Js.sort byTimestamp l) -> normalized x = x) as Hfix'.
  { intros x Hx. apply Hfix. eapply Permutation_in; [symmetry; apply sort_Permutation | exact Hx]. }
  clear - Hfix'. induction (Js.sort byTimestamp l) as [|a l' IH]; simpl; [reflexivity |].
  rewrite Hfix' by now left. f_equal. apply IH. intros x Hx. apply Hfix'. now right.
Qed.

Lemma reminderRemove_effect id p :
  exists p',
    reminderRemove Fs.noFaults id p = (p', Returned true) /\
    stored (files p')
    = List.filter (fun r => negb (Reminder.id r =? id)%string) (stored (files p)) /\
    shown p' = shown p.
Proof.
  unfold reminderRemove, tryCatch, bind, onFiles, loadReminders, gets.
  fold (stored (files p)). cbv beta iota zeta. cbn [files shown console].
  rewrite saveReminders_is_writeCSV, writeCSV_no_fault. cbv beta iota zeta.
  eexists. split; [reflexivity |]. cbn [files shown]. split; [| reflexivity].
  unfold stored at 1. cbn [Fs.primary].
  apply map_normalized_filter, stored_normalized.
Qed.

(** Every call keeps the file in ascending order of timestamp. *)
Lemma serve_keeps_ascending request p :
  ascending (stored (files p)) -> ascending (stored (files (fst (serve request p)))).
Proof.
  intros Hasc. destruct request as [id title body [stamp|] | id | now]; simpl.
  - unfold tryCatch, bind.
    destruct (reminderAdd_effect id title body stamp p) as (p' & -> & Hstored & _).
    simpl. rewrite Hstored. apply sort_ascending.
  - unfold tryCatch, bind, reminderAdd, onFiles, loadReminders, gets, throw, consoleLog, modify.
    simpl. replace (mkProcess (files p) (shown p) (console p)) with p by now destruct p.
    simpl. exact Hasc.
  - unfold bind. destruct (reminderRemove_effect id p) as (p' & -> & Hstored & _).
    simpl. rewrite Hstored. now apply StronglySorted_filter.
  - destruct (check_effect now p) as (p' & -> & _ & Hstored & _).
    simpl. rewrite Hstored. now apply StronglySorted_filter.
Qed.

Lemma serveAll_keeps_ascending requests p :
  ascending (stored (files p)) -> ascending (stored (files (fst (serveAll requests p)))).
Proof.
  revert p. induction requests as [|request rest IH]; intros p Hasc; simpl; [assumption |].
  unfold bind. pose proof (serve_keeps_ascending request p Hasc) as Hstep.
  destruct (serve request p) as [p1 [[] | e]]; simpl in *; [now apply IH | assumption].
Qed.

End ReminderChecker.

Section ReminderClaim.
Import Reminders ReminderSpec.

(** C8 (amended).  A reminder [r] is in the file; the ticks at [earlier]
    come before it is due and the tick at [now] is the first at or after its
    timestamp; any ticks follow at [later].  No save fails.  Then no earlier
    tick shows [r]; the tick at [now] shows the due reminders in the order
    in which they are stored, which is ascending by timestamp when the file
    is, as it is whenever it was filled through [reminder:add],
    [reminder:remove] and ticks from an empty file; [r] is among them once
    per stored copy; the tick writes back only the reminders that are not
    due; [r] is not in the file afterwards and no later tick shows it
    again. *)
Theorem reminder_fires_exactly_once
    (p : Process) (r : Reminder.t) (earlier later : list Z) (now : Z) :
  In r (stored (files p)) ->
  Forall (fun tick => tick < Reminder.timestamp r) earlier ->
  Reminder.timestamp r <= now ->
  let p1 := fst (startReminderChecker (quiet earlier) p) in
  let p2 := fst (check Fs.noFaults now p1) in
  let p3 := fst (startReminderChecker (quiet later) p2) in
  startReminderChecker (quiet (earlier ++ now :: later)) p = (p3, Returned tt) /\
  countOf r (shown p1) = countOf r (shown p) /\
  shown p2 = shown p1 ++ List.filter (isDue now) (stored (files p1)) /\
  countOf r (shown p2) = (countOf r (shown p) + countOf r (stored (files p)))%nat /\
  (1 <= countOf r (stored (files p)))%nat /\
  stored (files p2) = List.filter (isLater now) (stored (files p1)) /\
  ~ In r (stored (files p2)) /\
  countOf r (shown p3) = countOf r (shown p2) /\
  ~ In r (stored (files p3)) /\
  (ascending (stored (files p)) ->
   ascending (List.filter (isDue now) (stored (files p1)))) /\
  (forall requests p0,
     stored (files p0) = [] -> p = fst (serveAll requests p0) ->
     ascending (List.filter (isDue now) (stored (files p1)))).
Proof.
  intros Hin Hearly Hdue p1 p2 p3.
  assert (ascending (stored (files p)) ->
          ascending (List.filter (isDue now) (stored (files p1)))) as Horder.
  { intros Hasc. apply StronglySorted_filter.
    assert (forall times q, ascending (stored (files q)) ->
              ascending (stored (files (fst (startReminderChecker (quiet times) q))))) as Hkeep.
    { induction times as [|t times IH]; intros q Hq; simpl; [assumption |].
      unfold bind. destruct (check_effect t q) as (q' & -> & _ & Hq' & _).
      apply IH. rewrite Hq'. now apply StronglySorted_filter. }
    now apply Hkeep. }
  destruct (quiet_run_before_due r earlier p Hearly) as [Hshown1 Hstored1].
  fold p1 in Hshown1, Hstored1.
  destruct (check_effect now p1) as (p2' & Hcheck & Hshown2 & Hstored2 & _).
  assert (p2 = p2') as <- by (subst p2; now rewrite Hcheck).
  assert (isDue now r = true) as Hr by (apply Z.leb_le; exact Hdue).
  assert (countOf r (stored (files p2)) = O) as Hgone.
  { rewrite Hstored2, countOf_filter, isLater_not_due, Hr. reflexivity. }
  destruct (quiet_run_once_removed r later p2 Hgone) as [Hshown3 Hstored3].
  fold p3 in Hshown3, Hstored3.
  repeat split.
  - rewrite quiet_run_app. fold p1. simpl. unfold bind. rewrite Hcheck.
    destruct (quiet_run later p2) as (p3' & Hrun). subst p3. now rewrite Hrun.
  - exact Hshown1.
  - exact Hshown2.
  - rewrite Hshown2, countOf_app, countOf_filter, Hr, Hshown1, Hstored1. reflexivity.
  - unfold countOf. apply count_occ_In. exact Hin.
  - exact Hstored2.
  - now apply countOf_zero.
  - exact Hshown3.
  - now apply countOf_zero.
  - exact Horder.
  - intros requests p0 Hempty ->. apply Horder.
    apply serveAll_keeps_ascending. rewrite Hempty. constructor.
Qed.

Lemma reminder_fires_exactly_once_witness :
  let p := mkProcess (Fs.mkFiles (Some sampleReminders) None None) [] [] in
  let r := Reminder.mk "b" "Submit report" (Some "before noon") 2000 in
  let p1 := fst (startReminderChecker (quiet [500; 1500]) p) in
  let p2 := fst (check Fs.noFaults 2500 p1) in
  let p3 := fst (startReminderChecker (quiet [2600; 4000]) p2) in
  startReminderChecker (quiet ([500; 1500] ++ 2500 :: [2600; 4000])) p = (p3, Returned tt) /\
  countOf r (shown p1) = countOf r (shown p) /\
  shown p2 = shown p1 ++ List.filter (isDue 2500) (stored (files p1)) /\
  countOf r (shown p2) = (countOf r (shown p) + countOf r (stored (files p)))%nat /\
  (1 <= countOf r (stored (files p)))%nat /\
  stored (files p2) = List.filter (isLater 2500) (stored (files p1)) /\
  ~ In r (stored (files p2)) /\
  countOf r (shown p3) = countOf r (shown p2) /\
  ~ In r (stored (files p3)) /\
  (ascending (stored (files p)) ->
   ascending (List.filter (isDue 2500) (stored (files p1)))) /\
  (forall requests p0,
     stored (files p0) = [] -> p = fst (serveAll requests p0) ->
     ascending (List.filter (isDue 2500) (stored (files p1)))).
Proof.
  apply (reminder_fires_exactly_once
           (mkProcess (Fs.mkFiles (Some sampleReminders) None None) [] [])
           (Reminder.mk "b" "Submit report" (Some "before noon") 2000)
           [500; 1500] [2600; 4000] 2500).
  - simpl. right. left. reflexivity.
  - repeat (constructor; [simpl; lia |]). constructor.
  - simpl. lia.
Defined.

(** The run of the witness, evaluated: "a" is shown by the tick at 1500,
    "b" by the tick at 2500, "c" by the tick at 4000, each once. *)
Example reminder_run_evaluated :
  let p := mkProcess (Fs.mkFiles (Some sampleReminders) None None) [] [] in
  shown (fst (startReminderChecker (quiet [500; 1500; 2500; 2600; 4000]) p))
  = sampleReminders.
Proof. reflexivity. Qed.

(** C8, as stated, fails: the tick shows the due reminders before it
    saves the remaining ones.  When that save fails (here the temporary file
    cannot be written) the reminder stays in the file, and the next tick
    shows it a second time. *)
Example reminder_shown_again_after_failed_save :
  let p := mkProcess (Fs.mkFiles (Some sampleReminders) None None) [] [] in
  let r := Reminder.mk "a" "Stand up" None 1000 in
  let failing := Fs.mkFaults true false false false in
  let p1 := fst (check failing 1500 p) in
  let p2 := fst (check Fs.noFaults 1600 p1) in
  In r (stored (files p)) /\ Reminder.timestamp r <= 1500 /\
  shown p1 = [r] /\ In r (stored (files p1)) /\
  shown p2 = [r; r] /\
  startReminderChecker [(1500, failing); (1600, Fs.noFaults)] p = (p2, Returned tt).
Proof.
  repeat split; try reflexivity.
  - now left.
  - simpl. lia.
  - now left.
Qed.

End ReminderClaim.

(* ------------------------------------------------------------------ *)
(** ** Daily stats and subject totals *)
(* ------------------------------------------------------------------ *)

Section DailyStats.
Import Store StatSpec.
Implicit Types (store : Schema) (daily : list DailyStat.t) (totals : gmap string Z).

Lemma truthy_keyOf_keyOf (subject : string) :
  Js.truthy (keyOf (keyOf subject)) = Js.truthy (keyOf subject).
Proof. now rewrite keyOf_idem. Qed.

Lemma totalOf_insert (key subject : string) (value : Z) totals :
  totalOf subject (<[key := value]> totals)
  = if (subject =? key)%string then value else totalOf subject totals.
Proof.
  unfold totalOf. destruct (String.eqb_spec subject key) as [-> | Hne].
  - now rewrite lookup_insert_eq.
  - rewrite lookup_insert_ne; [reflexivity | congruence].
Qed.

(** [incrementSubjectTotal] on a name whose key is not empty: the call
    returns, and the minutes are added to the total of the key unless the key
    is a name every object inherits. *)
Lemma incrementSubjectTotal_effect (name : string) (minutes : Z) store :
  Js.truthy (keyOf name) = true ->
  exists totals' total,
    incrementSubjectTotal name minutes store
    = (mkSchema totals' (dailyStats store) (sessions store), Returned total) /\
    forall subject,
      Js.inherited (keyOf name) = false \/ Js.inherited subject = false ->
      totalOf subject totals'
      = totalOf subject (subjectTotals store)
        + if (subject =? keyOf name)%string then Js.clamp0 minutes else 0.
Proof.
  intros Hkey. unfold incrementSubjectTotal, getSubjectTotals, setSubjectTotals, lacks.
  rewrite Hkey. cbn [negb]. unfold bind at 1. unfold gets.
  destruct (subjectTotals store !! keyOf name) as [v|] eqn:Hv.
  - rewrite Hv. run_eff. eexists. eexists. split; [reflexivity |].
    intros subject _. rewrite totalOf_insert.
    destruct (String.eqb_spec subject (keyOf name)) as [-> | Hne]; [| lia].
    unfold totalOf. now rewrite Hv.
  - destruct (Js.inherited (keyOf name)) eqn:Hinherited; cbn [negb].
    + rewrite Hv. run_eff. eexists. eexists. split; [reflexivity |].
      intros subject [Hno | Hsubject]; [discriminate |].
      destruct (String.eqb_spec subject (keyOf name)) as [-> | Hne]; [congruence | lia].
    + rewrite lookup_insert_eq. run_eff. eexists. eexists. split; [reflexivity |].
      intros subject _. rewrite !totalOf_insert.
      destruct (String.eqb_spec subject (keyOf name)) as [-> | Hne]; [| lia].
      unfold totalOf. rewrite Hv. reflexivity.
Qed.

(** On a name every object inherits, for which the totals have no entry,
    [incrementSubjectTotal] leaves the store as it is. *)
Lemma incrementSubjectTotal_inherited (name : string) (minutes : Z) store :
  Js.truthy (keyOf name) = true ->
  Js.inherited (keyOf name) = true ->
  subjectTotals store !! keyOf name = None ->
  incrementSubjectTotal name minutes store = (store, Returned InheritedValue).
Proof.
  intros Hkey Hinherited Hnone.
  unfold incrementSubjectTotal, getSubjectTotals, setSubjectTotals, lacks.
  rewrite Hkey. cbn [negb]. unfold bind at 1. unfold gets.
  rewrite Hnone, Hinherited. cbn [negb]. rewrite Hnone. run_eff. now destruct store.
Qed.

Lemma incrementSubjectTotal_blank (name : string) (minutes : Z) store :
  Js.truthy (keyOf name) = false ->
  incrementSubjectTotal name minutes store = (store, Thrown "Invalid subject name").
Proof. intros Hkey. unfold incrementSubjectTotal. now rewrite Hkey. Qed.

Lemma timeInSubjectOf_app date subject daily1 daily2 :
  timeInSubjectOf date subject (daily1 ++ daily2)
  = timeInSubjectOf date subject daily1 + timeInSubjectOf date subject daily2.
Proof. unfold timeInSubjectOf. now rewrite List.filter_app, List.map_app, sumZ_app. Qed.

Lemma timeOfSubject_app subject daily1 daily2 :
  timeOfSubject subject (daily1 ++ daily2)
  = timeOfSubject subject daily1 + timeOfSubject subject daily2.
Proof. unfold timeOfSubject. now rewrite List.filter_app, List.map_app, sumZ_app. Qed.

Lemma timeInSubjectOf_one date subject (row : DailyStat.t) :
  timeInSubjectOf date subject [row]
  = if sameKey date subject (DailyStat.date row) (DailyStat.subject row)
    then DailyStat.timeInSubject row else 0.
Proof.
  unfold timeInSubjectOf, sameKey, isRowFor. simpl.
  destruct ((DailyStat.date row =? date)%string && (DailyStat.subject row =? subject)%string);
    simpl; lia.
Qed.

Lemma timeOfSubject_one subject (row : DailyStat.t) :
  timeOfSubject subject [row]
  = if (DailyStat.subject row =? subject)%string then DailyStat.timeInSubject row else 0.
Proof.
  unfold timeOfSubject. simpl.
  destruct (DailyStat.subject row =? subject)%string; simpl; lia.
Qed.

Lemma sync_step {A : Type} (key : string) (delta : Z) (next : Eff Schema A) store :
  Js.truthy (keyOf key) = true ->
  bind (if 0 <? delta
        then bind (incrementSubjectTotal key delta) (fun _ => ret tt)
        else ret tt)
       (fun _ => next) store
  = next (syncTotals key delta store).
Proof.
  intros Hkey. unfold syncTotals, bind.
  destruct (0 <? delta); [| reflexivity].
  destruct (incrementSubjectTotal_effect key delta store Hkey) as (totals' & total & -> & _).
  reflexivity.
Qed.

Lemma syncTotals_effect (key : string) (delta : Z) store :
  Js.truthy (keyOf key) = true -> keyOf key = key -> 0 <= delta ->
  dailyStats (syncTotals key delta store) = dailyStats store /\
  sessions (syncTotals key delta store) = sessions store /\
  forall subject,
    Js.inherited key = false \/ Js.inherited subject = false ->
    totalOf subject (subjectTotals (syncTotals key delta store))
    = totalOf subject (subjectTotals store)
      + if (subject =? key)%string then delta else 0.
Proof.
  intros Hkey Hidem Hdelta. unfold syncTotals.
  destruct (Z.ltb_spec 0 delta) as [Hpos | Hzero].
  - destruct (incrementSubjectTotal_effect key delta store Hkey)
      as (totals' & total & -> & Htotals).
    simpl. repeat split. intros subject Hordinary. rewrite Hidem in Htotals.
    rewrite (Htotals subject Hordinary).
    unfold Js.clamp0. destruct (subject =? key)%string; lia.
  - repeat split. intros subject _.
    destruct (subject =? key)%string; lia.
Qed.

(** No row for (date, key): a row is appended. *)
Lemma updateDailyStat_creates (date subject : string) (increments : Increments.t) store :
  Js.truthy date = true -> Js.truthy (keyOf subject) = true ->
  (forall d, In d (dailyStats store) -> isRowFor date (keyOf subject) d = false) ->
  let safeTime := Js.clamp0 (Js.orZero (Increments.timeInSubject increments)) in
  let newRow :=
    DailyStat.mk date (keyOf subject) safeTime
      (Js.clamp0 (Js.orZero (Increments.breakMinutes increments)))
      (Js.clamp0 (Js.orZero (Increments.pauseMinutes increments))) in
  updateDailyStat date subject increments store
  = (syncTotals (keyOf subject) safeTime
       (mkSchema (subjectTotals store) (dailyStats store ++ [newRow]) (sessions store)),
     Returned newRow).
Proof.
  intros Hdate Hkey Hnone safeTime newRow.
  apply findIndex_None in Hnone.
  unfold updateDailyStat. rewrite Hdate, Hkey. cbn [negb orb].
  unfold getDailyStats, setDailyStats.
  unfold bind at 1. unfold gets. rewrite Hnone.
  unfold bind at 1. unfold modify.
  rewrite sync_step by now rewrite truthy_keyOf_keyOf.
  reflexivity.
Qed.

(** A row for (date, key): the first one is added to. *)
Lemma updateDailyStat_updates (date subject : string) (increments : Increments.t) store
    (l1 : list DailyStat.t) (x : DailyStat.t) (l2 : list DailyStat.t) :
  Js.truthy date = true -> Js.truthy (keyOf subject) = true ->
  dailyStats store = l1 ++ x :: l2 ->
  (forall d, In d l1 -> isRowFor date (keyOf subject) d = false) ->
  isRowFor date (keyOf subject) x = true ->
  let row :=
    addInto (Js.clamp0 (Js.orZero (Increments.timeInSubject increments)))
            (Js.clamp0 (Js.orZero (Increments.breakMinutes increments)))
            (Js.clamp0 (Js.orZero (Increments.pauseMinutes increments))) x in
  updateDailyStat date subject increments store
  = (syncTotals (keyOf subject) (DailyStat.timeInSubject row - DailyStat.timeInSubject x)
       (mkSchema (subjectTotals store) (l1 ++ row :: l2) (sessions store)),
     Returned row).
Proof.
  intros Hdate Hkey Hdaily Hl1 Hx row.
  unfold updateDailyStat. rewrite Hdate, Hkey. cbn [negb orb].
  unfold getDailyStats, setDailyStats.
  unfold bind at 1. unfold gets. rewrite Hdaily, (findIndex_first _ l1 x l2 Hl1 Hx).
  unfold bind at 1. unfold modify.
  rewrite updateAt_middle, !nth_middle_eq.
  rewrite sync_step by now rewrite truthy_keyOf_keyOf.
  reflexivity.
Qed.

Lemma addsUnder_keeps_sync date key added store store' :
  Js.inherited key = false ->
  addsUnder date key added store store' -> inSync store -> inSync store'.
Proof.
  intros Hkey (_ & Hrows & Htotals & _) Hsync subject.
  rewrite Htotals, Hrows, (Hsync subject), (String.eqb_sym key subject) by now left.
  reflexivity.
Qed.

Lemma addsUnder_keeps_sync_ordinary date key added store store' :
  addsUnder date key added store store' -> inSyncOrdinary store -> inSyncOrdinary store'.
Proof.
  intros (_ & Hrows & Htotals & _) Hsync subject Hsubject.
  rewrite Htotals, Hrows, (Hsync subject Hsubject), (String.eqb_sym key subject) by now right.
  reflexivity.
Qed.

Lemma inSync_ordinary store : inSync store -> inSyncOrdinary store.
Proof. intros Hsync subject _. apply Hsync. Qed.

Lemma isRowFor_eq date key (x : DailyStat.t) :
  isRowFor date key x = true -> DailyStat.date x = date /\ DailyStat.subject x = key.
Proof.
  unfold isRowFor. rewrite andb_true_iff, !String.eqb_eq. auto.
Qed.

(** [updateDailyStat] with a date and a subject that are not blank. *)
Lemma updateDailyStat_effect (date subject : string) (increments : Increments.t) store :
  Js.truthy date = true -> Js.truthy (keyOf subject) = true ->
  exists store' row added,
    updateDailyStat date subject increments store = (store', Returned row) /\
    sessions store' = sessions store /\
    addsUnder date (keyOf subject) added store store' /\
    (nonNegative (dailyStats store) ->
     added = Js.clamp0 (Js.orZero (Increments.timeInSubject increments))).
Proof.
  intros Hdate Hkey.
  set (key := keyOf subject) in *.
  set (safeTime := Js.clamp0 (Js.orZero (Increments.timeInSubject increments))).
  assert (0 <= safeTime) as Hsafe by (unfold safeTime, Js.clamp0; lia).
  assert (keyOf key = key) as Hidem by apply keyOf_idem.
  assert (Js.truthy (keyOf key) = true) as Hkey' by now rewrite Hidem.
  destruct (Js.findIndex (isRowFor date key) (dailyStats store)) as [idx|] eqn:Hfind.
  - apply findIndex_Some in Hfind as (l1 & x & l2 & Hdaily & _ & Hx & Hl1).
    rewrite (updateDailyStat_updates date subject increments store l1 x l2
               Hdate Hkey Hdaily Hl1 Hx).
    cbv zeta. fold key safeTime.
    set (row := addInto safeTime _ _ x).
    set (delta := DailyStat.timeInSubject row - DailyStat.timeInSubject x).
    assert (0 <= delta) as Hdelta
      by (unfold delta, row, addInto, Js.clamp0; simpl; lia).
    destruct (syncTotals_effect key delta
                (mkSchema (subjectTotals store) (l1 ++ row :: l2) (sessions store))
                Hkey' Hidem Hdelta) as (Hd & Hs & Ht).
    destruct (isRowFor_eq _ _ _ Hx) as [Hxdate Hxkey].
    exists (syncTotals key delta
              (mkSchema (subjectTotals store) (l1 ++ row :: l2) (sessions store))),
      row, delta.
    split; [reflexivity |]. split; [exact Hs |]. split.
    + unfold addsUnder. rewrite Hd. cbn [dailyStats subjectTotals] in *. rewrite Hdaily.
      change (l1 ++ row :: l2) with (l1 ++ [row] ++ l2).
      change (l1 ++ x :: l2) with (l1 ++ [x] ++ l2).
      repeat split.
      * intros d s. rewrite !timeInSubjectOf_app, !timeInSubjectOf_one.
        cbn [row addInto DailyStat.date DailyStat.subject]. rewrite Hxdate, Hxkey.
        fold row. unfold delta. destruct (sameKey d s date key); lia.
      * intros s. rewrite !timeOfSubject_app, !timeOfSubject_one.
        cbn [row addInto DailyStat.subject]. rewrite Hxkey.
        fold row. unfold delta. destruct (key =? s)%string; lia.
      * exact Ht.
      * unfold nonNegative. rewrite !List.Forall_app. intros (H1 & Hx0 & H2).
        repeat split; try assumption.
        constructor; [| constructor]. unfold row, addInto, Js.clamp0. simpl. lia.
    + intros Hnn. unfold nonNegative in Hnn. rewrite Hdaily in Hnn.
      apply List.Forall_app in Hnn as [_ Hnn]. inversion Hnn as [|? ? Hx0 _]; subst.
      unfold delta, row, addInto, Js.clamp0. simpl. fold safeTime. lia.
  - pose proof (proj1 (findIndex_None _ _) Hfind) as Hnone.
    rewrite (updateDailyStat_creates date subject increments store Hdate Hkey Hnone).
    cbv zeta. fold key safeTime.
    set (newRow := DailyStat.mk date key safeTime _ _).
    destruct (syncTotals_effect key safeTime
                (mkSchema (subjectTotals store) (dailyStats store ++ [newRow]) (sessions store))
                Hkey' Hidem Hsafe) as (Hd & Hs & Ht).
    exists (syncTotals key safeTime
              (mkSchema (subjectTotals store) (dailyStats store ++ [newRow]) (sessions store))),
      newRow, safeTime.
    split; [reflexivity |]. split; [exact Hs |]. split; [| reflexivity].
    unfold addsUnder. rewrite Hd. cbn [dailyStats subjectTotals] in *.
    repeat split.
    + intros d s. now rewrite timeInSubjectOf_app, timeInSubjectOf_one.
    + intros s. now rewrite timeOfSubject_app, timeOfSubject_one.
    + exact Ht.
    + unfold nonNegative. rewrite List.Forall_app. intros Hnn. split; [assumption |].
      constructor; [exact Hsafe | constructor].
Qed.

(** Under a name every object inherits, for which the totals have no
    entry, [updateDailyStat] leaves the subject totals as they are. *)
Lemma updateDailyStat_inherited (date subject : string) (increments : Increments.t) store :
  Js.truthy date = true -> Js.truthy (keyOf subject) = true ->
  Js.inherited (keyOf subject) = true ->
  subjectTotals store !! keyOf subject = None ->
  subjectTotals (fst (updateDailyStat date subject increments store)) = subjectTotals store.
Proof.
  intros Hdate Hkey Hinherited Hnone.
  assert (forall delta daily,
            subjectTotals
              (syncTotals (keyOf subject) delta
                 (mkSchema (subjectTotals store) daily (sessions store)))
            = subjectTotals store) as Hsync.
  { intros delta daily. unfold syncTotals. destruct (0 <? delta); [| reflexivity].
    rewrite incrementSubjectTotal_inherited; try reflexivity;
      rewrite keyOf_idem; assumption. }
  destruct (Js.findIndex (isRowFor date (keyOf subject)) (dailyStats store))
    as [idx|] eqn:Hfind.
  - apply findIndex_Some in Hfind as (l1 & x & l2 & Hdaily & _ & Hx & Hl1).
    rewrite (updateDailyStat_updates date subject increments store l1 x l2
               Hdate Hkey Hdaily Hl1 Hx).
    apply Hsync.
  - pose proof (proj1 (findIndex_None _ _) Hfind) as Hmissing.
    rewrite (updateDailyStat_creates date subject increments store Hdate Hkey Hmissing).
    apply Hsync.
Qed.

Lemma updateDailyStat_blank (date subject : string) (increments : Increments.t) store :
  Js.truthy date = false \/ Js.truthy (keyOf subject) = false ->
  updateDailyStat date subject increments store
  = (store, Thrown "date and subject are required for updateDailyStat").
Proof.
  intros Hblank. unfold updateDailyStat.
  destruct Hblank as [-> | ->]; [reflexivity |].
  now rewrite orb_true_r.
Qed.

(** [addDailyStat] appends its row before it validates the subject: with a
    blank subject the row is stored and the call throws. *)
Lemma addDailyStat_shape (stat : DailyStat.t) store :
  let s := DailyStat.mk (DailyStat.date stat) (keyOf (DailyStat.subject stat))
             (Js.clamp0 (DailyStat.timeInSubject stat))
             (Js.clamp0 (DailyStat.breakMinutes stat))
             (Js.clamp0 (DailyStat.pauseMinutes stat)) in
  let appended := mkSchema (subjectTotals store) (dailyStats store ++ [s]) (sessions store) in
  addDailyStat stat store
  = if Js.truthy (keyOf (DailyStat.subject stat))
    then (fst (incrementSubjectTotal (DailyStat.subject s) (DailyStat.timeInSubject s) appended),
          Returned s)
    else (appended, Thrown "Invalid subject name").
Proof.
  intros s appended. unfold addDailyStat, getDailyStats, setDailyStats. fold s.
  unfold bind at 1. unfold gets. unfold bind at 1. unfold modify. fold appended.
  unfold bind at 1.
  destruct (Js.truthy (keyOf (DailyStat.subject stat))) eqn:Hkey.
  - destruct (incrementSubjectTotal_effect (DailyStat.subject s) (DailyStat.timeInSubject s)
                appended) as (totals' & total & -> & _); [| reflexivity].
    cbn [s DailyStat.subject]. now rewrite truthy_keyOf_keyOf.
  - rewrite incrementSubjectTotal_blank; [reflexivity |].
    cbn [s DailyStat.subject]. now rewrite truthy_keyOf_keyOf.
Qed.

Lemma addDailyStat_effect (stat : DailyStat.t) store :
  Js.truthy (keyOf (DailyStat.subject stat)) = true ->
  exists store' row,
    addDailyStat stat store = (store', Returned row) /\
    sessions store' = sessions store /\
    addsUnder (DailyStat.date stat) (keyOf (DailyStat.subject stat))
              (Js.clamp0 (DailyStat.timeInSubject stat)) store store'.
Proof.
  intros Hkey. rewrite addDailyStat_shape. cbv zeta. rewrite Hkey.
  set (key := keyOf (DailyStat.subject stat)) in *.
  set (s := DailyStat.mk (DailyStat.date stat) key _ _ _).
  set (appended := mkSchema (subjectTotals store) (dailyStats store ++ [s]) (sessions store)).
  assert (Js.truthy (keyOf key) = true) as Hkey' by (unfold key; now rewrite truthy_keyOf_keyOf).
  destruct (incrementSubjectTotal_effect (DailyStat.subject s) (DailyStat.timeInSubject s)
              appended Hkey') as (totals' & total & Hrun & Htotals).
  rewrite Hrun. eexists. eexists. split; [reflexivity |]. split; [reflexivity |].
  unfold addsUnder. cbn [fst dailyStats subjectTotals appended].
  repeat split.
  - intros d s0. now rewrite timeInSubjectOf_app, timeInSubjectOf_one.
  - intros s0. now rewrite timeOfSubject_app, timeOfSubject_one.
  - intros s0 Hordinary.
    assert (keyOf key = key) as Hidem by (unfold key; now rewrite keyOf_idem).
    cbn [s DailyStat.subject DailyStat.timeInSubject appended subjectTotals] in Htotals.
    rewrite Hidem in Htotals. rewrite (Htotals s0 Hordinary).
    unfold Js.clamp0. destruct (s0 =? key)%string; lia.
  - unfold nonNegative. rewrite List.Forall_app. intros Hnn. split; [assumption |].
    constructor; [| constructor]. unfold s, Js.clamp0. simpl. lia.
Qed.

Lemma find_first {A : Type} (p : A -> bool) (l1 : list A) (x : A) (l2 : list A) :
  (forall y, In y l1 -> p y = false) -> p x = true ->
  List.find p (l1 ++ x :: l2) = Some x.
Proof.
  intros Hl1 Hx. induction l1 as [|a l1 IH]; simpl.
  - now rewrite Hx.
  - rewrite (Hl1 a (or_introl eq_refl)). apply IH. intros y Hy. apply Hl1. now right.
Qed.

Section Zone.
Variable zone : Z -> TimeUtils.LocalDate.

(** A known session: it is finished in the store, then its duration goes
    to [updateDailyStat] under the local day of its start. *)
Lemma completeSessionInStore_known (now : Z) (sessionId : string)
    (durationMinutes pausedSeconds : Z) store
    (l1 : list SessionRow.t) (x : SessionRow.t) (l2 : list SessionRow.t) :
  sessions store = l1 ++ x :: l2 ->
  (forall r, In r l1 -> (SessionRow.id r =? sessionId)%string = false) ->
  (SessionRow.id x =? sessionId)%string = true ->
  let row := finish now durationMinutes pausedSeconds x in
  let finished := mkSchema (subjectTotals store) (dailyStats store) (l1 ++ row :: l2) in
  completeSessionInStore zone now sessionId durationMinutes pausedSeconds store
  = bind (updateDailyStat
            (TimeUtils.localDateString (zone (SessionRow.startTime x)))
            (SessionRow.subjectName x)
            (Increments.mk (Some (Js.clamp0 durationMinutes)) (Some 0) (Some 0)))
         (fun _ => ret row) finished.
Proof.
  intros Harr Hl1 Hx row finished.
  unfold completeSessionInStore, getSessions, setSessions.
  unfold bind at 1. unfold gets. rewrite Harr, (findIndex_first _ l1 x l2 Hl1 Hx).
  unfold bind at 1. unfold modify. rewrite updateAt_middle, nth_middle_eq.
  reflexivity.
Qed.

(** What a call that returns does to the rows and the totals. *)
Lemma perform_effect (call : Call) store :
  isThrown (snd (perform zone call store)) = false ->
  let store' := fst (perform zone call store) in
  (nonNegative (dailyStats store) -> nonNegative (dailyStats store')) /\
  (nonNegative (dailyStats store) ->
   forall d s,
     timeInSubjectOf d s (dailyStats store')
     = timeInSubjectOf d s (dailyStats store) + credited zone store call d s) /\
  (inSyncOrdinary store -> inSyncOrdinary store').
Proof.
  intros Hret store'. subst store'.
  remember (perform zone call store) as result eqn:Hresult.
  destruct call as [date subject increments | stat | id now subjectName subjectId
                   | now sessionId durationMinutes pausedSeconds];
    cbn [perform credited] in *; unfold bind in Hresult.
  - (* updateDailyStat *)
    destruct (Js.truthy date) eqn:Hdate;
      [| rewrite updateDailyStat_blank in Hresult by (now left);
         subst result; discriminate Hret].
    destruct (Js.truthy (keyOf subject)) eqn:Hkey;
      [| rewrite updateDailyStat_blank in Hresult by (now right);
         subst result; discriminate Hret].
    destruct (updateDailyStat_effect date subject increments store Hdate Hkey)
      as (store' & row & added & Hrun & _ & Hadds & Hadded).
    rewrite Hrun in Hresult. subst result. cbn [fst snd ret].
    repeat split.
    + apply Hadds.
    + intros Hnn d s. destruct Hadds as (Hrows & _). rewrite Hrows, (Hadded Hnn). reflexivity.
    + now apply (addsUnder_keeps_sync_ordinary _ _ _ _ _ Hadds).
  - (* addDailyStat *)
    destruct (Js.truthy (keyOf (DailyStat.subject stat))) eqn:Hkey;
      [| rewrite addDailyStat_shape in Hresult; cbv zeta in Hresult;
         rewrite Hkey in Hresult; subst result; discriminate Hret].
    destruct (addDailyStat_effect stat store Hkey) as (store' & row & Hrun & _ & Hadds).
    rewrite Hrun in Hresult. subst result. cbn [fst snd ret].
    repeat split.
    + apply Hadds.
    + intros _ d s. destruct Hadds as (Hrows & _). now rewrite Hrows.
    + now apply (addsUnder_keeps_sync_ordinary _ _ _ _ _ Hadds).
  - (* startSessionInStore *)
    unfold startSessionInStore, getSessions, setSessions in Hresult. run_eff.
    subst result. cbn [fst dailyStats].
    repeat split; auto. intros _ d s. lia.
  - (* completeSessionInStore *)
    destruct (Js.findIndex (fun r => (SessionRow.id r =? sessionId)%string) (sessions store))
      as [idx|] eqn:Hfind.
    + apply findIndex_Some in Hfind as (l1 & x & l2 & Harr & _ & Hx & Hl1).
      rewrite (completeSessionInStore_known now sessionId durationMinutes pausedSeconds
                 store l1 x l2 Harr Hl1 Hx) in Hresult.
      cbv zeta in Hresult. unfold bind in Hresult.
      rewrite Harr, (find_first _ l1 x l2 Hl1 Hx).
      set (finished := mkSchema (subjectTotals store) (dailyStats store) _) in Hresult.
      set (date := TimeUtils.localDateString (zone (SessionRow.startTime x))) in *.
      destruct (Js.truthy date) eqn:Hdate;
        [| rewrite updateDailyStat_blank in Hresult by (now left);
           subst result; discriminate Hret].
      destruct (Js.truthy (keyOf (SessionRow.subjectName x))) eqn:Hkey;
        [| rewrite updateDailyStat_blank in Hresult by (now right);
           subst result; discriminate Hret].
      destruct (updateDailyStat_effect date (SessionRow.subjectName x)
                  (Increments.mk (Some (Js.clamp0 durationMinutes)) (Some 0) (Some 0))
                  finished Hdate Hkey)
        as (store' & row & added & Hrun & _ & Hadds & Hadded).
      rewrite Hrun in Hresult. subst result. cbn [fst snd ret].
      assert (Js.clamp0 (Js.clamp0 durationMinutes) = Js.clamp0 durationMinutes) as Hclamp
        by (unfold Js.clamp0; lia).
      repeat split.
      * apply Hadds.
      * intros Hnn d s. destruct Hadds as (Hrows & _).
        rewrite Hrows, (Hadded Hnn). cbn [Increments.timeInSubject Js.orZero].
        now rewrite Hclamp.
      * intros Hsync. apply (addsUnder_keeps_sync_ordinary _ _ _ _ _ Hadds). exact Hsync.
    + unfold completeSessionInStore, getSessions, gets, bind in Hresult.
      rewrite Hfind in Hresult. subst result. discriminate Hret.
Qed.

(** Through every sequence of calls that all return, the rows hold under
    each key what the ledger says, and the subject totals stay in step with
    the rows for every subject whose name is not one every object
    inherits. *)
Lemma run_follows_ledger (calls : list Call) store :
  allReturn zone calls store = true ->
  nonNegative (dailyStats store) ->
  inSyncOrdinary store ->
  let final := run zone calls store in
  (forall d s,
     timeInSubjectOf d s (dailyStats final)
     = timeInSubjectOf d s (dailyStats store) + ledger zone calls store d s) /\
  inSyncOrdinary final /\
  nonNegative (dailyStats final).
Proof.
  revert store. induction calls as [|call rest IH]; intros store Hall Hnn Hsync; simpl.
  - repeat split; auto. intros d s. lia.
  - simpl in Hall. apply andb_true_iff in Hall as [Hcall Hrest].
    apply negb_true_iff in Hcall.
    destruct (perform_effect call store Hcall) as (Hnn' & Hrows & Hsync').
    destruct (IH _ Hrest (Hnn' Hnn) (Hsync' Hsync)) as (IHrows & IHsync & IHnn).
    repeat split; auto.
    intros d s. rewrite IHrows, (Hrows Hnn). lia.
Qed.

End Zone.

End DailyStats.

Section DailyStatClaim.
Import Store StatSpec.

Lemma defaults_inSync : inSync defaults.
Proof. intros subject. reflexivity. Qed.

(** From the empty store, through calls that all return: under every
    (date, subject) the rows hold the sum of the completed-session durations
    and of the increments passed for that key, each clamped at zero, and the
    total of every subject whose name is not one every object inherits is
    the sum of [timeInSubject] over the rows of the subject. *)
Lemma dailyStats_invariant_from_defaults
    (zone : Z -> TimeUtils.LocalDate) (calls : list Call) :
  allReturn zone calls defaults = true ->
  let final := run zone calls defaults in
  (forall date subject,
     timeInSubjectOf date subject (dailyStats final) = ledger zone calls defaults date subject) /\
  (forall subject,
     Js.inherited subject = false ->
     totalOf subject (subjectTotals final) = timeOfSubject subject (dailyStats final)).
Proof.
  intros Hall final.
  destruct (run_follows_ledger zone calls defaults Hall (List.Forall_nil _)
              (inSync_ordinary _ defaults_inSync))
    as (Hrows & Hsync & _).
  split; [| exact Hsync].
  intros date subject. rewrite Hrows. reflexivity.
Qed.

Example dailyStats_invariant_run :
  let calls :=
    [StartSession "s_1" 1000 " Math" None;
     UpdateDailyStat "2025-01-01" "math" (Increments.mk (Some 10) None None);
     CompleteSession 2000 "s_1" 25 0;
     AddDailyStat (DailyStat.mk "2025-01-01" "Math " 5 0 0);
     UpdateDailyStat "2025-01-01" "MATH" (Increments.mk (Some (-7)) (Some 3) None)] in
  allReturn sampleZone calls defaults = true /\
  dailyStats (run sampleZone calls defaults)
  = [DailyStat.mk "2025-01-01" "math" 35 3 0; DailyStat.mk "2025-01-01" "math" 5 0 0] /\
  totalOf "math" (subjectTotals (run sampleZone calls defaults)) = 40 /\
  ledger sampleZone calls defaults "2025-01-01" "math" = 40.
Proof. repeat split; vm_compute; reflexivity. Qed.

(** A subject named "constructor" gets its minutes in the rows and no
    subject total: the totals object inherits a value under that name, so
    [incrementSubjectTotal] creates no entry for it, and no call throws. *)
Example inherited_name_gets_no_total :
  let calls := [AddDailyStat (DailyStat.mk "2025-01-01" "Constructor" 5 0 0)] in
  allReturn sampleZone calls defaults = true /\
  run sampleZone calls defaults
  = mkSchema ∅ [DailyStat.mk "2025-01-01" "constructor" 5 0 0] [] /\
  timeOfSubject "constructor" (dailyStats (run sampleZone calls defaults)) = 5 /\
  totalOf "constructor" (subjectTotals (run sampleZone calls defaults)) = 0.
Proof. repeat split; reflexivity. Qed.

(** C5: the code at the input where it departs from the claim.
    [addDailyStat] with a blank subject appends the row, stores it, and only
    then fails in [incrementSubjectTotal]: the store is left with five
    minutes in the rows of subject [""] and no subject total for it. *)
Theorem addDailyStat_blank_subject_breaks_sync :
  let stat := DailyStat.mk "2025-01-01" "  " 5 0 0 in
  let result := addDailyStat stat defaults in
  result = (mkSchema ∅ [DailyStat.mk "2025-01-01" "" 5 0 0] [],
            Thrown "Invalid subject name") /\
  inSync defaults /\
  timeOfSubject "" (dailyStats (fst result)) = 5 /\
  totalOf "" (subjectTotals (fst result)) = 0 /\
  ~ inSync (fst result).
Proof.
  cbv zeta. rewrite addDailyStat_shape. cbv zeta.
  change (Js.truthy (keyOf (DailyStat.subject (DailyStat.mk "2025-01-01" "  " 5 0 0))))
    with false. cbv iota.
  split; [reflexivity |].
  split; [exact defaults_inSync |].
  split; [reflexivity |].
  split; [reflexivity |].
  intros Hsync. specialize (Hsync ""). discriminate Hsync.
Qed.

(** The same slip on the session path: a session whose subject name is
    blank is stored as completed with its duration, and the daily stats
    get nothing, because [updateDailyStat] rejects the blank subject after
    the session was written. *)
Lemma completeSession_blank_subject_skips_daily_stat :
  let started := fst (startSessionInStore "s_1" 1000 "  " None defaults) in
  completeSessionInStore sampleZone 2000 "s_1" 25 0 started
  = (mkSchema ∅ [] [SessionRow.mk "s_1" None "" 1000 (Some 2000) (Some 25) (Some 0)],
     Thrown "date and subject are required for updateDailyStat").
Proof. reflexivity. Qed.

End DailyStatClaim.

(* ================================================================== *)
(** * Further properties of the code *)
(* ================================================================== *)

(* ------------------------------------------------------------------ *)
(** ** Sets and maps of the language *)
(* ------------------------------------------------------------------ *)

Section SetsAndMaps.

Lemma existsb_of_map {A B : Type} (f : A -> B) (p : B -> bool) (l : list A) :
  existsb p (map f l) = existsb (fun x => p (f x)) l.
Proof. induction l as [|a l IH]; simpl; [reflexivity | now rewrite IH]. Qed.

Lemma includes_In (x : string) (l : list string) :
  Js.includes x l = true <-> In x l.
Proof.
  unfold Js.includes. rewrite existsb_exists. split.
  - intros (y & Hy & Heq). apply String.eqb_eq in Heq. now subst.
  - intros Hin. exists x. split; [assumption | apply String.eqb_refl].
Qed.

Lemma includes_not_In (x : string) (l : list string) :
  Js.includes x l = false <-> ~ In x l.
Proof.
  rewrite <- includes_In. destruct (Js.includes x l); split; congruence.
Qed.

Lemma setAdd_In (x y : string) (s : list string) :
  In y (Js.setAdd x s) <-> y = x \/ In y s.
Proof.
  induction s as [|z s IH]; simpl.
  - split; [intros [<- | []]; now left | intros [-> | []]; now left].
  - destruct (String.eqb_spec z x) as [-> | Hne]; simpl.
    + split; [auto | intros [-> | H]; auto].
    + rewrite IH. tauto.
Qed.

Lemma setAdd_NoDup (x : string) (s : list string) :
  List.NoDup s -> List.NoDup (Js.setAdd x s).
Proof.
  induction s as [|z s IH]; simpl; intros Hnd.
  - repeat constructor. intros [].
  - inversion Hnd as [|? ? Hz Hrest]; subst.
    destruct (String.eqb_spec z x) as [-> | Hne]; [assumption |].
    constructor; [| now apply IH].
    rewrite setAdd_In. intros [-> | Hin]; [now apply Hne | now apply Hz].
Qed.

Lemma fold_setAdd (xs s : list string) :
  let result := fold_left (fun s x => Js.setAdd x s) xs s in
  (List.NoDup s -> List.NoDup result) /\
  (forall y, In y result <-> In y s \/ In y xs).
Proof.
  revert s. induction xs as [|x xs IH]; intros s; simpl.
  - split; [auto | intros y; tauto].
  - destruct (IH (Js.setAdd x s)) as [Hnd Hin]. split.
    + intros Hs. apply Hnd. now apply setAdd_NoDup.
    + intros y. rewrite Hin, setAdd_In. split; intros; intuition (subst; auto).
Qed.

(** [new Set(xs)] holds each member of [xs] once. *)
Lemma setOf_NoDup (xs : list string) : List.NoDup (Js.setOf xs).
Proof. apply (fold_setAdd xs []). constructor. Qed.

Lemma setOf_In (xs : list string) (y : string) : In y (Js.setOf xs) <-> In y xs.
Proof.
  unfold Js.setOf. destruct (fold_setAdd xs []) as [_ Hin].
  rewrite Hin. simpl. tauto.
Qed.

End SetsAndMaps.

(* ------------------------------------------------------------------ *)
(** ** The timer table: hiding and unhiding a subject *)
(* ------------------------------------------------------------------ *)

Section HiddenSubjects.
Import TimerDatabase TimerSpec.
Implicit Types (clock : Clock) (tables : Tables).

Lemma hideSubject_effect clock subject tables :
  hideSubject clock subject tables =
  if Js.includes (normalizeSubject subject) (hiddenNames tables)
  then (tables, Returned false)
  else (mkTables (timer_data tables)
                 (hidden_subjects tables
                  ++ [HiddenSubject.mk (getNextId (hidden_subjects tables))
                                       (normalizeSubject subject) (isoNow clock)]),
        Returned true).
Proof.
  unfold hideSubject, readHiddenSubjects, writeHiddenSubjects, hiddenNames, Js.includes.
  run_eff. rewrite existsb_of_map.
  destruct (existsb _ (hidden_subjects tables)); reflexivity.
Qed.

Lemma unhideSubject_effect subject tables :
  unhideSubject subject tables =
  (mkTables (timer_data tables)
            (List.filter (fun hs => keepsOther (normalizeSubject subject)
                                               (HiddenSubject.subject hs))
                         (hidden_subjects tables)),
   Returned (Js.includes (normalizeSubject subject) (hiddenNames tables))).
Proof.
  unfold unhideSubject, readHiddenSubjects, writeHiddenSubjects, hiddenNames. run_eff.
  set (key := normalizeSubject subject).
  change (fun hs => negb (HiddenSubject.subject hs =? key)%string)
    with (fun hs => keepsOther key (HiddenSubject.subject hs)).
  destruct tables as [timer hidden]. simpl.
  destruct (Nat.eqb_spec
              (length (List.filter (fun hs => keepsOther key (HiddenSubject.subject hs)) hidden))
              (length hidden)) as [Hlen | Hlen]; simpl.
  - apply filter_same_length in Hlen. rewrite Hlen. f_equal. f_equal. symmetry.
    apply includes_not_In. intros Hin. apply in_map_iff in Hin as (hs & Hname & Hin).
    rewrite <- Hlen in Hin. apply filter_In in Hin as [_ Hkeep].
    unfold keepsOther in Hkeep. rewrite Hname, String.eqb_refl in Hkeep. discriminate.
  - f_equal. f_equal. symmetry. apply includes_In.
    destruct (in_dec string_dec key (map HiddenSubject.subject hidden)) as [Hin | Hout];
      [assumption |].
    exfalso. apply Hlen. f_equal. apply forallb_filter_id, forallb_forall.
    intros hs Hhs. unfold keepsOther. apply negb_true_iff, String.eqb_neq.
    intros Heq. apply Hout. rewrite <- Heq. now apply in_map.
Qed.

(** X1.  Hiding a subject puts its normalised name among the hidden ones and
    leaves the timer entries alone; hiding it again, under any spelling with
    the same normalised name, returns [false] and changes nothing. *)
Theorem hideSubject_is_idempotent clock clock' (subject subject' : string) tables :
  normalizeSubject subject' = normalizeSubject subject ->
  let after := fst (hideSubject clock subject tables) in
  In (normalizeSubject subject) (hiddenNames after) /\
  timer_data after = timer_data tables /\
  hideSubject clock' subject' after = (after, Returned false).
Proof.
  intros Hsame after.
  assert (In (normalizeSubject subject) (hiddenNames after) /\
          timer_data after = timer_data tables) as [Hin Htimer].
  { subst after. rewrite hideSubject_effect.
    destruct (Js.includes (normalizeSubject subject) (hiddenNames tables)) eqn:Hhidden; simpl.
    - split; [now apply includes_In | reflexivity].
    - split; [| reflexivity]. unfold hiddenNames. simpl. rewrite map_app.
      apply in_or_app. right. now left. }
  repeat split; try assumption.
  rewrite hideSubject_effect, Hsame.
  apply includes_In in Hin. now rewrite Hin.
Qed.

Lemma hideSubject_is_idempotent_witness :
  let tables := mkTables [TimerData.mk 1 "math" "2025-01-01" 30 ""] [] in
  let after := fst (hideSubject sampleClock " Math" tables) in
  In "math" (hiddenNames after) /\
  timer_data after = timer_data tables /\
  hideSubject sampleClock "MATH " after = (after, Returned false).
Proof.
  intros tables.
  exact (hideSubject_is_idempotent sampleClock sampleClock " Math" "MATH " tables eq_refl).
Defined.

(** [unhideSubject] says whether the normalised name was hidden, takes
    out every hidden row of that name and no other, and leaves the timer
    entries alone. *)
Lemma unhideSubject_removes_the_name (subject : string) tables :
  let key := normalizeSubject subject in
  let result := unhideSubject subject tables in
  snd result = Returned (Js.includes key (hiddenNames tables)) /\
  hiddenNames (fst result)
  = List.filter (fun name => negb (name =? key)%string) (hiddenNames tables) /\
  ~ In key (hiddenNames (fst result)) /\
  timer_data (fst result) = timer_data tables.
Proof.
  intros key result. subst result. rewrite unhideSubject_effect. fold key.
  cbn [fst snd]. unfold hiddenNames. cbn [hidden_subjects timer_data].
  assert (map HiddenSubject.subject
            (List.filter (fun hs => keepsOther key (HiddenSubject.subject hs))
                         (hidden_subjects tables))
          = List.filter (fun name => negb (name =? key)%string)
                        (map HiddenSubject.subject (hidden_subjects tables))) as Hnames.
  { induction (hidden_subjects tables) as [|hs l IH]; simpl; [reflexivity |].
    unfold keepsOther at 1. destruct (negb (HiddenSubject.subject hs =? key)%string);
      simpl; now rewrite IH. }
  repeat split; [exact Hnames |].
  rewrite Hnames. intros Hin. apply filter_In in Hin as [_ Hkeep].
  rewrite String.eqb_refl in Hkeep. discriminate.
Qed.

(** X2.  Hiding a subject that was not hidden and unhiding it again, under any
    spelling with the same normalised name, gives back the tables as they
    were. *)
Theorem hide_then_unhide_restores clock (subject subject' : string) tables :
  normalizeSubject subject' = normalizeSubject subject ->
  Js.includes (normalizeSubject subject) (hiddenNames tables) = false ->
  (hideSubject clock subject ;; unhideSubject subject')%eff tables
  = (tables, Returned true).
Proof.
  intros Hsame Hfresh. unfold bind.
  rewrite hideSubject_effect, Hfresh, unhideSubject_effect, Hsame.
  set (key := normalizeSubject subject) in *.
  unfold hiddenNames in *. cbn [timer_data hidden_subjects].
  rewrite List.filter_app, map_app. simpl.
  unfold keepsOther at 2. cbn [HiddenSubject.subject]. rewrite String.eqb_refl. simpl.
  rewrite app_nil_r.
  assert (List.filter (fun hs => keepsOther key (HiddenSubject.subject hs))
                      (hidden_subjects tables) = hidden_subjects tables) as ->.
  { apply forallb_filter_id, forallb_forall. intros hs Hhs. unfold keepsOther.
    apply negb_true_iff, String.eqb_neq. intros Heq.
    apply includes_not_In in Hfresh. apply Hfresh. rewrite <- Heq. now apply in_map. }
  destruct tables as [timer hidden]. simpl. f_equal. f_equal.
  apply includes_In. apply in_or_app. right. now left.
Qed.

Lemma hide_then_unhide_restores_witness :
  let tables :=
    mkTables [TimerData.mk 1 "math" "2025-01-01" 30 ""]
             [HiddenSubject.mk 4 "art" "2025-01-01T08:00:00.000Z"] in
  (hideSubject sampleClock "Math" ;; unhideSubject " math")%eff tables
  = (tables, Returned true).
Proof.
  intros tables.
  exact (hide_then_unhide_restores sampleClock "Math" " math" tables eq_refl eq_refl).
Defined.

End HiddenSubjects.

(* ------------------------------------------------------------------ *)
(** ** The timer table: which subjects are listed *)
(* ------------------------------------------------------------------ *)

Section ListedSubjects.
Import TimerDatabase TimerSpec.
Implicit Types (clock : Clock) (tables : Tables).

Lemma getAllSubjects_effect tables :
  getAllSubjects tables =
  (tables,
   Returned (List.filter (fun subject => negb (Js.includes subject (hiddenNames tables)))
                         (Js.setOf (map TimerData.subject (timer_data tables))))).
Proof. reflexivity. Qed.

Lemma checkIfSubjectExists_effect subject tables :
  checkIfSubjectExists subject tables =
  (tables,
   Returned (existsb (fun entry => (normalizeSubject (TimerData.subject entry)
                                    =? normalizeSubject subject)%string)
                     (timer_data tables))).
Proof. reflexivity. Qed.

(** X3.  [getAllSubjects] lists each stored subject that is not hidden, once,
    and nothing else; it changes no table. *)
Theorem getAllSubjects_lists_visible_subjects tables :
  exists subjects,
    getAllSubjects tables = (tables, Returned subjects) /\
    List.NoDup subjects /\
    forall s, In s subjects <->
              In s (map TimerData.subject (timer_data tables)) /\ ~ In s (hiddenNames tables).
Proof.
  eexists. split; [apply getAllSubjects_effect |]. split.
  - apply List.NoDup_filter, setOf_NoDup.
  - intros s. rewrite filter_In, setOf_In, negb_true_iff, includes_not_In. tauto.
Qed.

(** X4.  Hiding a subject only takes it off the list of subjects: the range
    totals are computed from the same entries as before. *)
Theorem hideSubject_keeps_statistics clock (subject : string) tables
    (startDate endDate : option string) :
  let after := fst (hideSubject clock subject tables) in
  (exists subjects,
     getAllSubjects after = (after, Returned subjects) /\
     ~ In (normalizeSubject subject) subjects) /\
  snd (getSubjectTotalsByDateRange startDate endDate after)
  = snd (getSubjectTotalsByDateRange startDate endDate tables) /\
  snd (getAllTimerData after) = snd (getAllTimerData tables).
Proof.
  intros after.
  assert (timer_data after = timer_data tables /\
          In (normalizeSubject subject) (hiddenNames after)) as [Htimer Hhidden].
  { subst after. rewrite hideSubject_effect.
    destruct (Js.includes (normalizeSubject subject) (hiddenNames tables)) eqn:Hin; simpl.
    - split; [reflexivity | now apply includes_In].
    - split; [reflexivity |]. unfold hiddenNames. simpl. rewrite map_app.
      apply in_or_app. right. now left. }
  split; [| split].
  - eexists. split; [apply getAllSubjects_effect |].
    rewrite filter_In, negb_true_iff, includes_not_In. tauto.
  - unfold getSubjectTotalsByDateRange, bind. rewrite !selectData_reads.
    cbv beta iota zeta. unfold ret. cbn [snd].
    unfold selected. now rewrite Htimer.
  - unfold getAllTimerData, readTimerData, gets. cbn [snd]. now rewrite Htimer.
Qed.

(** Once minutes were added for a subject, [checkIfSubjectExists] finds it
    under every spelling with the same normalised name. *)
Lemma checkIfSubjectExists_after_add clock (subject subject' : string)
    (date : option string) (minutes : option Z) tables :
  normalizeSubject subject' = normalizeSubject subject ->
  let after := fst (addOrUpdateTimerData clock subject date minutes tables) in
  checkIfSubjectExists subject' after = (after, Returned true).
Proof.
  intros Hsame after. rewrite checkIfSubjectExists_effect. f_equal. f_equal.
  destruct (addOrUpdateTimerData_effect clock subject date minutes tables)
    as ((entry & _ & Hin & Hkey) & _).
  apply existsb_exists. exists entry. split; [exact Hin |].
  unfold keyOfEntry in Hkey. injection Hkey as Hsubject _.
  rewrite Hsame, Hsubject. apply String.eqb_refl.
Qed.

Lemma checkIfSubjectExists_after_add_witness :
  let after := fst (addOrUpdateTimerData sampleClock " Math" None None (mkTables [] [])) in
  checkIfSubjectExists "MATH" after = (after, Returned true).
Proof.
  exact (checkIfSubjectExists_after_add sampleClock " Math" "MATH" None None
           (mkTables [] []) eq_refl).
Defined.

Lemma getNextId_same {T : Type} `{HasId T} (data : list T) :
  TimerDatabase.getNextId data = CsvDatabase.getNextId data.
Proof. reflexivity. Qed.

Lemma NoDup_snoc {A : Type} (l : list A) (x : A) :
  List.NoDup l -> ~ In x l -> List.NoDup (l ++ [x]).
Proof.
  intros Hnd Hx. eapply Permutation_NoDup; [apply Permutation_cons_append |].
  now constructor.
Qed.

(** X5.  The upsert keeps the stored subjects in normalised form and the ids
    of the entries pairwise distinct. *)
Theorem addOrUpdateTimerData_keeps_table_wellformed clock (subject : string)
    (date : option string) (minutes : option Z) tables :
  normalised (timer_data tables) ->
  List.NoDup (map TimerData.id (timer_data tables)) ->
  let after := fst (addOrUpdateTimerData clock subject date minutes tables) in
  normalised (timer_data after) /\ List.NoDup (map TimerData.id (timer_data after)).
Proof.
  intros Hnorm Hids after. subst after.
  set (key := normalizeSubject subject).
  set (day := Js.orElse date (getCurrentLocalDate clock)).
  destruct (Js.findIndex (isEntryFor key day) (timer_data tables)) as [i|] eqn:Hfind.
  - apply findIndex_Some in Hfind as (l1 & x & l2 & Hdata & _ & Hx & Hl1).
    rewrite (addOrUpdateTimerData_updates clock subject date minutes tables l1 x l2 Hdata Hl1 Hx).
    cbn zeta. cbn [fst timer_data]. rewrite Hdata in Hnorm, Hids. split.
    + unfold normalised in *. apply List.Forall_app in Hnorm as [H1 H2].
      apply List.Forall_app. split; [assumption |].
      inversion H2; subst. constructor; assumption.
    + rewrite map_app in *. exact Hids.
  - pose proof (proj1 (findIndex_None _ _) Hfind) as Hnone.
    rewrite (addOrUpdateTimerData_creates clock subject date minutes tables Hnone).
    cbn zeta. cbn [fst timer_data]. split.
    + unfold normalised in *. apply List.Forall_app. split; [assumption |].
      constructor; [| constructor]. apply normalizeSubject_idem.
    + rewrite map_app. simpl. apply NoDup_snoc; [assumption |].
      intros Hin. apply in_map_iff in Hin as (e & Heq & Hin).
      pose proof (getNextId_above (timer_data tables) e Hin) as Hlt.
      rewrite <- getNextId_same in Hlt.
      change (TimerData.id e < getNextId (timer_data tables)) in Hlt. lia.
Qed.

Lemma addOrUpdateTimerData_keeps_table_wellformed_witness :
  let tables := mkTables [TimerData.mk 3 "math" "2025-01-01" 30 "";
                          TimerData.mk 1 "art" "2025-01-01" 10 ""] [] in
  let after := fst (addOrUpdateTimerData sampleClock " Physics " None (Some 5) tables) in
  normalised (timer_data after) /\ List.NoDup (map TimerData.id (timer_data after)).
Proof.
  intros tables.
  apply (addOrUpdateTimerData_keeps_table_wellformed sampleClock " Physics " None (Some 5) tables).
  - repeat constructor.
  - repeat constructor; simpl; intuition discriminate.
Defined.

(** X6.  On a table whose subjects are in normalised form, deleting a subject
    completely leaves it neither found by [checkIfSubjectExists] nor listed
    by [getAllSubjects], under any spelling with the same normalised name. *)
Theorem deleteSubjectCompletely_then_absent (subject subject' : string) tables :
  normalised (timer_data tables) ->
  normalizeSubject subject' = normalizeSubject subject ->
  let after := fst (deleteSubjectCompletely subject tables) in
  checkIfSubjectExists subject' after = (after, Returned false) /\
  exists subjects,
    getAllSubjects after = (after, Returned subjects) /\
    ~ In (normalizeSubject subject) subjects.
Proof.
  intros Hnorm Hsame after.
  destruct (deleteSubjectCompletely_removes_all subject tables) as [Hgone _].
  fold after in Hgone.
  assert (forall e, In e (timer_data after) -> In e (timer_data tables)) as Hsub.
  { subst after. rewrite deleteSubjectCompletely_effect. cbn zeta. cbn [fst timer_data].
    intros e He. apply filter_In in He. tauto. }
  split.
  - rewrite checkIfSubjectExists_effect. f_equal. f_equal.
    apply not_true_iff_false. intros Hex. apply existsb_exists in Hex as (e & He & Heq).
    apply String.eqb_eq in Heq. rewrite Hsame in Heq.
    unfold normalised in Hnorm. rewrite List.Forall_forall in Hnorm.
    rewrite (Hnorm e (Hsub e He)) in Heq. exact (Hgone e He Heq).
  - eexists. split; [apply getAllSubjects_effect |].
    rewrite filter_In, setOf_In. intros [Hin _].
    apply in_map_iff in Hin as (e & Heq & He). exact (Hgone e He Heq).
Qed.

Lemma deleteSubjectCompletely_then_absent_witness :
  let tables := mkTables [TimerData.mk 1 "math" "2025-01-01" 30 "";
                          TimerData.mk 2 "art" "2025-01-01" 10 ""]
                         [HiddenSubject.mk 1 "art" ""] in
  let after := fst (deleteSubjectCompletely "Math " tables) in
  checkIfSubjectExists " MATH" after = (after, Returned false) /\
  exists subjects,
    getAllSubjects after = (after, Returned subjects) /\ ~ In "math" subjects.
Proof.
  intros tables.
  apply (deleteSubjectCompletely_then_absent "Math " " MATH" tables).
  - repeat constructor.
  - reflexivity.
Defined.

End ListedSubjects.

(* ------------------------------------------------------------------ *)
(** ** The timer table: date ranges *)
(* ------------------------------------------------------------------ *)

Section DateRanges.
Import TimerDatabase TimerSpec.
Implicit Types (clock : Clock) (tables : Tables).

Lemma string_compare_refl (s : string) : String.compare s s = Eq.
Proof.
  induction s as [|c s IH]; simpl; [reflexivity |].
  unfold Ascii.compare. now rewrite N.compare_refl.
Qed.

Lemma string_leb_refl (s : string) : String.leb s s = true.
Proof. unfold String.leb. now rewrite string_compare_refl. Qed.

Lemma string_leb_trans (a b c : string) :
  String.leb a b = true -> String.leb b c = true -> String.leb a c = true.
Proof.
  unfold String.leb. revert b c.
  induction a as [|x a IH]; intros [|y b] [|z c]; simpl; try congruence.
  unfold Ascii.compare.
  destruct (N.compare_spec (N_of_ascii x) (N_of_ascii y)) as [Hxy | Hxy | Hxy];
    destruct (N.compare_spec (N_of_ascii y) (N_of_ascii z)) as [Hyz | Hyz | Hyz];
    destruct (N.compare_spec (N_of_ascii x) (N_of_ascii z)) as [Hxz | Hxz | Hxz];
    try congruence; try lia.
  apply IH.
Qed.

Lemma string_ltb_not_leb (a b : string) :
  String.ltb a b = true -> String.leb b a = false.
Proof.
  unfold String.ltb, String.leb. rewrite (String.compare_antisym a b).
  destruct (String.compare b a); simpl; congruence.
Qed.

Lemma string_leb_prefix (p a b : string) :
  String.leb (p ++ a) (p ++ b) = String.leb a b.
Proof.
  unfold String.leb. induction p as [|c p IH]; simpl; [reflexivity |].
  unfold Ascii.compare. now rewrite N.compare_refl.
Qed.

Lemma getTimerDataByDateRange_effect (startDate endDate : string) tables :
  getTimerDataByDateRange startDate endDate tables =
  (tables, Returned (List.filter (inRange startDate endDate) (timer_data tables))).
Proof. reflexivity. Qed.

(** X7.  A range that starts and ends on the same day selects exactly the
    entries of that day. *)
Theorem getTimerDataByDateRange_single_day (day : string) tables :
  getTimerDataByDateRange day day tables = (tables, Returned (onDate day (timer_data tables))).
Proof.
  rewrite getTimerDataByDateRange_effect. f_equal. f_equal. unfold onDate.
  apply filter_ext. intros entry. unfold inRange.
  destruct (String.eqb_spec (TimerData.date entry) day) as [-> | Hne].
  - now rewrite string_leb_refl.
  - apply not_true_iff_false. intros Hboth. apply andb_true_iff in Hboth as [H1 H2].
    apply Hne. now apply String.leb_antisym.
Qed.

(** A range whose end lies before its start selects nothing. *)
Lemma getTimerDataByDateRange_inverted_range (startDate endDate : string) tables :
  String.ltb endDate startDate = true ->
  getTimerDataByDateRange startDate endDate tables = (tables, Returned []).
Proof.
  intros Hinverted. rewrite getTimerDataByDateRange_effect. f_equal. f_equal.
  apply filter_none. intros entry _. unfold inRange.
  apply not_true_iff_false. intros Hboth. apply andb_true_iff in Hboth as [H1 H2].
  pose proof (string_leb_trans _ _ _ H1 H2) as Hle.
  rewrite (string_ltb_not_leb _ _ Hinverted) in Hle. discriminate.
Qed.

Lemma getTimerDataByDateRange_inverted_range_witness :
  getTimerDataByDateRange "2025-02-01" "2025-01-31"
    (mkTables [TimerData.mk 1 "math" "2025-01-31" 30 "";
               TimerData.mk 2 "math" "2025-02-01" 10 ""] [])
  = (mkTables [TimerData.mk 1 "math" "2025-01-31" 30 "";
               TimerData.mk 2 "math" "2025-02-01" 10 ""] [], Returned []).
Proof.
  exact (getTimerDataByDateRange_inverted_range "2025-02-01" "2025-01-31" _ eq_refl).
Defined.

Lemma months_and_days_in_year_range :
  forallb (fun month =>
    forallb (fun day =>
      String.leb "-01-01" ("-" ++ TimeUtils.pad (month + 1) ++ "-" ++ TimeUtils.pad day)
      && String.leb ("-" ++ TimeUtils.pad (month + 1) ++ "-" ++ TimeUtils.pad day) "-12-31")
      (map Z.of_nat (seq 1 31)))
    (map Z.of_nat (seq 0 12)) = true.
Proof. vm_compute. reflexivity. Qed.

(** X8.  The range [getCurrentYearRange] gives selects the entries of every
    calendar day of the current year. *)
Theorem getCurrentYearRange_covers_the_year clock (d : TimeUtils.LocalDate)
    (entry : TimerData.t) :
  TimeUtils.getFullYear d = TimeUtils.getFullYear (today clock) ->
  0 <= TimeUtils.getMonth d <= 11 ->
  1 <= TimeUtils.getDate d <= 31 ->
  TimerData.date entry = TimeUtils.localDateString d ->
  let range := getCurrentYearRange clock in
  inRange (DateRange.startDate range) (DateRange.endDate range) entry = true.
Proof.
  intros Hyear Hmonth Hday Hdate range. subst range.
  unfold inRange, getCurrentYearRange. cbn [DateRange.startDate DateRange.endDate].
  rewrite Hdate. unfold TimeUtils.localDateString. rewrite Hyear.
  rewrite !string_leb_prefix.
  pose proof months_and_days_in_year_range as Hall.
  rewrite forallb_forall in Hall.
  specialize (Hall (TimeUtils.getMonth d)).
  rewrite forallb_forall in Hall.
  apply Hall.
  - apply in_map_iff. exists (Z.to_nat (TimeUtils.getMonth d)).
    split; [lia | apply in_seq; lia].
  - apply in_map_iff. exists (Z.to_nat (TimeUtils.getDate d)).
    split; [lia | apply in_seq; lia].
Qed.

Lemma getCurrentYearRange_covers_the_year_witness :
  let range := getCurrentYearRange sampleClock in
  inRange (DateRange.startDate range) (DateRange.endDate range)
          (TimerData.mk 1 "math" "2025-12-31" 30 "") = true.
Proof.
  apply (getCurrentYearRange_covers_the_year sampleClock (TimeUtils.mkLocalDate 2025 11 31)
           (TimerData.mk 1 "math" "2025-12-31" 30 ""));
    [reflexivity | simpl; lia | simpl; lia | reflexivity].
Defined.

End DateRanges.

(* ------------------------------------------------------------------ *)
(** ** The timer table: totals per day and per subject *)
(* ------------------------------------------------------------------ *)

Section MapsOfTheLanguage.
Context {V : Type}.
Implicit Types (m : list (string * V)) (key : string).

Lemma mapFind_mapPut key key' (value : V) m :
  Js.mapFind key (Js.mapPut key' value m)
  = if (key' =? key)%string then Some value else Js.mapFind key m.
Proof.
  induction m as [|[k v] m IH]; simpl.
  - destruct (key' =? key)%string; reflexivity.
  - destruct (String.eqb_spec k key') as [-> | Hne]; simpl.
    + destruct (key' =? key)%string; reflexivity.
    + rewrite IH. destruct (String.eqb_spec k key) as [-> | Hk]; [| reflexivity].
      destruct (String.eqb_spec key' key) as [-> | _]; [now destruct Hne | reflexivity].
Qed.

Lemma mapPut_keys key (value : V) m x :
  In x (map fst (Js.mapPut key value m)) <-> x = key \/ In x (map fst m).
Proof.
  induction m as [|[k v] m IH]; simpl.
  - intuition.
  - destruct (String.eqb_spec k key) as [-> | Hne]; simpl.
    + intuition.
    + rewrite IH. intuition.
Qed.

Lemma mapPut_NoDup key (value : V) m :
  List.NoDup (map fst m) -> List.NoDup (map fst (Js.mapPut key value m)).
Proof.
  induction m as [|[k v] m IH]; simpl; intros Hnd.
  - repeat constructor. intros [].
  - inversion Hnd as [|? ? Hk Hrest]; subst.
    destruct (String.eqb_spec k key) as [-> | Hne]; simpl.
    + now constructor.
    + constructor; [| now apply IH].
      rewrite mapPut_keys. intros [-> | Hin]; [now apply Hne | now apply Hk].
Qed.

Lemma mapFind_In key (value : V) m :
  Js.mapFind key m = Some value -> In (key, value) m.
Proof.
  induction m as [|[k v] m IH]; simpl; [discriminate |].
  destruct (String.eqb_spec k key) as [-> | Hne].
  - intros [= ->]. now left.
  - intros Hfind. right. now apply IH.
Qed.

Lemma In_mapFind key (value : V) m :
  List.NoDup (map fst m) -> In (key, value) m -> Js.mapFind key m = Some value.
Proof.
  induction m as [|[k v] m IH]; simpl; intros Hnd; [intros [] |].
  inversion Hnd as [|? ? Hk Hrest]; subst.
  intros [[= -> ->] | Hin].
  - now rewrite String.eqb_refl.
  - destruct (String.eqb_spec k key) as [-> | Hne]; [| now apply IH].
    exfalso. apply Hk. now apply (in_map fst) in Hin.
Qed.

Lemma mapPut_total (f : V -> Z) key (value : V) m :
  sumZ (map (fun kv => f (snd kv)) (Js.mapPut key value m))
  = sumZ (map (fun kv => f (snd kv)) m)
    - match Js.mapFind key m with Some old => f old | None => 0 end
    + f value.
Proof.
  induction m as [|[k v] m IH]; simpl; [lia |].
  destruct (String.eqb_spec k key) as [-> | Hne]; simpl; [lia |].
  rewrite IH. lia.
Qed.

End MapsOfTheLanguage.

Section SortedOutput.
Context {A : Type}.
Variables (cmp : A -> A -> Z) (R : A -> A -> Prop).
Hypothesis before : forall a b, cmp a b <= 0 -> R a b.
Hypothesis after : forall a b, 0 < cmp a b -> R b a.
Hypothesis R_trans : forall a b c, R a b -> R b c -> R a c.

Lemma insertBy_Forall (P : A -> Prop) (x : A) (l : list A) :
  P x -> List.Forall P l -> List.Forall P (Js.insertBy cmp x l).
Proof.
  intros Hx Hl. induction Hl as [|y l Hy Hl IH]; simpl.
  - now constructor.
  - destruct (cmp x y <=? 0); repeat constructor; assumption.
Qed.

Lemma insertBy_StronglySorted (x : A) (l : list A) :
  StronglySorted R l -> StronglySorted R (Js.insertBy cmp x l).
Proof.
  induction 1 as [|y l Hsorted IH Hy]; simpl.
  - repeat constructor.
  - destruct (Z.leb_spec (cmp x y) 0) as [Hle | Hgt].
    + constructor; [now constructor |].
      constructor; [now apply before |].
      eapply List.Forall_impl; [| exact Hy]. intros z Hz.
      eapply R_trans; [apply before |]; eassumption.
    + constructor; [assumption |].
      apply insertBy_Forall; [now apply after | assumption].
Qed.

(** With a comparator that orders by [R], the sorted array is in the
    order [R]. *)
Lemma sort_StronglySorted (l : list A) : StronglySorted R (Js.sort cmp l).
Proof.
  induction l as [|x l IH]; simpl; [constructor |].
  now apply insertBy_StronglySorted.
Qed.

End SortedOutput.

Section DayTotals.
Import TimerDatabase TimerSpec.
Implicit Types (tables : Tables) (entry : TimerData.t).

Lemma addToDay_effect (dailyMap : list (string * DayData)) entry :
  addToDay dailyMap entry
  = Js.mapPut (TimerData.date entry)
      (countIn (default emptyDay (Js.mapFind (TimerData.date entry) dailyMap)) entry)
      (if Js.mapHas (TimerData.date entry) dailyMap then dailyMap
       else Js.mapPut (TimerData.date entry) emptyDay dailyMap).
Proof.
  unfold addToDay, Js.mapHas.
  destruct (Js.mapFind (TimerData.date entry) dailyMap) as [dayData|] eqn:Hfind; simpl.
  - now rewrite Hfind.
  - now rewrite mapFind_mapPut, String.eqb_refl.
Qed.

Lemma addToDay_NoDup (dailyMap : list (string * DayData)) entry :
  List.NoDup (map fst dailyMap) -> List.NoDup (map fst (addToDay dailyMap entry)).
Proof.
  intros Hnd. rewrite addToDay_effect. apply mapPut_NoDup.
  destruct (Js.mapHas _ dailyMap); [assumption | now apply mapPut_NoDup].
Qed.

Lemma addToDay_find (dailyMap : list (string * DayData)) entry (date : string) :
  Js.mapFind date (addToDay dailyMap entry)
  = if (TimerData.date entry =? date)%string
    then Some (countIn (default emptyDay (Js.mapFind date dailyMap)) entry)
    else Js.mapFind date dailyMap.
Proof.
  rewrite addToDay_effect, mapFind_mapPut.
  destruct (String.eqb_spec (TimerData.date entry) date) as [<- | Hne]; [reflexivity |].
  destruct (Js.mapHas _ dailyMap); [reflexivity |].
  rewrite mapFind_mapPut. now apply String.eqb_neq in Hne as ->.
Qed.

Lemma addToDay_minutes (dailyMap : list (string * DayData)) entry :
  sumZ (map (fun kv => day_minutes (snd kv)) (addToDay dailyMap entry))
  = sumZ (map (fun kv => day_minutes (snd kv)) dailyMap) + TimerData.total_minutes entry.
Proof.
  rewrite addToDay_effect, mapPut_total. unfold Js.mapHas.
  destruct (Js.mapFind (TimerData.date entry) dailyMap) as [dayData|] eqn:Hfind.
  - rewrite Hfind. simpl. lia.
  - rewrite mapFind_mapPut, String.eqb_refl, mapPut_total, Hfind. simpl. lia.
Qed.

Lemma countIn_all (dayData : DayData) (entries : list TimerData.t) :
  fold_left countIn entries dayData
  = mkDayData (day_minutes dayData + sumZ (map TimerData.total_minutes entries))
              (fold_left (fun s x => Js.setAdd x s) (map TimerData.subject entries)
                         (day_subjects dayData)).
Proof.
  revert dayData. induction entries as [|e entries IH]; intros [minutes subjects]; simpl.
  - f_equal. lia.
  - rewrite IH. simpl. f_equal. lia.
Qed.

(** The map the loop builds: a date is a key when an entry has it, and it
    then holds the entries of that date counted in, in their order. *)
Lemma addToDay_all (data : list TimerData.t) (dailyMap : list (string * DayData))
    (date : string) :
  Js.mapFind date (fold_left addToDay data dailyMap)
  = match onDate date data with
    | [] => Js.mapFind date dailyMap
    | entries =>
        Some (fold_left countIn entries (default emptyDay (Js.mapFind date dailyMap)))
    end.
Proof.
  revert dailyMap. induction data as [|e data IH]; intros dailyMap; [reflexivity |].
  simpl fold_left. rewrite IH, addToDay_find. unfold onDate. simpl List.filter.
  fold (onDate date data).
  destruct (TimerData.date e =? date)%string; simpl.
  - destruct (onDate date data); reflexivity.
  - reflexivity.
Qed.

Lemma fold_addToDay_NoDup (data : list TimerData.t) (dailyMap : list (string * DayData)) :
  List.NoDup (map fst dailyMap) -> List.NoDup (map fst (fold_left addToDay data dailyMap)).
Proof.
  revert dailyMap. induction data as [|e data IH]; intros dailyMap Hnd; [assumption |].
  simpl. apply IH. now apply addToDay_NoDup.
Qed.

Lemma fold_addToDay_minutes (data : list TimerData.t) (dailyMap : list (string * DayData)) :
  sumZ (map (fun kv => day_minutes (snd kv)) (fold_left addToDay data dailyMap))
  = sumZ (map (fun kv => day_minutes (snd kv)) dailyMap)
    + sumZ (map TimerData.total_minutes data).
Proof.
  revert dailyMap. induction data as [|e data IH]; intros dailyMap; simpl; [lia |].
  rewrite IH, addToDay_minutes. lia.
Qed.

Lemma getDailyAggregatedData_effect (localeCompare : string -> string -> Z)
    (startDate endDate : option string) tables :
  getDailyAggregatedData localeCompare startDate endDate tables =
  (tables,
   Returned (Js.sort (fun a b => localeCompare (DayTotal.date b) (DayTotal.date a))
               (map (fun kv => DayTotal.mk (fst kv) (day_minutes (snd kv))
                                           (day_subjects (snd kv)))
                    (fold_left addToDay (selected startDate endDate tables) [])))).
Proof.
  unfold getDailyAggregatedData, bind. now rewrite selectData_reads.
Qed.

(** X9.  [getDailyAggregatedData] gives one row for each date that has an
    entry in the range and for no other date; the row holds the sum of
    the minutes of the entries of that date and their subjects, each once,
    in the order they first occur. *)
Theorem getDailyAggregatedData_one_row_per_day
    (localeCompare : string -> string -> Z)
    (startDate endDate : option string) tables :
  let data := selected startDate endDate tables in
  exists rows,
    getDailyAggregatedData localeCompare startDate endDate tables = (tables, Returned rows) /\
    List.NoDup (map DayTotal.date rows) /\
    (forall row, In row rows ->
       onDate (DayTotal.date row) data <> [] /\
       DayTotal.total_minutes row = dateSum (DayTotal.date row) data /\
       DayTotal.subjects row = subjectsOn (DayTotal.date row) data) /\
    (forall entry, In entry data ->
       exists row, In row rows /\ DayTotal.date row = TimerData.date entry).
Proof.
  intros data. eexists. split; [apply getDailyAggregatedData_effect |].
  fold data. set (dailyMap := fold_left addToDay data []).
  assert (List.NoDup (map fst dailyMap)) as Hkeys
    by (apply fold_addToDay_NoDup; constructor).
  set (toRow := fun kv : string * DayData =>
                  DayTotal.mk (fst kv) (day_minutes (snd kv)) (day_subjects (snd kv))).
  assert (forall row, In row (Js.sort (fun a b => localeCompare (DayTotal.date b) (DayTotal.date a))
                                      (map toRow dailyMap))
                      <-> In row (map toRow dailyMap)) as Hsame.
  { intros row. split; apply Permutation_in;
      [symmetry |]; apply sort_Permutation. }
  split; [| split].
  - eapply Permutation_NoDup; [apply Permutation_map, sort_Permutation |].
    rewrite map_map. exact Hkeys.
  - intros row Hrow. apply Hsame, in_map_iff in Hrow as ([date dayData] & <- & Hin).
    apply (In_mapFind _ _ _ Hkeys) in Hin.
    subst dailyMap. rewrite addToDay_all in Hin. simpl in Hin |- *.
    unfold dateSum, subjectsOn, Js.setOf.
    destruct (onDate date data) as [|e entries] eqn:Hentries; [discriminate |].
    injection Hin as <-. rewrite countIn_all. simpl.
    split; [discriminate |]. split; [lia | reflexivity].
  - intros entry Hentry.
    destruct (Js.mapFind (TimerData.date entry) dailyMap) as [dayData|] eqn:Hfind.
    + exists (toRow (TimerData.date entry, dayData)). split; [| reflexivity].
      apply Hsame, in_map. now apply mapFind_In.
    + exfalso. subst dailyMap. rewrite addToDay_all in Hfind.
      assert (In entry (onDate (TimerData.date entry) data)) as Hin
        by (apply filter_In; split; [assumption | apply String.eqb_refl]).
      destruct (onDate (TimerData.date entry) data); [destruct Hin | discriminate].
Qed.

Lemma mapSet_total (key : string) (value : Z) (m : list (string * Z)) :
  sumZ (map snd (mapSet key value m))
  = sumZ (map snd m) - Js.orZero (mapGet key m) + value.
Proof.
  induction m as [|[k v] m IH]; simpl; [lia |].
  destruct (String.eqb_spec k key) as [-> | Hne]; simpl; [lia |].
  rewrite IH. lia.
Qed.

Lemma fold_accumulate_total (data : list TimerData.t) (m : list (string * Z)) :
  sumZ (map snd (fold_left accumulate data m))
  = sumZ (map snd m) + sumZ (map TimerData.total_minutes data).
Proof.
  revert m. induction data as [|e data IH]; intros m; simpl; [lia |].
  rewrite IH. unfold accumulate. rewrite mapSet_total. lia.
Qed.

Lemma getSubjectTotalsByDateRange_effect (startDate endDate : option string) tables :
  getSubjectTotalsByDateRange startDate endDate tables =
  (tables,
   Returned (Js.sort (fun a b => SubjectTotal.total_minutes b - SubjectTotal.total_minutes a)
               (map (fun kv => SubjectTotal.mk (fst kv) (snd kv))
                    (fold_left accumulate (selected startDate endDate tables) [])))).
Proof.
  unfold getSubjectTotalsByDateRange, bind. now rewrite selectData_reads.
Qed.

(** X10.  Over the same range the per-day totals and the per-subject totals add
    up to the same grand total, the minutes of the entries in the range. *)
Theorem grand_totals_agree (localeCompare : string -> string -> Z)
    (startDate endDate : option string) tables :
  exists days totals,
    getDailyAggregatedData localeCompare startDate endDate tables = (tables, Returned days) /\
    getSubjectTotalsByDateRange startDate endDate tables = (tables, Returned totals) /\
    sumZ (map DayTotal.total_minutes days)
    = sumZ (map TimerData.total_minutes (selected startDate endDate tables)) /\
    sumZ (map SubjectTotal.total_minutes totals)
    = sumZ (map TimerData.total_minutes (selected startDate endDate tables)).
Proof.
  eexists. eexists.
  split; [apply getDailyAggregatedData_effect |].
  split; [apply getSubjectTotalsByDateRange_effect |].
  split.
  - rewrite <- (sumZ_Permutation _ _ (Permutation_map _ (sort_Permutation _ _))).
    rewrite map_map. cbn [DayTotal.total_minutes].
    rewrite fold_addToDay_minutes. simpl. lia.
  - rewrite <- (sumZ_Permutation _ _ (Permutation_map _ (sort_Permutation _ _))).
    rewrite map_map. cbn [SubjectTotal.total_minutes].
    change (fun x : string * Z => snd x) with (@snd string Z).
    rewrite fold_accumulate_total. simpl. lia.
Qed.

Lemma mapSet_keys_iff (key : string) (value : Z) (m : list (string * Z)) (x : string) :
  In x (map fst (mapSet key value m)) <-> x = key \/ In x (map fst m).
Proof.
  induction m as [|[k v] m IH]; simpl.
  - intuition.
  - destruct (String.eqb_spec k key) as [-> | Hne]; simpl.
    + intuition.
    + rewrite IH. intuition.
Qed.

Lemma fold_accumulate_keys (data : list TimerData.t) (m : list (string * Z)) (x : string) :
  In x (map fst (fold_left accumulate data m))
  <-> In x (map fst m) \/ In x (map TimerData.subject data).
Proof.
  revert m. induction data as [|e data IH]; intros m; simpl; [tauto |].
  rewrite IH. unfold accumulate. rewrite mapSet_keys_iff. intuition.
Qed.

(** X11.  [getSubjectTotalsByDateRange] ranks the subjects: the rows come in
    non-increasing order of their totals, and there is one row for each
    subject that has an entry in the range and for no other. *)
Theorem getSubjectTotalsByDateRange_ranks_subjects
    (startDate endDate : option string) tables :
  exists rows,
    getSubjectTotalsByDateRange startDate endDate tables = (tables, Returned rows) /\
    ranked rows /\
    List.NoDup (map SubjectTotal.subject rows) /\
    forall s, In s (map SubjectTotal.subject rows)
              <-> In s (map TimerData.subject (selected startDate endDate tables)).
Proof.
  eexists. split; [apply getSubjectTotalsByDateRange_effect |].
  set (data := selected startDate endDate tables).
  set (m := fold_left accumulate data []).
  split; [| split].
  - apply sort_StronglySorted; intros; lia.
  - eapply Permutation_NoDup; [apply Permutation_map, sort_Permutation |].
    rewrite map_map. simpl. apply (accumulate_all "" data []). constructor.
  - intros s.
    transitivity (In s (map SubjectTotal.subject
                            (map (fun kv => SubjectTotal.mk (fst kv) (snd kv)) m))).
    + split; apply Permutation_in; [symmetry |]; apply Permutation_map, sort_Permutation.
    + rewrite map_map. simpl. subst m. rewrite fold_accumulate_keys. simpl. tauto.
Qed.

End DayTotals.

(* ------------------------------------------------------------------ *)
(** ** The CSV tables: queries *)
(* ------------------------------------------------------------------ *)

Section StableSort.
Context {A : Type}.
Variables (cmp : A -> A -> Z) (p : A -> bool).
Hypothesis alike : forall x y, p x = true -> p y = true -> cmp x y <= 0.

Lemma insertBy_filter (x : A) (l : list A) :
  List.filter p (Js.insertBy cmp x l) = List.filter p (x :: l).
Proof.
  induction l as [|y l IH]; [reflexivity |].
  simpl Js.insertBy. destruct (Z.leb_spec (cmp x y) 0) as [Hle | Hgt]; [reflexivity |].
  simpl List.filter in *. rewrite IH.
  destruct (p x) eqn:Hx, (p y) eqn:Hy; try reflexivity.
  specialize (alike x y Hx Hy). lia.
Qed.

(** Elements the comparator does not tell apart keep their order. *)
Lemma sort_filter (l : list A) : List.filter p (Js.sort cmp l) = List.filter p l.
Proof.
  induction l as [|x l IH]; [reflexivity |].
  simpl Js.sort. rewrite insertBy_filter. simpl. now rewrite IH.
Qed.

End StableSort.

Section TodoQueries.
Import CsvDatabase.
Variable coercion : Value.Coercion.
Implicit Types (db : Csv).

(** The comparator [query] builds from the clause "starred DESC, id". *)
Lemma compareBy_starred_clause (a b : Todo.t) :
  let parts := Js.split " "%char "starred DESC, id" in
  Crud.compareBy coercion
    (match parts with f :: _ => f | [] => "" end)
    (match parts with _ :: d :: _ => d | _ => "ASC" end) a b
  = if Todo.starred a <? Todo.starred b then -1
    else if Todo.starred b <? Todo.starred a then 1 else 0.
Proof. reflexivity. Qed.

Lemma select_starred_clause (where_ : list (string * Value.t)) (data : list Todo.t) :
  Crud.select coercion where_ (Crud.mkOptions (Some "starred DESC, id") None) data
  = Js.sort (fun a b => if Todo.starred a <? Todo.starred b then -1
                        else if Todo.starred b <? Todo.starred a then 1 else 0)
            (match where_ with
             | [] => data
             | _ => List.filter (Crud.matches coercion where_) data
             end).
Proof. reflexivity. Qed.

Lemma query_todos (where_ : list (string * Value.t)) (options : Crud.Options) db :
  Crud.query coercion "todos" where_ options db
  = (db, Returned (Crud.TodoRows (Crud.select coercion where_ options (todos db)))).
Proof. destruct db. reflexivity. Qed.

Lemma query_notes (where_ : list (string * Value.t)) (options : Crud.Options) db :
  Crud.query coercion "notes" where_ options db
  = (db, Returned (Crud.NoteRows (Crud.select coercion where_ options (notes db)))).
Proof. destruct db. reflexivity. Qed.

Lemma query_subjects (where_ : list (string * Value.t)) (options : Crud.Options) db :
  Crud.query coercion "subjects" where_ options db
  = (db, Returned (Crud.SubjectRows (Crud.select coercion where_ options (subjects db)))).
Proof. destruct db. reflexivity. Qed.

Lemma sorted_by_starred (data : list Todo.t) :
  let rows :=
    Js.sort (fun a b => if Todo.starred a <? Todo.starred b then -1
                        else if Todo.starred b <? Todo.starred a then 1 else 0) data in
  Permutation data rows /\
  StronglySorted (fun a b => Todo.starred a <= Todo.starred b) rows /\
  forall v, List.filter (fun todo => Todo.starred todo =? v) rows
            = List.filter (fun todo => Todo.starred todo =? v) data.
Proof.
  intros rows. split; [apply sort_Permutation |]. split.
  - apply sort_StronglySorted.
    + intros a b. destruct (Z.ltb_spec (Todo.starred a) (Todo.starred b)); [lia |].
      destruct (Z.ltb_spec (Todo.starred b) (Todo.starred a)); lia.
    + intros a b. destruct (Z.ltb_spec (Todo.starred a) (Todo.starred b)); [lia |].
      destruct (Z.ltb_spec (Todo.starred b) (Todo.starred a)); lia.
    + intros a b c. lia.
  - intros v. apply sort_filter. intros x y Hx Hy.
    apply Z.eqb_eq in Hx, Hy. rewrite Hx, Hy, Z.ltb_irrefl. lia.
Qed.

(** X12.  [getAllTodos] and [getTodosByDate], which query with the clause
    "starred DESC, id", return the todos (of the date) with the lower
    [starred] value first, and todos of equal [starred] in the order of the
    table. *)
Theorem todo_queries_list_unstarred_first (date : string) db :
  (exists rows,
     Todos.getAllTodos coercion db = (db, Returned (Crud.TodoRows rows)) /\
     Permutation (todos db) rows /\
     StronglySorted (fun a b => Todo.starred a <= Todo.starred b) rows /\
     forall v, List.filter (fun todo => Todo.starred todo =? v) rows
               = List.filter (fun todo => Todo.starred todo =? v) (todos db)) /\
  (exists rows,
     Todos.getTodosByDate coercion date db = (db, Returned (Crud.TodoRows rows)) /\
     Permutation (List.filter (fun todo => (Todo.date todo =? date)%string) (todos db)) rows /\
     StronglySorted (fun a b => Todo.starred a <= Todo.starred b) rows /\
     forall v, List.filter (fun todo => Todo.starred todo =? v) rows
               = List.filter (fun todo => Todo.starred todo =? v)
                   (List.filter (fun todo => (Todo.date todo =? date)%string) (todos db))).
Proof.
  split.
  - eexists. split.
    + unfold Todos.getAllTodos. rewrite query_todos, select_starred_clause. reflexivity.
    + apply sorted_by_starred.
  - eexists. split.
    + unfold Todos.getTodosByDate. rewrite query_todos, select_starred_clause. reflexivity.
    + assert (List.filter (Crud.matches coercion [("date", Value.Str date)]) (todos db)
              = List.filter (fun todo => (Todo.date todo =? date)%string) (todos db)) as ->.
      { apply filter_ext. intros todo. unfold Crud.matches. simpl.
        change (field "date" todo) with (Value.Str (Todo.date todo)). simpl.
        apply andb_true_r. }
      apply sorted_by_starred.
Qed.

Lemma string_ltb_false_leb (a b : string) :
  String.ltb a b = false -> String.leb b a = true.
Proof.
  unfold String.ltb, String.leb. rewrite (String.compare_antisym a b).
  destruct (String.compare b a); simpl; congruence.
Qed.

Lemma string_ltb_leb (a b : string) :
  String.ltb a b = true -> String.leb a b = true.
Proof.
  unfold String.ltb, String.leb. destruct (String.compare a b); congruence.
Qed.

(** X13.  [getNotes], which queries with the clause "created_at DESC", returns
    every note, a later [created_at] before an earlier one. *)
Theorem getNotes_newest_first db :
  exists rows,
    Todos.getNotes coercion db = (db, Returned (Crud.NoteRows rows)) /\
    Permutation (notes db) rows /\
    StronglySorted
      (fun a b => String.leb (Note.created_at b) (Note.created_at a) = true) rows.
Proof.
  eexists. split; [unfold Todos.getNotes; rewrite query_notes; reflexivity |].
  split; [apply sort_Permutation |].
  apply sort_StronglySorted.
  - intros a b. unfold Crud.compareBy.
    change (field "created_at" a) with (Value.Str (Note.created_at a)).
    change (field "created_at" b) with (Value.Str (Note.created_at b)).
    unfold Value.lessThan. simpl.
    destruct (String.ltb (Note.created_at a) (Note.created_at b)) eqn:Hab; [lia |].
    intros _. now apply string_ltb_false_leb.
  - intros a b. unfold Crud.compareBy.
    change (field "created_at" a) with (Value.Str (Note.created_at a)).
    change (field "created_at" b) with (Value.Str (Note.created_at b)).
    unfold Value.lessThan. simpl.
    destruct (String.ltb (Note.created_at a) (Note.created_at b)) eqn:Hab.
    + intros _. now apply string_ltb_leb.
    + destruct (String.ltb (Note.created_at b) (Note.created_at a)); lia.
  - intros a b c Hab Hbc. eapply string_leb_trans; eassumption.
Qed.

End TodoQueries.

(* ------------------------------------------------------------------ *)
(** ** The CSV tables: update, delete, insert *)
(* ------------------------------------------------------------------ *)

Section CsvRows.
Import CsvDatabase.

Lemma filter_all {A : Type} (p : A -> bool) (l : list A) :
  (forall x, In x l -> p x = true) -> List.filter p l = l.
Proof. intros Hall. now apply forallb_filter_id, forallb_forall. Qed.

Lemma deleteTodo_effect (id : Z) (table : list Todo.t) :
  deleteTodo id table
  = (List.filter (fun todo => negb (Todo.id todo =? id)) table,
     Returned (existsb (fun todo => Todo.id todo =? id) table)).
Proof.
  unfold deleteTodo. run_eff.
  destruct (Nat.eqb_spec
              (length (List.filter (fun todo => negb (Todo.id todo =? id)) table))
              (length table)) as [Hlen | Hlen]; simpl.
  - apply filter_same_length in Hlen. rewrite Hlen. f_equal. f_equal. symmetry.
    apply not_true_iff_false. intros Hex. apply existsb_exists in Hex as (todo & Hin & Hid).
    rewrite <- Hlen in Hin. apply filter_In in Hin as [_ Hkeep].
    rewrite Hid in Hkeep. discriminate.
  - f_equal. f_equal. symmetry.
    destruct (existsb (fun todo => Todo.id todo =? id) table) eqn:Hex; [reflexivity |].
    exfalso. apply Hlen. f_equal. apply filter_all. intros todo Hin.
    apply negb_true_iff. apply not_true_iff_false. intros Hid.
    assert (existsb (fun todo => Todo.id todo =? id) table = true) as Htrue
      by (apply existsb_exists; eauto).
    congruence.
Qed.

(** X14.  [deleteTodo] says whether a row had the id; it removes every row
    with the id and no other, and a second call finds nothing to remove. *)
Theorem deleteTodo_removes_the_id (id : Z) (table : list Todo.t) :
  let result := deleteTodo id table in
  (snd result = Returned true <-> In id (map Todo.id table)) /\
  fst result = List.filter (fun todo => negb (Todo.id todo =? id)) table /\
  ~ In id (map Todo.id (fst result)) /\
  deleteTodo id (fst result) = (fst result, Returned false).
Proof.
  intros result. subst result. rewrite deleteTodo_effect. cbn [fst snd].
  assert (~ In id (map Todo.id (List.filter (fun todo => negb (Todo.id todo =? id)) table)))
    as Hgone.
  { intros Hin. apply in_map_iff in Hin as (todo & Hid & Hin).
    apply filter_In in Hin as [_ Hkeep]. rewrite Hid, Z.eqb_refl in Hkeep. discriminate. }
  repeat split; try assumption.
  - intros [= Hex]. apply existsb_exists in Hex as (todo & Hin & Hid).
    apply Z.eqb_eq in Hid. rewrite <- Hid. now apply in_map.
  - intros Hin. f_equal. apply in_map_iff in Hin as (todo & Hid & Hin).
    apply existsb_exists. exists todo. split; [assumption | now apply Z.eqb_eq].
  - rewrite deleteTodo_effect. f_equal.
    + apply filter_all. intros todo Hin. apply filter_In in Hin. tauto.
    + f_equal. apply not_true_iff_false. intros Hex.
      apply existsb_exists in Hex as (todo & Hin & Hid). apply Hgone.
      apply Z.eqb_eq in Hid. apply in_map_iff. exists todo. now split.
Qed.

Lemma updateAt_ids (index : nat) (updates : TodoUpdates.t) (table : list Todo.t) :
  map Todo.id (Js.updateAt index (fun todo => patchTodo todo updates) table)
  = map Todo.id table.
Proof.
  revert index. induction table as [|x table IH]; intros [|index]; simpl; try reflexivity.
  now rewrite IH.
Qed.

Lemma savedTodos_ids (rows : list Todo.t) :
  map Todo.id (savedTodos rows) = map Todo.id rows.
Proof.
  destruct rows as [|first rows]; [reflexivity |].
  unfold savedTodos. rewrite map_map. reflexivity.
Qed.

Lemma savedTodos_apart (rows : list Todo.t) :
  map apartFromDue (savedTodos rows) = map apartFromDue rows.
Proof.
  destruct rows as [|first rows]; [reflexivity |].
  unfold savedTodos. rewrite map_map. reflexivity.
Qed.

(** Rows that all have a due date are read back as they were written. *)
Lemma savedTodos_with_column (rows : list Todo.t) :
  List.Forall (fun row => is_Some (Todo.due_date row)) rows -> savedTodos rows = rows.
Proof.
  intros Hall. destruct rows as [|first rows]; [reflexivity |].
  unfold savedTodos. inversion Hall as [|? ? [due Hfirst] _]; subst.
  rewrite <- (map_id (first :: rows)) at 2. apply map_ext_in.
  intros row Hrow. rewrite List.Forall_forall in Hall.
  destruct (Hall row Hrow) as [due' Hdue]. destruct row. simpl in *.
  unfold conformTodo. simpl. now rewrite Hfirst, Hdue.
Qed.

(** Under a first row without a due date no row is read back with one. *)
Lemma savedTodos_without_column (first : Todo.t) (rows : list Todo.t) :
  Todo.due_date first = None ->
  List.Forall (fun row => Todo.due_date row = None) (savedTodos (first :: rows)).
Proof.
  intros Hfirst. unfold savedTodos. apply List.Forall_forall.
  intros row Hrow. apply in_map_iff in Hrow as (row' & <- & _).
  unfold conformTodo. simpl. now rewrite Hfirst.
Qed.

(** X15.  [updateTodo] on an id no row has returns [false] and writes nothing;
    otherwise it returns [true], and apart from the due dates the table is
    the old one with the first row of that id patched: the other rows, the
    order and all ids are as they were.  The due dates follow the columns of
    the file, which the save takes from the first row: when every row has a
    due date the patched row is stored as patched; when the first row of the
    table is another row and has none, no row has one afterwards, so a due
    date in the updates is not stored. *)
Theorem updateTodo_patches_one_row (id : Z) (updates : TodoUpdates.t) (table : list Todo.t) :
  let result := updateTodo id updates table in
  (~ In id (map Todo.id table) -> result = (table, Returned false)) /\
  (In id (map Todo.id table) ->
   exists before todo after,
     table = before ++ todo :: after /\
     Todo.id todo = id /\ ~ In id (map Todo.id before) /\
     snd result = Returned true /\
     map apartFromDue (fst result)
     = map apartFromDue (before ++ patchTodo todo updates :: after) /\
     (List.Forall (fun row => is_Some (Todo.due_date row)) table ->
      fst result = before ++ patchTodo todo updates :: after) /\
     (forall first rest, before = first :: rest -> Todo.due_date first = None ->
        List.Forall (fun row => Todo.due_date row = None) (fst result))) /\
  map Todo.id (fst result) = map Todo.id table.
Proof.
  intros result. subst result. unfold updateTodo. run_eff.
  destruct (Js.findIndex (fun todo => Todo.id todo =? id) table) as [index|] eqn:Hfind.
  - apply findIndex_Some in Hfind as (before & todo & after & Htable & Hindex & Hid & Hbefore).
    apply Z.eqb_eq in Hid. cbn [fst snd]. split; [| split].
    + intros Hout. exfalso. apply Hout. rewrite Htable, map_app. apply in_or_app.
      right. left. exact Hid.
    + intros _. exists before, todo, after.
      assert (Js.updateAt index (fun todo => patchTodo todo updates) table
              = before ++ patchTodo todo updates :: after) as ->
        by (rewrite <- Hindex, Htable, updateAt_middle; reflexivity).
      split; [assumption |]. split; [assumption |]. split.
      { intros Hin. apply in_map_iff in Hin as (x & Hx & Hin).
        specialize (Hbefore x Hin). apply Z.eqb_neq in Hbefore. contradiction. }
      split; [reflexivity |]. split; [apply savedTodos_apart |]. split.
      * intros Hall. apply savedTodos_with_column.
        rewrite Htable in Hall. apply List.Forall_app in Hall as [Hb Ha].
        inversion Ha as [|? ? [due Hdue] Hafter]; subst.
        apply List.Forall_app. split; [assumption |]. constructor; [| assumption].
        unfold patchTodo. simpl. destruct (TodoUpdates.due_date updates); eauto.
      * intros first rest -> Hfirst. now apply savedTodos_without_column.
    + rewrite savedTodos_ids. apply updateAt_ids.
  - pose proof (proj1 (findIndex_None _ _) Hfind) as Hnone. simpl. split; [| split].
    + reflexivity.
    + intros Hin. exfalso. apply in_map_iff in Hin as (x & Hx & Hin).
      specialize (Hnone x Hin). apply Z.eqb_neq in Hnone. contradiction.
    + reflexivity.
Qed.

(** In a table whose rows have no due date, giving the second row one
    is acknowledged and stores nothing. *)
Example updateTodo_loses_due_date :
  let table := [withId sampleTodo 1; withId sampleTodo 2] in
  updateTodo 2 (TodoUpdates.mk None None None None (Some "2025-02-01") None) table
  = (table, Returned true).
Proof. reflexivity. Qed.

Lemma getNextId_fresh {T : Type} `{HasId T} (data : list T) :
  ~ In (getNextId data) (map idOf data).
Proof.
  intros Hin. apply in_map_iff in Hin as (item & Heq & Hin).
  pose proof (getNextId_above data item Hin). lia.
Qed.

Lemma find_app_none {A : Type} (p : A -> bool) (l1 l2 : list A) :
  List.find p l1 = None -> List.find p (l1 ++ l2) = List.find p l2.
Proof.
  induction l1 as [|x l1 IH]; simpl; [reflexivity |].
  destruct (p x); [discriminate | assumption].
Qed.

Lemma find_app_some {A : Type} (p : A -> bool) (l1 l2 : list A) (x : A) :
  List.find p l1 = Some x -> List.find p (l1 ++ l2) = Some x.
Proof.
  induction l1 as [|y l1 IH]; simpl; [discriminate |].
  destruct (p y); [trivial | assumption].
Qed.

Lemma addSubject_effect (isoNow name : string) (table : list Subject.t) :
  addSubject isoNow name table
  = match List.find (fun s => (Js.toLowerCase (Subject.name s)
                               =? Js.toLowerCase (Js.trim name))%string) table with
    | Some existing => (table, Returned (Subject.id existing))
    | None =>
        (table ++ [Subject.mk (getNextId table) (Js.trim name) isoNow],
         Returned (getNextId table))
    end.
Proof.
  unfold addSubject. run_eff.
  destruct (List.find _ table); reflexivity.
Qed.

(** X16.  [addSubject] returns the id of a subject whose name, in lower case,
    is the trimmed name in lower case; asking again under any spelling
    with the same trimmed lower-case name returns the same id and adds
    nothing. *)
Theorem addSubject_is_idempotent (isoNow isoNow' name name' : string)
    (table : list Subject.t) :
  Js.toLowerCase (Js.trim name') = Js.toLowerCase (Js.trim name) ->
  exists id subject,
    snd (addSubject isoNow name table) = Returned id /\
    In subject (fst (addSubject isoNow name table)) /\
    Subject.id subject = id /\
    Js.toLowerCase (Subject.name subject) = Js.toLowerCase (Js.trim name) /\
    addSubject isoNow' name' (fst (addSubject isoNow name table))
    = (fst (addSubject isoNow name table), Returned id).
Proof.
  intros Hsame. rewrite (addSubject_effect isoNow name table).
  set (key := Js.toLowerCase (Js.trim name)) in *.
  destruct (List.find (fun s => (Js.toLowerCase (Subject.name s) =? key)%string) table)
    as [existing|] eqn:Hfind; cbn [fst snd].
  - exists (Subject.id existing), existing.
    pose proof (find_some _ _ Hfind) as [Hin Hname]. apply String.eqb_eq in Hname.
    repeat split; try assumption.
    rewrite addSubject_effect, Hsame. fold key. now rewrite Hfind.
  - exists (getNextId table), (Subject.mk (getNextId table) (Js.trim name) isoNow).
    repeat split.
    + apply in_or_app. right. now left.
    + rewrite addSubject_effect, Hsame. fold key.
      rewrite (find_app_none _ _ _ Hfind). simpl. now rewrite String.eqb_refl.
Qed.

Lemma addSubject_is_idempotent_witness :
  let table := [Subject.mk 4 "Math" "2025-01-01T08:00:00.000Z"] in
  exists id subject,
    snd (addSubject "2025-01-02T09:00:00.000Z" " physics" table) = Returned id /\
    In subject (fst (addSubject "2025-01-02T09:00:00.000Z" " physics" table)) /\
    Subject.id subject = id /\
    Js.toLowerCase (Subject.name subject) = "physics" /\
    addSubject "2025-01-03T09:00:00.000Z" "PHYSICS "
      (fst (addSubject "2025-01-02T09:00:00.000Z" " physics" table))
    = (fst (addSubject "2025-01-02T09:00:00.000Z" " physics" table), Returned id).
Proof.
  intros table.
  exact (addSubject_is_idempotent "2025-01-02T09:00:00.000Z" "2025-01-03T09:00:00.000Z"
           " physics" "PHYSICS " table eq_refl).
Defined.

End CsvRows.

(* ------------------------------------------------------------------ *)
(** ** The CSV tables through crud.ts *)
(* ------------------------------------------------------------------ *)

Section CrudLayer.
Import CsvDatabase.
Implicit Types (db : Csv).

Lemma addNote_effect (note : Note.t) (table : list Note.t) :
  addNote note table
  = (table ++ [noteWithId note (getNextId table)], Returned (getNextId table)).
Proof. reflexivity. Qed.

Lemma deleteNote_effect (id : Z) (table : list Note.t) :
  deleteNote id table
  = (List.filter (fun note => negb (Note.id note =? id)) table,
     Returned (existsb (fun note => Note.id note =? id) table)).
Proof.
  unfold deleteNote. run_eff.
  destruct (Nat.eqb_spec
              (length (List.filter (fun note => negb (Note.id note =? id)) table))
              (length table)) as [Hlen | Hlen]; simpl.
  - apply filter_same_length in Hlen. rewrite Hlen. f_equal. f_equal. symmetry.
    apply not_true_iff_false. intros Hex. apply existsb_exists in Hex as (note & Hin & Hid).
    rewrite <- Hlen in Hin. apply filter_In in Hin as [_ Hkeep].
    rewrite Hid in Hkeep. discriminate.
  - f_equal. f_equal. symmetry.
    destruct (existsb (fun note => Note.id note =? id) table) eqn:Hex; [reflexivity |].
    exfalso. apply Hlen. f_equal. apply filter_all. intros note Hin.
    apply negb_true_iff. apply not_true_iff_false. intros Hid.
    assert (existsb (fun note => Note.id note =? id) table = true) as Htrue
      by (apply existsb_exists; eauto).
    congruence.
Qed.

(** Filtering out the id just handed out takes away the new row only. *)
Lemma filter_new_row {T : Type} `{HasId T} (table : list T) (row : T) :
  idOf row = getNextId table ->
  List.filter (fun item => negb (idOf item =? getNextId table)) (table ++ [row]) = table /\
  existsb (fun item => idOf item =? getNextId table) (table ++ [row]) = true.
Proof.
  intros Hrow. split.
  - rewrite List.filter_app. simpl. rewrite Hrow, Z.eqb_refl. simpl. rewrite app_nil_r.
    apply filter_all. intros item Hin. apply negb_true_iff, Z.eqb_neq.
    pose proof (getNextId_above table item Hin). lia.
  - apply existsb_exists. exists row. split; [| now apply Z.eqb_eq].
    apply in_or_app. right. now left.
Qed.

(** X17.  A todo or a note that [insert] has just added is taken out again by
    [remove] with the id [insert] returned: the tables are as before and
    [remove] returns [true]. *)
Theorem insert_then_remove_restores (isoNow table : string) (data : Data.t) db :
  table = "todos" \/ table = "notes" ->
  exists id,
    snd (Crud.insert isoNow table data db) = Returned id /\
    Crud.remove table id (fst (Crud.insert isoNow table data db)) = (db, Returned true).
Proof.
  intros [-> | ->]; destruct db as [subjectRows todoRows noteRows settingRows].
  - exists (getNextId todoRows). split; [reflexivity |].
    unfold Crud.insert, Crud.remove, onTodos. simpl.
    rewrite deleteTodo_effect.
    destruct (filter_new_row todoRows
                (withId (Todo.mk 0 (Js.orElse (Data.date data) "")
                                 (Js.orElse (Data.text data) "")
                                 (Crud.numberOr0 (Data.done data))
                                 (Crud.numberOr0 (Data.starred data))
                                 (Crud.savedOrNull (Data.due_date data))
                                 (Js.orElse (Data.created_at data) isoNow))
                        (getNextId todoRows)) eq_refl) as [Hrows Hfound].
    change (fun todo => negb (Todo.id todo =? getNextId todoRows))
      with (fun todo : Todo.t => negb (idOf todo =? getNextId todoRows)).
    change (fun todo => Todo.id todo =? getNextId todoRows)
      with (fun todo : Todo.t => idOf todo =? getNextId todoRows).
    now rewrite Hrows, Hfound.
  - exists (getNextId noteRows). split; [reflexivity |].
    unfold Crud.insert, Crud.remove, onNotes. simpl.
    rewrite deleteNote_effect.
    destruct (filter_new_row noteRows
                (noteWithId (Note.mk 0 (Js.orElse (Data.title data) "")
                                     (Crud.savedOrNull (Data.content data))
                                     (Crud.savedOrNull (Data.color data))
                                     (Js.orElse (Data.created_at data) isoNow))
                            (getNextId noteRows)) eq_refl) as [Hrows Hfound].
    change (fun note => negb (Note.id note =? getNextId noteRows))
      with (fun note : Note.t => negb (idOf note =? getNextId noteRows)).
    change (fun note => Note.id note =? getNextId noteRows)
      with (fun note : Note.t => idOf note =? getNextId noteRows).
    now rewrite Hrows, Hfound.
Qed.

Lemma insert_then_remove_restores_witness :
  let db := mkCsv [] [withId sampleTodo 3; withId sampleTodo 7] [] [] in
  exists id,
    snd (Crud.insert "2025-01-02T09:00:00.000Z" "todos" Data.empty db) = Returned id /\
    Crud.remove "todos" id (fst (Crud.insert "2025-01-02T09:00:00.000Z" "todos" Data.empty db))
    = (db, Returned true).
Proof.
  intros db.
  exact (insert_then_remove_restores "2025-01-02T09:00:00.000Z" "todos" Data.empty db
           (or_introl eq_refl)).
Defined.

(** A table name that is none of the four: [insert] throws
    "Unknown table: ..." and [update], [remove] return [false], and
    [query] returns no rows; the tables are left as they were.  [update] and
    [remove] treat "settings" the same way. *)
Lemma crud_unknown_table (coercion : Value.Coercion) (isoNow table : string)
    (id : Z) (data : Data.t) (where_ : list (string * Value.t)) (options : Crud.Options) db :
  table <> "subjects" -> table <> "todos" -> table <> "notes" ->
  (table <> "settings" ->
   Crud.insert isoNow table data db = (db, Thrown ("Unknown table: " ++ table)) /\
   Crud.query coercion table where_ options db = (db, Returned Crud.NoRows)) /\
  Crud.update table id data db = (db, Returned false) /\
  Crud.remove table id db = (db, Returned false).
Proof.
  intros Hsubjects Htodos Hnotes.
  apply String.eqb_neq in Hsubjects, Htodos, Hnotes.
  unfold Crud.insert, Crud.query, Crud.update, Crud.remove.
  rewrite Hsubjects, Htodos, Hnotes. split; [| split; reflexivity].
  intros Hsettings. apply String.eqb_neq in Hsettings. rewrite Hsettings.
  split; reflexivity.
Qed.

Lemma crud_unknown_table_witness :
  let db := mkCsv [] [withId sampleTodo 3] [] [Setting.mk "background" "a.png"] in
  Crud.update "settings" 3 Data.empty db = (db, Returned false) /\
  Crud.remove "settings" 3 db = (db, Returned false).
Proof.
  intros db.
  apply (crud_unknown_table sampleCoercion
           "" "settings" 3 Data.empty [] Crud.noOptions db); discriminate.
Defined.

(** [addTodo] of todos.ts stores, at the end of the table, a todo that is
    not done, with [starred] 0 or 1, the next id and a [due_date] that is
    empty when none was given, reports that id with [success], and touches
    no other table. *)
Lemma Todos_addTodo_appends (isoNow : string) (todo : NewTodo.t) db :
  let id := getNextId (todos db) in
  let stored :=
    Todo.mk id (NewTodo.date todo) (NewTodo.text todo) 0
            (if default false (NewTodo.starred todo) then 1 else 0)
            (Some (Js.orElse (NewTodo.dueDate todo) "")) isoNow in
  Todos.addTodo isoNow todo db
  = (mkCsv (subjects db) (todos db ++ [stored]) (notes db) (settings db),
     Returned (Added.mk true id)) /\
  (forall other, In other (todos db) -> Todo.id other < id).
Proof.
  intros id stored. split.
  - destruct db as [subjectRows todoRows noteRows settingRows].
    unfold Todos.addTodo, Crud.insert, onTodos, bind. simpl.
    unfold ret. f_equal. f_equal. f_equal.
    subst stored id. unfold withId, Todos.oneIf. simpl.
    assert (Crud.savedOrNull (Crud.stringOrNull (NewTodo.dueDate todo))
            = Some (Js.orElse (NewTodo.dueDate todo) "")) as ->
      by (destruct (NewTodo.dueDate todo) as [[|c due]|]; reflexivity).
    destruct (NewTodo.date todo), (NewTodo.text todo), isoNow,
      (NewTodo.starred todo) as [[|]|]; reflexivity.
  - intros other Hin. subst id.
    apply (getNextId_above (todos db) other Hin).
Qed.

End CrudLayer.

(* ------------------------------------------------------------------ *)
(** ** Settings and view backgrounds *)
(* ------------------------------------------------------------------ *)

Section Settings.
Import CsvDatabase.
Implicit Types (db : Csv) (rows : list Setting.t).

(** The value stored under a key, as [getSetting] reads it. *)
Lemma getSetting_effect (key : string) rows :
  getSetting key rows
  = (rows, Returned (option_map Setting.value
                       (List.find (fun s => (Setting.key s =? key)%string) rows))).
Proof. reflexivity. Qed.

Lemma find_app {A : Type} (p : A -> bool) (l1 l2 : list A) :
  List.find p (l1 ++ l2)
  = match List.find p l1 with Some x => Some x | None => List.find p l2 end.
Proof.
  induction l1 as [|x l1 IH]; simpl; [reflexivity |].
  destruct (p x); [reflexivity | assumption].
Qed.

Lemma find_none_iff {A : Type} (p : A -> bool) (l : list A) :
  (forall x, In x l -> p x = false) -> List.find p l = None.
Proof.
  induction l as [|x l IH]; simpl; intros Hall; [reflexivity |].
  rewrite (Hall x (or_introl eq_refl)). apply IH. intros y Hy. apply Hall. now right.
Qed.

(** After [setSetting(key, value)] the key reads [value] and every other
    key reads what it read before. *)
Lemma setSetting_then_getSetting (key key' value : string) rows :
  exists rows',
    setSetting key value rows = (rows', Returned tt) /\
    snd (getSetting key' rows')
    = if (key =? key')%string then Returned (Some value) else snd (getSetting key' rows).
Proof.
  unfold setSetting. run_eff.
  destruct (Js.findIndex (fun setting => (Setting.key setting =? key)%string) rows)
    as [index|] eqn:Hfind.
  - apply findIndex_Some in Hfind as (l1 & x & l2 & -> & Hindex & Hx & Hl1).
    eexists. split; [reflexivity |]. simpl.
    rewrite <- Hindex, updateAt_middle, !find_app. simpl.
    apply String.eqb_eq in Hx.
    destruct (String.eqb_spec key key') as [<- | Hne].
    + rewrite (find_none_iff _ l1 Hl1). rewrite Hx, String.eqb_refl. reflexivity.
    + rewrite Hx. apply String.eqb_neq in Hne. now rewrite Hne.
  - pose proof (proj1 (findIndex_None _ _) Hfind) as Hnone.
    eexists. split; [reflexivity |]. simpl. rewrite find_app. simpl.
    destruct (String.eqb_spec key key') as [<- | Hne].
    + now rewrite (find_none_iff _ rows Hnone).
    + destruct (List.find (fun s => (Setting.key s =? key')%string) rows); reflexivity.
Qed.

Lemma getViewBackground_effect (view : string) db :
  Background.getViewBackground view db
  = (db, snd (getSetting ("background_" ++ view) (settings db))).
Proof. destruct db. reflexivity. Qed.

Lemma setSetting_on_db (key value : string) db :
  Crud.setSetting key value db
  = (mkCsv (subjects db) (todos db) (notes db) (fst (setSetting key value (settings db))),
     Returned tt).
Proof.
  unfold Crud.setSetting, onSettings.
  destruct (setSetting_then_getSetting key key value (settings db)) as (rows' & Hset & _).
  now rewrite Hset.
Qed.

Lemma background_key_injective (view view' : string) :
  ("background_" ++ view =? "background_" ++ view')%string = (view =? view')%string.
Proof. reflexivity. Qed.

Lemma setViewBackground_reads_back (view filePath : string) db :
  let after := fst (Background.setViewBackground view filePath db) in
  Background.getViewBackground view after = (after, Returned (Some filePath)).
Proof.
  intros after. subst after. unfold Background.setViewBackground.
  rewrite setSetting_on_db. cbn [fst].
  rewrite getViewBackground_effect. cbn [settings]. f_equal.
  destruct (setSetting_then_getSetting ("background_" ++ view) ("background_" ++ view)
              filePath (settings db)) as (rows' & Hset & Hget).
  rewrite Hset. cbn [fst]. now rewrite Hget, String.eqb_refl.
Qed.

(** X18.  A background set for a view is the one read back for it; the
    backgrounds of the other views and the other tables are untouched. *)
Theorem setViewBackground_then_get (view filePath : string) db :
  let after := fst (Background.setViewBackground view filePath db) in
  Background.getViewBackground view after = (after, Returned (Some filePath)) /\
  (forall view', view' <> view ->
     snd (Background.getViewBackground view' after)
     = snd (Background.getViewBackground view' db)) /\
  subjects after = subjects db /\ todos after = todos db /\ notes after = notes db.
Proof.
  intros after. split; [apply setViewBackground_reads_back |].
  subst after. unfold Background.setViewBackground.
  rewrite setSetting_on_db. cbn [fst].
  split; [| repeat split].
  intros view' Hother. rewrite !getViewBackground_effect. cbn [settings snd].
    destruct (setSetting_then_getSetting ("background_" ++ view) ("background_" ++ view')
                filePath (settings db)) as (rows' & Hset & Hget).
    rewrite Hset. cbn [fst]. rewrite Hget, background_key_injective.
    assert ((view =? view')%string = false) as -> by (apply String.eqb_neq; congruence).
    reflexivity.
Qed.

Lemma mapPut_In {V : Type} (key : string) (value : V) (m : list (string * V)) (kv : string * V) :
  In kv (Js.mapPut key value m) -> kv = (key, value) \/ In kv m.
Proof.
  induction m as [|[k v] m IH]; simpl.
  - intros [<- | []]. now left.
  - destruct (String.eqb_spec k key) as [-> | Hne]; simpl.
    + intros [<- | Hin]; auto.
    + intros [<- | Hin]; auto. destruct (IH Hin); auto.
Qed.

Lemma collectBackgrounds_effect (pending : list string) (backgrounds : list (string * string)) db :
  exists result,
    Background.collectBackgrounds pending backgrounds db = (db, Returned result) /\
    (forall view path, In (view, path) result ->
       In (view, path) backgrounds \/
       (In view pending /\ path <> "" /\
        snd (Background.getViewBackground view db) = Returned (Some path))) /\
    (forall view,
       Js.mapFind view backgrounds = None ->
       snd (Background.getViewBackground view db) = Returned (Some "") ->
       Js.mapFind view result = None).
Proof.
  revert backgrounds.
  induction pending as [|v pending IH]; intros backgrounds;
    cbn [Background.collectBackgrounds].
  - eexists. split; [reflexivity |]. split; [auto | auto].
  - unfold bind. rewrite getViewBackground_effect.
    destruct (snd (getSetting ("background_" ++ v) (settings db))) as [[path|]|message] eqn:Hread.
    + destruct (Js.truthy path) eqn:Htruthy.
      * destruct (IH (Js.mapPut v path backgrounds)) as (result & Hrun & Hin & Hout).
        exists result. split; [exact Hrun |]. split.
        -- intros view p Hp. destruct (Hin view p Hp) as [Hacc | (Hpending & Hp' & Hget)].
           ++ apply mapPut_In in Hacc as [[= -> ->] | Hacc]; [| now left].
              right. split; [now left |]. split.
              ** intros ->. discriminate.
              ** now rewrite getViewBackground_effect.
           ++ right. split; [now right | now split].
        -- intros view Hnone Hempty. apply Hout; [| assumption].
           rewrite mapFind_mapPut.
           destruct (String.eqb_spec v view) as [-> | _]; [| assumption].
           rewrite getViewBackground_effect in Hempty. cbn [snd] in Hempty.
           rewrite Hread in Hempty. injection Hempty as ->. discriminate.
      * destruct (IH backgrounds) as (result & Hrun & Hin & Hout).
        exists result. split; [exact Hrun |]. split; [| assumption].
        intros view p Hp. destruct (Hin view p Hp) as [Hacc | (Hpending & Hrest)];
          [now left | right; split; [now right | assumption]].
    + destruct (IH backgrounds) as (result & Hrun & Hin & Hout).
      exists result. split; [exact Hrun |]. split; [| assumption].
      intros view p Hp. destruct (Hin view p Hp) as [Hacc | (Hpending & Hrest)];
        [now left | right; split; [now right | assumption]].
    + rewrite getSetting_effect in Hread. discriminate.
Qed.

(** X19.  Removing the background of a view stores the empty path for it:
    [getViewBackground] then returns the empty string, not [null], and
    [getAllBackgrounds] has no entry for the view; each entry it has is one
    of the five views with the non-empty path stored for it. *)
Theorem removeViewBackground_leaves_empty_path (view : string) db :
  let after := fst (Background.removeViewBackground view db) in
  Background.getViewBackground view after = (after, Returned (Some "")) /\
  exists backgrounds,
    Background.getAllBackgrounds after = (after, Returned backgrounds) /\
    Js.mapFind view backgrounds = None /\
    forall v path, In (v, path) backgrounds ->
      In v Background.views /\ path <> "" /\
      snd (Background.getViewBackground v after) = Returned (Some path).
Proof.
  intros after.
  assert (Background.getViewBackground view after = (after, Returned (Some ""))) as Hget
    by apply (setViewBackground_reads_back view "" db).
  split; [exact Hget |].
  unfold Background.getAllBackgrounds.
  destruct (collectBackgrounds_effect Background.views [] after) as (result & Hrun & Hin & Hout).
  exists result. split; [exact Hrun |]. split.
  - apply Hout; [reflexivity | now rewrite Hget].
  - intros v path Hentry. destruct (Hin v path Hentry) as [[] | Hview]. exact Hview.
Qed.

End Settings.

(* ------------------------------------------------------------------ *)
(** ** The store: registering and removing a subject *)
(* ------------------------------------------------------------------ *)

Section StoreSubjects.
Import Store StatSpec.
Implicit Types (store : Schema).

Lemma schema_eta store :
  mkSchema (subjectTotals store) (dailyStats store) (sessions store) = store.
Proof. now destruct store. Qed.

(** X20.  [addSubject] rejects a blank name without touching the store;
    otherwise no total changes (a new entry starts at zero) and the rows and
    the sessions are untouched.  For a name that is not one every object
    inherits the subject has an entry afterwards and the call returns its
    total.  For a name every object inherits the store is left as it is: an
    entry that is there is returned, and where there is none the call
    creates none and returns the inherited value. *)
Theorem addSubject_keeps_totals (subjectName : string) store :
  let key := keyOf subjectName in
  let result := addSubject subjectName store in
  (Js.truthy key = false -> result = (store, Thrown "Invalid subject name")) /\
  (Js.truthy key = true ->
   (forall subject, totalOf subject (subjectTotals (fst result))
                    = totalOf subject (subjectTotals store)) /\
   dailyStats (fst result) = dailyStats store /\
   sessions (fst result) = sessions store /\
   (Js.inherited key = false ->
    snd result = Returned (Entry (totalOf key (subjectTotals store))) /\
    is_Some (subjectTotals (fst result) !! key)) /\
   (Js.inherited key = true ->
    match subjectTotals store !! key with
    | Some totalTime => result = (store, Returned (Entry totalTime))
    | None => result = (store, Returned InheritedValue)
    end)) /\
  (inSync store -> inSync (fst result)).
Proof.
  intros key result. subst result.
  unfold addSubject, addSubjectTotal, getSubjectTotals, setSubjectTotals, lacks. fold key.
  destruct (Js.truthy key) eqn:Hkey; cbn [negb].
  - run_eff.
    destruct (subjectTotals store !! key) as [v|] eqn:Hlookup.
    + rewrite Hlookup, schema_eta.
      split; [discriminate |]. split; [| auto].
      intros _. split; [reflexivity |]. split; [reflexivity |]. split; [reflexivity |].
      split; [| reflexivity].
      intros _. split; [| eauto]. unfold totalOf. now rewrite Hlookup.
    + destruct (Js.inherited key) eqn:Hinherited; cbn [negb].
      * rewrite Hlookup, schema_eta.
        split; [discriminate |]. split; [| auto].
        intros _. split; [reflexivity |]. split; [reflexivity |]. split; [reflexivity |].
        split; [discriminate | reflexivity].
      * rewrite lookup_insert_eq.
        assert (forall subject,
                  totalOf subject (<[key:=0]> (subjectTotals store))
                  = totalOf subject (subjectTotals store)) as Hsame.
        { intros subject. rewrite totalOf_insert.
          destruct (String.eqb_spec subject key) as [-> | _]; [| reflexivity].
          unfold totalOf. now rewrite Hlookup. }
        split; [discriminate |]. split.
        -- intros _. split; [exact Hsame |]. split; [reflexivity |]. split; [reflexivity |].
           split; [| discriminate].
           intros _. split; [| eauto]. unfold totalOf. now rewrite Hlookup.
        -- intros Hsync subject. unfold inSync in Hsync. simpl. rewrite Hsame. apply Hsync.
  - split; [reflexivity |]. split; [discriminate |]. intros Hsync. exact Hsync.
Qed.

Lemma timeOfSubject_filter_other (key subject : string) (daily : list DailyStat.t) :
  timeOfSubject subject
    (List.filter (fun r => negb (DailyStat.subject r =? key)%string) daily)
  = if (subject =? key)%string then 0 else timeOfSubject subject daily.
Proof.
  unfold timeOfSubject. induction daily as [|d daily IH]; simpl.
  - now destruct (subject =? key)%string.
  - destruct (String.eqb_spec (DailyStat.subject d) key) as [Hd | Hd]; simpl.
    + rewrite IH. destruct (String.eqb_spec subject key) as [-> | Hs]; [reflexivity |].
      destruct (String.eqb_spec (DailyStat.subject d) subject) as [Heq | _];
        [congruence | reflexivity].
    + destruct (String.eqb_spec (DailyStat.subject d) subject) as [Heq | Hne]; simpl.
      * rewrite IH. destruct (String.eqb_spec subject key) as [-> | _];
          [congruence | reflexivity].
      * exact IH.
Qed.

(** X21.  [removeSubjectFromStore] acts on a subject that has an entry in
    the totals and on a name every object inherits: the entry, when there is
    one, and every row of the subject are removed, the other subjects keep
    their totals and rows, and the call returns [true].  For any other
    subject it returns [false] and the store, rows of that subject included,
    is as before.  Sessions are never removed, and totals that agreed with
    the rows still agree. *)
Theorem removeSubjectFromStore_forgets_subject (subjectName : string) store :
  let key := keyOf subjectName in
  let result := removeSubjectFromStore subjectName store in
  (is_Some (subjectTotals store !! key) \/ Js.inherited key = true ->
   snd result = Returned true /\
   subjectTotals (fst result) !! key = None /\
   (forall row, In row (dailyStats (fst result)) -> DailyStat.subject row <> key) /\
   (forall subject, subject <> key ->
      totalOf subject (subjectTotals (fst result)) = totalOf subject (subjectTotals store) /\
      timeOfSubject subject (dailyStats (fst result))
      = timeOfSubject subject (dailyStats store))) /\
  (subjectTotals store !! key = None -> Js.inherited key = false ->
   result = (store, Returned false)) /\
  sessions (fst result) = sessions store /\
  (inSync store -> inSync (fst result)).
Proof.
  intros key result. subst result.
  unfold removeSubjectFromStore, getSubjectTotals, setSubjectTotals, getDailyStats,
    setDailyStats. fold key. run_eff. unfold lacks.
  assert (forall totals,
            let after :=
              mkSchema (delete key totals)
                (List.filter (fun r => negb (DailyStat.subject r =? key)%string)
                             (dailyStats store))
                (sessions store) in
            totals = subjectTotals store ->
            subjectTotals after !! key = None /\
            (forall row, In row (dailyStats after) -> DailyStat.subject row <> key) /\
            (forall subject, subject <> key ->
               totalOf subject (subjectTotals after) = totalOf subject (subjectTotals store) /\
               timeOfSubject subject (dailyStats after)
               = timeOfSubject subject (dailyStats store)) /\
            (inSync store -> inSync after)) as Hacts.
  { intros totals after ->. subst after. cbn [subjectTotals dailyStats].
    split; [apply lookup_delete_eq |]. split; [| split].
    - intros row Hrow. apply filter_In in Hrow as [_ Hkeep].
      apply negb_true_iff, String.eqb_neq in Hkeep. exact Hkeep.
    - intros subject Hother. split.
      + unfold totalOf. rewrite lookup_delete_ne; [reflexivity | congruence].
      + rewrite timeOfSubject_filter_other.
        apply String.eqb_neq in Hother. now rewrite Hother.
    - intros Hsync subject. cbn [subjectTotals dailyStats].
      rewrite timeOfSubject_filter_other.
      destruct (String.eqb_spec subject key) as [-> | Hother].
      + unfold totalOf. now rewrite lookup_delete_eq.
      + unfold totalOf. rewrite lookup_delete_ne; [apply Hsync | congruence]. }
  specialize (Hacts (subjectTotals store) eq_refl). cbv zeta in Hacts.
  destruct Hacts as (Hgone & Hrows & Hothers & Hsync).
  destruct (subjectTotals store !! key) as [total|] eqn:Hlookup;
    [| destruct (Js.inherited key) eqn:Hinherited]; cbn [negb fst snd].
  - split; [| split; [discriminate | split; [reflexivity | exact Hsync]]].
    intros _. split; [reflexivity |]. auto.
  - split; [| split; [discriminate | split; [reflexivity | exact Hsync]]].
    intros _. split; [reflexivity |]. auto.
  - split; [| split; [reflexivity | split; [reflexivity | auto]]].
    intros [[total Htotal] | Hfalse]; discriminate.
Qed.

(** A one-day range of [getSessionsBetweenDates] selects the sessions
    [getSessionsForDate] selects for that day. *)
Lemma getSessionsBetweenDates_single_day (zone : Z -> TimeUtils.LocalDate)
    (date : string) store :
  getSessionsBetweenDates zone date date store = getSessionsForDate zone date store.
Proof.
  unfold getSessionsBetweenDates, getSessionsForDate, getAllSessionsFromStore, getSessions.
  run_eff. f_equal. f_equal. apply filter_ext. intros row.
  set (d := TimeUtils.localDateString (zone (SessionRow.startTime row))).
  destruct (String.eqb_spec d date) as [-> | Hne].
  - now rewrite string_leb_refl.
  - apply not_true_iff_false. intros Hboth. apply andb_true_iff in Hboth as [H1 H2].
    apply Hne. now apply String.leb_antisym.
Qed.

End StoreSubjects.

(* ------------------------------------------------------------------ *)
(** ** The progress handlers *)
(* ------------------------------------------------------------------ *)

Section ProgressHandlers.
Import Store StatSpec Main.
Implicit Types (process : Process).

Lemma process_eta process : mkProcess (store process) (console process) = process.
Proof. now destruct process. Qed.

Lemma nonempty_truthy (s : string) : s <> "" -> Js.truthy s = true.
Proof. destruct s; [congruence | reflexivity]. Qed.

(** X22.  The "sessions:updateProgress" handler answers a trusted sender with
    [{ ok: true }] for every non-empty session id, whether or not a session
    has it; when none has it nothing is changed.  It answers
    [{ ok: false }] with the error for the empty id, and "unauthorized",
    without reading the store, for a sender that is not trusted. *)
Theorem sessionsUpdateProgress_acknowledges (sessionId : string)
    (activeSeconds pausedSeconds : Z) process :
  (sessionId <> "" ->
   snd (sessionsUpdateProgress true sessionId activeSeconds pausedSeconds process)
   = Returned (mkAck true None) /\
   ((forall row, In row (sessions (store process)) -> SessionRow.id row <> sessionId) ->
    fst (sessionsUpdateProgress true sessionId activeSeconds pausedSeconds process) = process)) /\
  sessionsUpdateProgress true "" activeSeconds pausedSeconds process
  = (mkProcess (store process)
               (console process ++ ["Error updating session progress: sessionId required"]),
     Returned (mkAck false (Some "Error: sessionId required"))) /\
  sessionsUpdateProgress false sessionId activeSeconds pausedSeconds process
  = (mkProcess (store process) (console process ++ ["Blocked IPC call from untrusted source"]),
     Returned (mkAck false (Some "unauthorized"))).
Proof.
  split; [| split; reflexivity].
  intros Hid. unfold sessionsUpdateProgress, validateIPCSender, onStore, consoleLog.
  unfold updateSessionProgress, getSessions, setSessions.
  rewrite (nonempty_truthy _ Hid). run_eff.
  destruct (Js.findIndex (fun r => (SessionRow.id r =? sessionId)%string)
                         (sessions (store process))) as [idx|] eqn:Hfind; simpl.
  - split; [reflexivity |]. intros Hunknown.
    rewrite (unknown_id_not_found _ _ Hunknown) in Hfind. discriminate.
  - split; [reflexivity |]. intros _. now destruct process.
Qed.

Lemma sessionsUpdateProgress_acknowledges_witness :
  let process := mkProcess (mkSchema ∅ [] [sampleSession]) [] in
  snd (sessionsUpdateProgress true "s_0_0" 90 0 process) = Returned (mkAck true None) /\
  ((forall row, In row (sessions (store process)) -> SessionRow.id row <> "s_0_0") ->
   fst (sessionsUpdateProgress true "s_0_0" 90 0 process) = process).
Proof.
  intros process.
  apply (sessionsUpdateProgress_acknowledges "s_0_0" 90 0 process). discriminate.
Defined.

Lemma localDateString_truthy (d : TimeUtils.LocalDate) :
  Js.truthy (TimeUtils.localDateString d) = true.
Proof.
  unfold TimeUtils.localDateString.
  destruct (Js.stringOfZ (TimeUtils.getFullYear d)); reflexivity.
Qed.

Lemma ceilDiv_positive (x : Z) : 0 < x -> 0 < Js.ceilDiv x 60.
Proof.
  intros Hx. unfold Js.ceilDiv.
  pose proof (Z.div_lt_upper_bound (- x) 60 0). lia.
Qed.

Lemma tidy_app daily1 daily2 : tidy (daily1 ++ daily2) <-> tidy daily1 /\ tidy daily2.
Proof. unfold tidy. apply List.Forall_app. Qed.

Lemma breakMinutesOf_app date subject daily1 daily2 :
  breakMinutesOf date subject (daily1 ++ daily2)
  = breakMinutesOf date subject daily1 + breakMinutesOf date subject daily2.
Proof. unfold breakMinutesOf. now rewrite List.filter_app, List.map_app, sumZ_app. Qed.

Lemma pauseMinutesOf_app date subject daily1 daily2 :
  pauseMinutesOf date subject (daily1 ++ daily2)
  = pauseMinutesOf date subject daily1 + pauseMinutesOf date subject daily2.
Proof. unfold pauseMinutesOf. now rewrite List.filter_app, List.map_app, sumZ_app. Qed.

(** The sums over a table in which one row was replaced by a row of the
    same key. *)
Lemma sums_of_replaced_row (l1 l2 : list DailyStat.t) (x y : DailyStat.t) :
  DailyStat.date y = DailyStat.date x -> DailyStat.subject y = DailyStat.subject x ->
  forall d s,
    timeInSubjectOf d s (l1 ++ y :: l2)
    = timeInSubjectOf d s (l1 ++ x :: l2)
      + (if isRowFor d s x then DailyStat.timeInSubject y - DailyStat.timeInSubject x else 0) /\
    breakMinutesOf d s (l1 ++ y :: l2)
    = breakMinutesOf d s (l1 ++ x :: l2)
      + (if isRowFor d s x then DailyStat.breakMinutes y - DailyStat.breakMinutes x else 0) /\
    pauseMinutesOf d s (l1 ++ y :: l2)
    = pauseMinutesOf d s (l1 ++ x :: l2)
      + (if isRowFor d s x then DailyStat.pauseMinutes y - DailyStat.pauseMinutes x else 0).
Proof.
  intros Hdate Hsubject d s.
  change (l1 ++ y :: l2) with (l1 ++ [y] ++ l2). change (l1 ++ x :: l2) with (l1 ++ [x] ++ l2).
  rewrite !timeInSubjectOf_app, !breakMinutesOf_app, !pauseMinutesOf_app.
  unfold timeInSubjectOf, breakMinutesOf, pauseMinutesOf. simpl.
  assert (isRowFor d s y = isRowFor d s x) as ->
    by (unfold isRowFor; now rewrite Hdate, Hsubject).
  destruct (isRowFor d s x); simpl; lia.
Qed.

(** A call of [updateDailyStat] that adds no time in subject changes
    neither the subject totals nor the time a key holds; it adds the break
    and pause minutes under its own key. *)
Lemma updateDailyStat_without_time (date subject : string) (breaks pauses : option Z) store :
  Js.truthy date = true -> Js.truthy (keyOf subject) = true ->
  tidy (dailyStats store) ->
  exists rows row,
    updateDailyStat date subject (Increments.mk None breaks pauses) store
    = (mkSchema (subjectTotals store) rows (sessions store), Returned row) /\
    tidy rows /\
    forall d s,
      timeInSubjectOf d s rows = timeInSubjectOf d s (dailyStats store) /\
      breakMinutesOf d s rows
      = breakMinutesOf d s (dailyStats store)
        + (if isRowFor d s (DailyStat.mk date (keyOf subject) 0 0 0)
           then Js.clamp0 (Js.orZero breaks) else 0) /\
      pauseMinutesOf d s rows
      = pauseMinutesOf d s (dailyStats store)
        + (if isRowFor d s (DailyStat.mk date (keyOf subject) 0 0 0)
           then Js.clamp0 (Js.orZero pauses) else 0).
Proof.
  intros Hdate Hkey Htidy.
  set (key := keyOf subject) in *.
  destruct (Js.findIndex (isRowFor date key) (dailyStats store)) as [i|] eqn:Hfind.
  - apply findIndex_Some in Hfind as (l1 & x & l2 & Hdaily & _ & Hx & Hl1).
    rewrite (updateDailyStat_updates date subject _ store l1 x l2 Hdate Hkey Hdaily Hl1 Hx).
    cbn zeta. cbn [Increments.timeInSubject Increments.breakMinutes Increments.pauseMinutes].
    rewrite Hdaily in Htidy. apply tidy_app in Htidy as [Htidy1 Htidy2].
    inversion Htidy2 as [|? ? (Htime & Hbreak & Hpause) Htidy3]; subst.
    assert (DailyStat.timeInSubject (addInto (Js.clamp0 (Js.orZero None))
                                             (Js.clamp0 (Js.orZero breaks))
                                             (Js.clamp0 (Js.orZero pauses)) x)
            - DailyStat.timeInSubject x = 0) as ->
      by (unfold addInto, Js.clamp0; simpl; lia).
    unfold syncTotals. simpl (0 <? 0). cbv iota.
    eexists. eexists. split; [reflexivity |]. split.
    + apply tidy_app. split; [assumption |]. constructor; [| assumption].
      unfold addInto, Js.clamp0. simpl. lia.
    + intros d s. rewrite Hdaily.
      destruct (sums_of_replaced_row l1 l2 x
                  (addInto (Js.clamp0 (Js.orZero None)) (Js.clamp0 (Js.orZero breaks))
                           (Js.clamp0 (Js.orZero pauses)) x) eq_refl eq_refl d s)
        as (Htime' & Hbreak' & Hpause').
      rewrite Htime', Hbreak', Hpause'.
      apply isRowFor_eq in Hx as [Hxd Hxs].
      assert (isRowFor d s (DailyStat.mk date key 0 0 0) = isRowFor d s x) as ->
        by (unfold isRowFor; simpl; now rewrite Hxd, Hxs).
      unfold addInto, Js.clamp0. simpl.
      destruct (isRowFor d s x); lia.
  - pose proof (proj1 (findIndex_None _ _) Hfind) as Hnone.
    rewrite (updateDailyStat_creates date subject _ store Hdate Hkey Hnone).
    cbn zeta. cbn [Increments.timeInSubject Increments.breakMinutes Increments.pauseMinutes].
    unfold syncTotals. simpl (0 <? Js.clamp0 (Js.orZero None)). cbv iota.
    eexists. eexists. split; [reflexivity |]. split.
    + apply tidy_app. split; [assumption |]. repeat constructor; unfold Js.clamp0; simpl; lia.
    + intros d s. rewrite timeInSubjectOf_app, breakMinutesOf_app, pauseMinutesOf_app.
      unfold timeInSubjectOf at 2, breakMinutesOf at 2, pauseMinutesOf at 2. simpl.
      fold key.
      change (isRowFor d s (DailyStat.mk date key (Js.clamp0 0) (Js.clamp0 (Js.orZero breaks))
                                         (Js.clamp0 (Js.orZero pauses))))
        with (isRowFor d s (DailyStat.mk date key 0 0 0)).
      destruct (isRowFor d s (DailyStat.mk date key 0 0 0)); simpl; unfold Js.clamp0; lia.
Qed.

(** The first step of "sessions:saveProgress": the progress of the
    session is saved, the rows and the totals are not touched. *)
Lemma saveProgress_session_step (sessionId : option string) (activeSeconds pausedSeconds : Z)
    (handler : string -> Eff Process unit) process :
  exists process1,
    match sessionId with
    | Some id =>
        when (Js.truthy id)
             (tryCatch
                (onStore (updateSessionProgress id activeSeconds pausedSeconds) ;; ret tt)%eff
                handler)
    | None => ret tt
    end process = (process1, Returned tt) /\
    subjectTotals (store process1) = subjectTotals (store process) /\
    dailyStats (store process1) = dailyStats (store process).
Proof.
  destruct sessionId as [id|]; [| eexists; split; [reflexivity | split; reflexivity]].
  destruct (Js.truthy id) eqn:Hid; [| eexists; split; [reflexivity | split; reflexivity]].
  unfold when, tryCatch, bind, onStore, updateSessionProgress, getSessions, setSessions.
  rewrite Hid. run_eff.
  destruct (Js.findIndex (fun r => (SessionRow.id r =? id)%string) (sessions (store process)));
    simpl; eexists; split; try reflexivity; split; reflexivity.
Qed.

(** A later step: minutes are booked under a pseudo-subject. *)
Lemma saveProgress_booking_step (flag : bool) (date subject : string) (breaks pauses : option Z)
    (handler : string -> Eff Process unit) process :
  Js.truthy date = true -> Js.truthy (keyOf subject) = true ->
  tidy (dailyStats (store process)) ->
  exists process1,
    when flag
         (tryCatch
            (onStore (updateDailyStat date subject (Increments.mk None breaks pauses)) ;;
             ret tt)%eff
            handler) process = (process1, Returned tt) /\
    subjectTotals (store process1) = subjectTotals (store process) /\
    tidy (dailyStats (store process1)) /\
    forall d s,
      timeInSubjectOf d s (dailyStats (store process1))
      = timeInSubjectOf d s (dailyStats (store process)) /\
      breakMinutesOf d s (dailyStats (store process1))
      = breakMinutesOf d s (dailyStats (store process))
        + (if flag && isRowFor d s (DailyStat.mk date (keyOf subject) 0 0 0)
           then Js.clamp0 (Js.orZero breaks) else 0) /\
      pauseMinutesOf d s (dailyStats (store process1))
      = pauseMinutesOf d s (dailyStats (store process))
        + (if flag && isRowFor d s (DailyStat.mk date (keyOf subject) 0 0 0)
           then Js.clamp0 (Js.orZero pauses) else 0).
Proof.
  intros Hdate Hkey Htidy. destruct flag; cbn [when andb].
  - destruct (updateDailyStat_without_time date subject breaks pauses (store process)
                Hdate Hkey Htidy) as (rows & row & Hrun & Htidy' & Hsums).
    unfold tryCatch, bind, onStore. rewrite Hrun. simpl.
    eexists. split; [reflexivity |]. simpl. repeat split; try assumption; apply Hsums.
  - exists process. split; [reflexivity |]. split; [reflexivity |]. split; [assumption |].
    intros d s. repeat split; lia.
Qed.

(** X23.  The "sessions:saveProgress" handler, on a store whose rows hold no
    negative minutes, always answers a trusted sender with [{ ok: true }];
    it changes no subject total and no time in subject; the break seconds
    are booked, rounded up to minutes, under the subject "break" of the
    current day and, when asked to persist them, the paused seconds under
    the subject "pause". *)
Theorem sessionsSaveProgress_books_breaks_apart (today : TimeUtils.LocalDate)
    (payload : Payload) process :
  tidy (dailyStats (store process)) ->
  let date := TimeUtils.localDateString today in
  let breakSeconds := default 0 (payloadBreakSeconds payload) in
  let pausedSeconds := default 0 (payloadPausedSeconds payload) in
  let persistPause := default false (payloadPersistPause payload) in
  let result := sessionsSaveProgress true today payload process in
  let before := store process in
  let after := store (fst result) in
  snd result = Returned (mkAck true None) /\
  subjectTotals after = subjectTotals before /\
  (forall d s, timeInSubjectOf d s (dailyStats after) = timeInSubjectOf d s (dailyStats before)) /\
  breakMinutesOf date "break" (dailyStats after)
  = breakMinutesOf date "break" (dailyStats before)
    + (if 0 <? breakSeconds then Js.ceilDiv breakSeconds 60 else 0) /\
  pauseMinutesOf date "pause" (dailyStats after)
  = pauseMinutesOf date "pause" (dailyStats before)
    + (if persistPause && (0 <? pausedSeconds) then Js.ceilDiv pausedSeconds 60 else 0).
Proof.
  intros Htidy date breakSeconds pausedSeconds persistPause result before after.
  subst result after before.
  destruct (saveProgress_session_step (payloadSessionId payload)
              (default 0 (payloadActiveSeconds payload)) pausedSeconds
              (fun err => consoleLog ("updateSessionProgress failed: " ++ err)) process)
    as (p1 & Hstep1 & Htotals1 & Hrows1).
  assert (tidy (dailyStats (store p1))) as Htidy1 by now rewrite Hrows1.
  destruct (saveProgress_booking_step (0 <? breakSeconds) date "break"
              (Some (Js.ceilDiv breakSeconds 60)) None
              (fun err => consoleLog ("updateDailyStat (break) failed: " ++ err)) p1
              (localDateString_truthy today) eq_refl Htidy1)
    as (p2 & Hstep2 & Htotals2 & Htidy2 & Hsums2).
  destruct (saveProgress_booking_step (persistPause && (0 <? pausedSeconds)) date "pause"
              None (Some (Js.ceilDiv pausedSeconds 60))
              (fun err => consoleLog ("updateDailyStat (pause) failed: " ++ err)) p2
              (localDateString_truthy today) eq_refl Htidy2)
    as (p3 & Hstep3 & Htotals3 & Htidy3 & Hsums3).
  assert (sessionsSaveProgress true today payload process = (p3, Returned (mkAck true None)))
    as Hrun.
  { unfold sessionsSaveProgress. fold date breakSeconds pausedSeconds persistPause.
    unfold validateIPCSender. unfold bind at 1. unfold ret at 1. cbn [negb].
    unfold tryCatch at 1. unfold bind at 1. rewrite Hstep1.
    unfold bind at 1. rewrite Hstep2.
    unfold bind at 1. rewrite Hstep3.
    reflexivity. }
  rewrite Hrun. cbn [fst snd].
  split; [reflexivity |]. split; [congruence |]. split; [| split].
  - intros d s. destruct (Hsums3 d s) as (-> & _). destruct (Hsums2 d s) as (-> & _).
    now rewrite Hrows1.
  - destruct (Hsums3 date "break") as (_ & -> & _).
    destruct (Hsums2 date "break") as (_ & -> & _).
    rewrite Hrows1.
    assert (isRowFor date "break" (DailyStat.mk date (keyOf "pause") 0 0 0) = false) as ->
      by (unfold isRowFor; simpl; apply andb_false_r).
    assert (isRowFor date "break" (DailyStat.mk date (keyOf "break") 0 0 0) = true) as ->
      by (unfold isRowFor; simpl; now rewrite String.eqb_refl).
    rewrite andb_false_r, andb_true_r. simpl Js.orZero.
    destruct (Z.ltb_spec 0 breakSeconds) as [Hpos | _]; [| lia].
    pose proof (ceilDiv_positive breakSeconds Hpos). unfold Js.clamp0. lia.
  - destruct (Hsums3 date "pause") as (_ & _ & ->).
    destruct (Hsums2 date "pause") as (_ & _ & ->).
    rewrite Hrows1.
    assert (isRowFor date "pause" (DailyStat.mk date (keyOf "break") 0 0 0) = false) as ->
      by (unfold isRowFor; simpl; apply andb_false_r).
    assert (isRowFor date "pause" (DailyStat.mk date (keyOf "pause") 0 0 0) = true) as ->
      by (unfold isRowFor; simpl; now rewrite String.eqb_refl).
    rewrite andb_false_r, andb_true_r. simpl Js.orZero.
    destruct persistPause; cbn [andb]; [| lia].
    destruct (Z.ltb_spec 0 pausedSeconds) as [Hpos | _]; [| lia].
    pose proof (ceilDiv_positive pausedSeconds Hpos). unfold Js.clamp0. lia.
Qed.

Lemma sessionsSaveProgress_books_breaks_apart_witness :
  let process :=
    mkProcess (mkSchema {["math" := 30]} [DailyStat.mk "2025-01-02" "math" 30 0 0]
                        [sampleSession]) [] in
  let payload := mkPayload (Some "s_1735722000000_42") (Some 600) (Some 61) (Some 301)
                           (Some true) in
  let result := sessionsSaveProgress true (TimeUtils.mkLocalDate 2025 0 2) payload process in
  snd result = Returned (mkAck true None) /\
  subjectTotals (store (fst result)) = subjectTotals (store process) /\
  (forall d s, timeInSubjectOf d s (dailyStats (store (fst result)))
               = timeInSubjectOf d s (dailyStats (store process))) /\
  breakMinutesOf "2025-01-02" "break" (dailyStats (store (fst result))) = 0 + 6 /\
  pauseMinutesOf "2025-01-02" "pause" (dailyStats (store (fst result))) = 0 + 2.
Proof.
  intros process payload.
  apply (sessionsSaveProgress_books_breaks_apart (TimeUtils.mkLocalDate 2025 0 2)
           payload process).
  repeat constructor; simpl; lia.
Defined.

End ProgressHandlers.

(* ------------------------------------------------------------------ *)
(** ** Starting a session through timer.ts and completing it *)
(* ------------------------------------------------------------------ *)

Section StartedSessions.
Import Store StatSpec.
Variable coercion : Value.Coercion.
Variable zone : Z -> TimeUtils.LocalDate.
Implicit Types (state : Timer.State).

Lemma state_eta state : Timer.mkState (Timer.tables state) (Timer.pomodoro state) = state.
Proof. now destruct state. Qed.

Lemma addSubject_runs (subjectName : string) (store : Schema) :
  Js.truthy (keyOf subjectName) = true ->
  exists totals' total,
    addSubject subjectName store
    = (mkSchema totals' (dailyStats store) (sessions store), Returned total) /\
    forall subject, totalOf subject totals' = totalOf subject (subjectTotals store).
Proof.
  intros Hkey. unfold addSubject, addSubjectTotal, getSubjectTotals, setSubjectTotals, lacks.
  rewrite Hkey. run_eff.
  set (key := keyOf subjectName).
  eexists. eexists. split; [reflexivity |].
  intros subject.
  destruct (subjectTotals store !! key) eqn:Hlookup; [reflexivity |].
  destruct (Js.inherited key); cbn [negb]; [reflexivity |].
  rewrite totalOf_insert. destruct (String.eqb_spec subject key) as [-> | _];
    [| reflexivity].
  unfold totalOf. now rewrite Hlookup.
Qed.

(** A name every object inherits, when the totals have no entry for it:
    the store is left as it is. *)
Lemma addSubject_keeps (subjectName : string) (store : Schema) :
  Js.truthy (keyOf subjectName) = true ->
  Js.inherited (keyOf subjectName) = true ->
  subjectTotals store !! keyOf subjectName = None ->
  addSubject subjectName store = (store, Returned InheritedValue).
Proof.
  intros Hkey Hinherited Hnone.
  unfold addSubject, addSubjectTotal, getSubjectTotals, setSubjectTotals, lacks.
  rewrite Hkey. run_eff. rewrite Hnone, Hinherited. cbn [negb]. rewrite Hnone.
  now rewrite schema_eta.
Qed.

Lemma addSubject_blank (subjectName : string) (store : Schema) :
  Js.truthy (keyOf subjectName) = false ->
  addSubject subjectName store = (store, Thrown "Invalid subject name").
Proof.
  intros Hkey. unfold addSubject, addSubjectTotal. now rewrite Hkey.
Qed.

Lemma keyOf_trim (s : string) : keyOf (Js.trim s) = keyOf s.
Proof. unfold keyOf. now rewrite trim_idem. Qed.

(** The name [startSession] resolves is never empty, and resolving it
    changes nothing. *)
Lemma startSession_resolves (subjectIdentifier : Z + string) state :
  exists (name : string) (refId : option Z),
    match subjectIdentifier with
    | inl number =>
        tryCatch
          (rows <- Timer.onTables (Crud.query coercion "subjects" [("id", Value.Num number)]
                                              (Crud.mkOptions None (Some 1))) ;;
           ret (match rows with
                | Crud.SubjectRows (row :: _) =>
                    (if Js.truthy (Subject.name row) then Subject.name row else "general",
                     if Subject.id row =? 0 then None else Some (Subject.id row))
                | _ => ("general", None)
                end))%eff
          (fun err => ret ("general", None))
    | inr name => ret (if Js.truthy name then name else "general", None)
    end state = (state, Returned (name, refId)) /\
    Js.truthy name = true.
Proof.
  destruct subjectIdentifier as [number | name].
  - unfold tryCatch, bind, Timer.onTables. rewrite query_subjects. rewrite state_eta.
    unfold ret.
    destruct (Crud.select coercion [("id", Value.Num number)] (Crud.mkOptions None (Some 1))
                          (CsvDatabase.subjects (Timer.tables state))) as [|row rest].
    + exists "general", None. split; reflexivity.
    + eexists. eexists. split; [reflexivity |].
      destruct (Js.truthy (Subject.name row)) eqn:Hname; [assumption | reflexivity].
  - eexists. eexists. split; [reflexivity |].
    destruct (Js.truthy name) eqn:Hname; [assumption | reflexivity].
Qed.

(** X24.  [startSession] either rejects a subject name that is blank, changing
    nothing, or stores a new session under the id and start time it
    returns.  Such a session, whose id no earlier session has, can always be
    completed: [completeSession] returns the finished row, and the minutes,
    cut off below at zero, are added to the rows of the day of the start
    under the subject in lower case.  The subject totals stay in step with
    the rows for every subject whose name is not one every object inherits,
    hence for all subjects when the name of the session is not such a name;
    when it is, and the totals have no entry for it, the totals are left as
    they are. *)
Theorem started_session_can_be_completed (sessionId : string) (now : Z)
    (subjectIdentifier : Z + string) state (now' durationMinutes pausedSeconds : Z) :
  (forall row, In row (sessions (Timer.pomodoro state)) -> SessionRow.id row <> sessionId) ->
  let result := Timer.startSession coercion sessionId now subjectIdentifier state in
  result = (state, Thrown "Invalid subject name") \/
  (snd result = Returned (Started.mk sessionId now) /\
   Timer.tables (fst result) = Timer.tables state /\
   exists (subjectName : string) (refId : option Z) store' row,
     sessions (Timer.pomodoro (fst result))
     = sessions (Timer.pomodoro state)
       ++ [SessionRow.mk sessionId refId subjectName now None None None] /\
     Timer.completeSession zone now' sessionId durationMinutes pausedSeconds
       (Timer.pomodoro (fst result)) = (store', Returned row) /\
     row = SessionRow.mk sessionId refId subjectName now (Some now')
                         (Some (Js.clamp0 durationMinutes)) (Some (Js.clamp0 pausedSeconds)) /\
     (nonNegative (dailyStats (Timer.pomodoro state)) ->
      timeInSubjectOf (TimeUtils.localDateString (zone now)) (keyOf subjectName)
                      (dailyStats store')
      = timeInSubjectOf (TimeUtils.localDateString (zone now)) (keyOf subjectName)
                        (dailyStats (Timer.pomodoro state))
        + Js.clamp0 durationMinutes) /\
     (inSyncOrdinary (Timer.pomodoro state) -> inSyncOrdinary store') /\
     (Js.inherited (keyOf subjectName) = false ->
      inSync (Timer.pomodoro state) -> inSync store') /\
     (Js.inherited (keyOf subjectName) = true ->
      subjectTotals (Timer.pomodoro state) !! keyOf subjectName = None ->
      subjectTotals store' = subjectTotals (Timer.pomodoro state))).
Proof.
  intros Hfresh result. subst result.
  destruct (startSession_resolves subjectIdentifier state) as (name & refId & Hresolve & Hname).
  destruct (Js.truthy (keyOf name)) eqn:Hkey.
  - right.
    destruct (addSubject_runs name (Timer.pomodoro state) Hkey)
      as (totals' & total & Hadd & Htotals).
    set (started := SessionRow.mk sessionId refId (Js.trim name) now None None None).
    set (store1 := mkSchema totals' (dailyStats (Timer.pomodoro state))
                            (sessions (Timer.pomodoro state) ++ [started])).
    assert (Timer.startSession coercion sessionId now subjectIdentifier state
            = (Timer.mkState (Timer.tables state) store1,
               Returned (Started.mk sessionId now))) as Hstart.
    { unfold Timer.startSession. unfold bind at 1. rewrite Hresolve. cbn [fst snd].
      unfold bind at 1. unfold Timer.onPomodoro at 1. rewrite Hadd.
      unfold bind, Timer.onPomodoro, startSessionInStore, getSessions, setSessions.
      run_eff. now rewrite Hname. }
    rewrite Hstart. cbn [fst snd Timer.tables Timer.pomodoro].
    split; [reflexivity |]. split; [reflexivity |].
    assert (forall r, In r (sessions (Timer.pomodoro state)) ->
                      (SessionRow.id r =? sessionId)%string = false) as Hbefore
      by (intros r Hr; apply String.eqb_neq; now apply Hfresh).
    pose proof (completeSessionInStore_known zone now' sessionId durationMinutes pausedSeconds
                  store1 (sessions (Timer.pomodoro state)) started [] eq_refl Hbefore
                  (String.eqb_refl sessionId)) as Hcomplete.
    cbv zeta in Hcomplete. cbn [subjectTotals dailyStats store1] in Hcomplete.
    set (finished := mkSchema totals' (dailyStats (Timer.pomodoro state))
                       (sessions (Timer.pomodoro state)
                        ++ [finish now' durationMinutes pausedSeconds started])) in *.
    assert (Js.truthy (keyOf (SessionRow.subjectName started)) = true) as Hkey'
      by (simpl; now rewrite keyOf_trim).
    destruct (updateDailyStat_effect
                (TimeUtils.localDateString (zone (SessionRow.startTime started)))
                (SessionRow.subjectName started)
                (Increments.mk (Some (Js.clamp0 durationMinutes)) (Some 0) (Some 0))
                finished (localDateString_truthy _) Hkey')
      as (store' & statRow & added & Hupdate & _ & Hadds & Hadded).
    exists (Js.trim name), refId, store', (finish now' durationMinutes pausedSeconds started).
    split; [reflexivity |]. split; [| split; [reflexivity |]].
    + unfold Timer.completeSession. unfold bind at 1. rewrite Hcomplete.
      unfold bind at 1. rewrite Hupdate. reflexivity.
    + simpl in Hadds, Hadded. split.
      * intros Hnonneg.
        destruct Hadds as (Hrows & _). rewrite Hrows. subst finished. cbn [dailyStats].
        rewrite keyOf_trim.
        unfold sameKey. rewrite !String.eqb_refl. cbn [andb].
        rewrite (Hadded Hnonneg). unfold Js.clamp0, Js.orZero. lia.
      * split; [| split].
        -- intros Hsync. apply (addsUnder_keeps_sync_ordinary _ _ _ _ _ Hadds).
           intros subject Hsubject. subst finished. cbn [subjectTotals dailyStats].
           rewrite Htotals. now apply Hsync.
        -- intros Hordinary Hsync.
           apply (addsUnder_keeps_sync _ _ _ _ _ Hordinary Hadds).
           intros subject. subst finished. cbn [subjectTotals dailyStats].
           rewrite Htotals. apply Hsync.
        -- intros Hinherited Hnone. rewrite keyOf_trim in Hinherited, Hnone.
           assert (totals' = subjectTotals (Timer.pomodoro state)) as Hsame.
           { rewrite (addSubject_keeps name (Timer.pomodoro state) Hkey Hinherited Hnone)
               in Hadd.
             injection Hadd as Hadd _. rewrite Hadd. reflexivity. }
           pose proof (updateDailyStat_inherited
                         (TimeUtils.localDateString (zone (SessionRow.startTime started)))
                         (SessionRow.subjectName started)
                         (Increments.mk (Some (Js.clamp0 durationMinutes)) (Some 0) (Some 0))
                         finished (localDateString_truthy _) Hkey') as Hkept.
           rewrite Hupdate in Hkept. cbn [fst SessionRow.subjectName started] in Hkept.
           rewrite keyOf_trim in Hkept.
           assert (subjectTotals finished = subjectTotals (Timer.pomodoro state)) as Hfinished
             by (subst finished; cbn [subjectTotals]; exact Hsame).
           rewrite Hfinished in Hkept. now apply Hkept.
  - left. unfold Timer.startSession. unfold bind at 1. rewrite Hresolve. cbn [fst snd].
    unfold bind at 1. unfold Timer.onPomodoro at 1.
    rewrite (addSubject_blank name (Timer.pomodoro state) Hkey). now rewrite state_eta.
Qed.

End StartedSessions.

Lemma started_session_can_be_completed_witness :
  let state :=
    Timer.mkState (CsvDatabase.mkCsv [Subject.mk 1 "Math" "2025-01-01T08:00:00.000Z"] [] [] [])
                  Store.defaults in
  let started := fst (Timer.startSession sampleCoercion "s_1" 1735722000000 (inl 1) state) in
  exists store' row,
    Timer.completeSession sampleZone 1735723500000 "s_1" 25 0 (Timer.pomodoro started)
    = (store', Returned row) /\
    StatSpec.timeInSubjectOf "2025-01-01" "math" (Store.dailyStats store') = 25.
Proof.
  intros state started.
  destruct (started_session_can_be_completed sampleCoercion sampleZone "s_1" 1735722000000
              (inl 1) state 1735723500000 25 0)
    as [Hthrown
       | (_ & _ & name & refId & store' & row & Hsessions & Hrun & _ & Htime & _ & _)].
  - intros row [].
  - discriminate Hthrown.
  - exists store', row. split; [exact Hrun |].
    vm_compute in Hsessions. injection Hsessions as <- <-.
    apply Htime. constructor.
Defined.

(* ------------------------------------------------------------------ *)
(** ** Subject statistics from the daily rows *)
(* ------------------------------------------------------------------ *)

Section SubjectStatistics.
Import Store StatSpec Aggregators.
Implicit Types (store : Schema).

Lemma objectValues_Permutation {V : Type} (entries : list (string * V)) :
  Permutation (map snd entries) (Js.objectValues entries).
Proof.
  unfold Js.objectValues.
  rewrite <- (Permutation_map snd (sort_Permutation _ _)).
  induction entries as [|[key value] entries IH]; simpl; [constructor |].
  destruct (Js.arrayIndex key); simpl.
  - now apply perm_skip.
  - now apply Permutation_cons_app.
Qed.

Lemma getDailyStatsBetweenDates_effect (startDate endDate : option string) store :
  getDailyStatsBetweenDates startDate endDate store
  = (store, Returned (selectedStats startDate endDate store)).
Proof.
  unfold getDailyStatsBetweenDates, selectedStats, getDailyStats.
  destruct startDate as [s|], endDate as [e|]; try reflexivity.
  destruct (negb (Js.truthy s) || negb (Js.truthy e)); reflexivity.
Qed.

(** A row whose subject is a name every object inherits, and has no
    entry, leaves the object as it is; any other row is counted in the entry
    of its subject, which is created when it is missing. *)
Lemma countRow_effect (m : list (string * SubjectStat.t)) (row : DailyStat.t) :
  countRow m row
  = if Js.inherited (DailyStat.subject row) && negb (Js.mapHas (DailyStat.subject row) m)
    then m
    else Js.mapPut (DailyStat.subject row)
           (countStat (default (freshStat (DailyStat.subject row))
                               (Js.mapFind (DailyStat.subject row) m)) row)
           (if Js.mapHas (DailyStat.subject row) m then m
            else Js.mapPut (DailyStat.subject row) (freshStat (DailyStat.subject row)) m).
Proof.
  unfold countRow, Js.mapHas.
  destruct (Js.mapFind (DailyStat.subject row) m) as [stat|] eqn:Hfind; simpl.
  - rewrite Hfind, andb_false_r. reflexivity.
  - destruct (Js.inherited (DailyStat.subject row)); simpl.
    + now rewrite Hfind.
    + now rewrite mapFind_mapPut, String.eqb_refl.
Qed.

Lemma countRow_NoDup (m : list (string * SubjectStat.t)) (row : DailyStat.t) :
  List.NoDup (map fst m) -> List.NoDup (map fst (countRow m row)).
Proof.
  intros Hnd. rewrite countRow_effect.
  destruct (Js.inherited _ && _); [assumption |].
  apply mapPut_NoDup.
  destruct (Js.mapHas _ m); [assumption | now apply mapPut_NoDup].
Qed.

Lemma countRow_find (m : list (string * SubjectStat.t)) (row : DailyStat.t) (subject : string) :
  Js.inherited subject = false ->
  Js.mapFind subject (countRow m row)
  = if (DailyStat.subject row =? subject)%string
    then Some (countStat (default (freshStat subject) (Js.mapFind subject m)) row)
    else Js.mapFind subject m.
Proof.
  intros Hordinary. rewrite countRow_effect.
  destruct (String.eqb_spec (DailyStat.subject row) subject) as [<- | Hne].
  - rewrite Hordinary. cbn [andb]. now rewrite mapFind_mapPut, String.eqb_refl.
  - destruct (Js.inherited _ && _); [reflexivity |].
    rewrite mapFind_mapPut. apply String.eqb_neq in Hne as Hneb. rewrite Hneb.
    destruct (Js.mapHas _ m); [reflexivity |].
    rewrite mapFind_mapPut. now rewrite Hneb.
Qed.

Lemma countRow_all (daily : list DailyStat.t) (m : list (string * SubjectStat.t))
    (subject : string) :
  Js.inherited subject = false ->
  Js.mapFind subject (fold_left countRow daily m)
  = match List.filter (fun d => (DailyStat.subject d =? subject)%string) daily with
    | [] => Js.mapFind subject m
    | rows => Some (fold_left countStat rows (default (freshStat subject) (Js.mapFind subject m)))
    end.
Proof.
  intros Hordinary.
  revert m. induction daily as [|d daily IH]; intros m; [reflexivity |].
  simpl fold_left. rewrite IH, countRow_find by assumption. simpl List.filter.
  destruct (DailyStat.subject d =? subject)%string; simpl.
  - destruct (List.filter _ daily); reflexivity.
  - reflexivity.
Qed.

Lemma fold_countRow_NoDup (daily : list DailyStat.t) (m : list (string * SubjectStat.t)) :
  List.NoDup (map fst m) -> List.NoDup (map fst (fold_left countRow daily m)).
Proof.
  revert m. induction daily as [|d daily IH]; intros m Hnd; [assumption |].
  simpl. apply IH. now apply countRow_NoDup.
Qed.

(** The loop creates no entry under a name every object inherits. *)
Lemma countRow_keys (m : list (string * SubjectStat.t)) (row : DailyStat.t) :
  (forall key, In key (map fst m) -> Js.inherited key = false) ->
  forall key, In key (map fst (countRow m row)) -> Js.inherited key = false.
Proof.
  intros Hm key. rewrite countRow_effect.
  destruct (Js.inherited (DailyStat.subject row)) eqn:Hrow; cbn [andb].
  - destruct (Js.mapHas (DailyStat.subject row) m) eqn:Hhas; cbn [negb]; [| apply Hm].
    rewrite mapPut_keys. intros [-> | Hin]; [| now apply Hm].
    apply Hm. unfold Js.mapHas in Hhas.
    destruct (Js.mapFind (DailyStat.subject row) m) as [stat|] eqn:Hfind; [| discriminate].
    apply mapFind_In in Hfind. apply in_map_iff. now exists (DailyStat.subject row, stat).
  - rewrite mapPut_keys. intros [-> | Hin]; [exact Hrow |].
    destruct (Js.mapHas _ m); [now apply Hm |].
    apply mapPut_keys in Hin as [-> | Hin]; [exact Hrow | now apply Hm].
Qed.

Lemma fold_countRow_keys (daily : list DailyStat.t) (m : list (string * SubjectStat.t)) :
  (forall key, In key (map fst m) -> Js.inherited key = false) ->
  forall key, In key (map fst (fold_left countRow daily m)) -> Js.inherited key = false.
Proof.
  revert m. induction daily as [|d daily IH]; intros m Hm; [exact Hm |].
  simpl. apply IH. now apply countRow_keys.
Qed.

Lemma countStat_all (stat : SubjectStat.t) (rows : list DailyStat.t) :
  fold_left countStat rows stat
  = SubjectStat.mk (SubjectStat.subject stat)
      (SubjectStat.total_minutes stat + sumZ (map DailyStat.timeInSubject rows))
      (SubjectStat.session_count stat + Z.of_nat (length rows)).
Proof.
  revert stat. induction rows as [|r rows IH]; intros [subject total count].
  - simpl. f_equal; lia.
  - simpl fold_left. rewrite IH. unfold countStat. cbn [SubjectStat.subject
      SubjectStat.total_minutes SubjectStat.session_count map sumZ fold_right length].
    f_equal; [unfold sumZ |]; lia.
Qed.

(** X25.  [getSubjectTimeStats] gives one row for each subject that has a
    daily row in the range and whose name is not one every object inherits,
    in non-increasing order of the totals; the row holds the sum of the time
    in subject of the daily rows of that subject, and its [session_count] is
    the number of those daily rows.  A subject whose name every object
    inherits gets no row.  Without a range, on a store whose subject totals
    agree with the rows, the total of a row is the subject's total in the
    store. *)
Theorem getSubjectTimeStats_sums_daily_rows (startDate endDate : option string) store :
  let daily := selectedStats startDate endDate store in
  exists rows,
    getSubjectTimeStats startDate endDate store = (store, Returned rows) /\
    List.NoDup (map SubjectStat.subject rows) /\
    StronglySorted
      (fun a b => SubjectStat.total_minutes b <= SubjectStat.total_minutes a) rows /\
    (forall row, In row rows ->
       Js.inherited (SubjectStat.subject row) = false /\
       SubjectStat.total_minutes row = timeOfSubject (SubjectStat.subject row) daily /\
       SubjectStat.session_count row = rowsOfSubject (SubjectStat.subject row) daily /\
       0 < SubjectStat.session_count row) /\
    (forall d, In d daily -> Js.inherited (DailyStat.subject d) = false ->
       exists row, In row rows /\ SubjectStat.subject row = DailyStat.subject d) /\
    (startDate = None -> inSyncOrdinary store ->
     forall row, In row rows ->
       SubjectStat.total_minutes row = totalOf (SubjectStat.subject row) (subjectTotals store)).
Proof.
  intros daily.
  unfold getSubjectTimeStats, bind. rewrite getDailyStatsBetweenDates_effect.
  fold daily. unfold ret.
  set (m := fold_left countRow daily []).
  assert (List.NoDup (map fst m)) as Hkeys by (apply fold_countRow_NoDup; constructor).
  assert (forall key, In key (map fst m) -> Js.inherited key = false) as Hordinary
    by (apply fold_countRow_keys; intros key []).
  assert (forall subject stat, In (subject, stat) m ->
            Js.inherited subject = false /\
            stat = SubjectStat.mk subject (timeOfSubject subject daily)
                                  (rowsOfSubject subject daily) /\
            0 < rowsOfSubject subject daily) as Hentry.
  { intros subject stat Hin.
    assert (Js.inherited subject = false) as Hsubject
      by (apply Hordinary, in_map_iff; now exists (subject, stat)).
    split; [exact Hsubject |].
    apply (In_mapFind _ _ _ Hkeys) in Hin.
    subst m. rewrite countRow_all in Hin by assumption. simpl in Hin.
    unfold timeOfSubject, rowsOfSubject.
    destruct (List.filter (fun d => (DailyStat.subject d =? subject)%string) daily)
      as [|r rows]; [discriminate |].
    injection Hin as <-. rewrite countStat_all. simpl. split; [f_equal; lia | lia]. }
  assert (forall stat, In stat (map snd m) ->
            Js.inherited (SubjectStat.subject stat) = false /\
            SubjectStat.total_minutes stat = timeOfSubject (SubjectStat.subject stat) daily /\
            SubjectStat.session_count stat = rowsOfSubject (SubjectStat.subject stat) daily /\
            0 < SubjectStat.session_count stat) as Hstats.
  { intros stat Hin. apply in_map_iff in Hin as ([subject stat'] & <- & Hin).
    destruct (Hentry subject stat' Hin) as (Hsubject & -> & Hpos). simpl. auto. }
  assert (map SubjectStat.subject (map snd m) = map fst m) as Hsubjects.
  { rewrite map_map. apply map_ext_in. intros [subject stat] Hin.
    destruct (Hentry subject stat Hin) as (_ & -> & _). reflexivity. }
  assert (forall stat,
            In stat (Js.sort (fun a b => SubjectStat.total_minutes b - SubjectStat.total_minutes a)
                             (Js.objectValues m)) <-> In stat (map snd m)) as Hsame.
  { intros stat. split; intros Hin.
    - eapply Permutation_in; [symmetry; apply objectValues_Permutation |].
      eapply Permutation_in; [symmetry; apply sort_Permutation | exact Hin].
    - eapply Permutation_in; [apply sort_Permutation |].
      eapply Permutation_in; [apply objectValues_Permutation | exact Hin]. }
  eexists. split; [reflexivity |]. split; [| split; [| split; [| split]]].
  - eapply Permutation_NoDup;
      [apply Permutation_map; etransitivity;
         [apply objectValues_Permutation | apply sort_Permutation] |].
    now rewrite Hsubjects.
  - apply sort_StronglySorted; intros; lia.
  - intros row Hrow. apply Hstats. now apply Hsame.
  - intros d Hd Hsubject.
    destruct (Js.mapFind (DailyStat.subject d) m) as [stat|] eqn:Hfind.
    + apply mapFind_In in Hfind. exists stat. split.
      * apply Hsame. apply in_map_iff. exists (DailyStat.subject d, stat). now split.
      * destruct (Hentry _ _ Hfind) as (_ & -> & _). reflexivity.
    + exfalso. subst m. rewrite countRow_all in Hfind by assumption.
      assert (In d (List.filter (fun x => (DailyStat.subject x =? DailyStat.subject d)%string)
                                daily)) as Hin
        by (apply filter_In; split; [assumption | apply String.eqb_refl]).
      destruct (List.filter _ daily); [destruct Hin | discriminate].
  - intros -> Hsync row Hrow. apply Hsame, Hstats in Hrow as (Hsubject & -> & _).
    symmetry. now apply Hsync.
Qed.

(** A daily row under the subject "constructor" is counted in no row of
    the result. *)
Example getSubjectTimeStats_skips_inherited_name :
  getSubjectTimeStats None None
    (mkSchema ∅ [DailyStat.mk "2025-01-01" "constructor" 30 0 0;
                 DailyStat.mk "2025-01-01" "math" 20 0 0] [])
  = (mkSchema ∅ [DailyStat.mk "2025-01-01" "constructor" 30 0 0;
                 DailyStat.mk "2025-01-01" "math" 20 0 0] [],
     Returned [SubjectStat.mk "math" 20 1]).
Proof. reflexivity. Qed.

End SubjectStatistics.

(* ------------------------------------------------------------------ *)
(** ** Durations and long timeouts *)
(* ------------------------------------------------------------------ *)

Section Durations.
Import TimeUtils.

(** X26.  For a number of seconds that is not negative, [msToHMS] shows hours,
    minutes and seconds that add up to it, with minutes and seconds below
    sixty; the hours are shown only when there is at least one.  A number of
    milliseconds is shown as its whole seconds. *)
Theorem msToHMS_decomposes (totalSeconds : Z) :
  0 <= totalSeconds ->
  exists h m s,
    totalSeconds = 3600 * h + 60 * m + s /\
    0 <= h /\ 0 <= m < 60 /\ 0 <= s < 60 /\
    msToHMS totalSeconds false
    = (if 0 <? h then (pad h ++ ":" ++ pad m ++ ":" ++ pad s)%string
       else (pad m ++ ":" ++ pad s)%string) /\
    forall ms, 0 <= ms < 1000 ->
      msToHMS (1000 * totalSeconds + ms) true = msToHMS totalSeconds false.
Proof.
  intros Hpos.
  exists (totalSeconds / 3600), (Z.rem totalSeconds 3600 / 60), (Z.rem totalSeconds 60).
  rewrite !Z.rem_mod_nonneg by lia.
  pose proof (Z.div_mod totalSeconds 3600 ltac:(lia)) as H3600.
  pose proof (Z.mod_pos_bound totalSeconds 3600 ltac:(lia)) as Hb3600.
  pose proof (Z.div_mod (totalSeconds mod 3600) 60 ltac:(lia)) as H60.
  pose proof (Z.mod_pos_bound (totalSeconds mod 3600) 60 ltac:(lia)) as Hb60.
  assert (totalSeconds mod 60 = (totalSeconds mod 3600) mod 60) as Hmod.
  { symmetry. apply Z.mod_mod_divide. exists 60. reflexivity. }
  repeat split.
  - rewrite Hmod. lia.
  - apply Z.div_pos; lia.
  - apply Z.div_pos; lia.
  - apply Z.div_lt_upper_bound; lia.
  - apply Z.mod_pos_bound. lia.
  - apply Z.mod_pos_bound. lia.
  - unfold msToHMS. now rewrite !Z.rem_mod_nonneg by lia.
  - intros ms Hms. unfold msToHMS.
    assert ((1000 * totalSeconds + ms) / 1000 = totalSeconds) as ->; [| reflexivity].
    rewrite Z.mul_comm, Z.div_add_l by lia. rewrite Z.div_small by lia. lia.
Qed.

Lemma msToHMS_decomposes_witness :
  exists h m s,
    3725 = 3600 * h + 60 * m + s /\
    0 <= h /\ 0 <= m < 60 /\ 0 <= s < 60 /\
    msToHMS 3725 false
    = (if 0 <? h then (pad h ++ ":" ++ pad m ++ ":" ++ pad s)%string
       else (pad m ++ ":" ++ pad s)%string) /\
    forall ms, 0 <= ms < 1000 -> msToHMS (1000 * 3725 + ms) true = msToHMS 3725 false.
Proof. apply (msToHMS_decomposes 3725). lia. Defined.

Example msToHMS_shown :
  msToHMS 3725 false = "01:02:05" /\ msToHMS 125 false = "02:05" /\
  msToHMS 125999 true = "02:05".
Proof. repeat split. Qed.

End Durations.

Section LongTimeouts.
Import TimeUtils TimeUtils.Scheduler.

Lemma run_app (events1 events2 : list Event) (s : t) :
  run (events1 ++ events2) s = run events2 (run events1 s).
Proof.
  revert s. induction events1 as [|e events1 IH]; intros s; [reflexivity |]. apply IH.
Qed.

Lemma run_repeat_fire_S (k : nat) (s : t) :
  run (repeat Fire (S k)) s = run (repeat Fire k) (fire s).
Proof. reflexivity. Qed.

(** From a schedule that waits on a timeout and still owes [remaining]
    milliseconds, firing the timeouts runs [fn] once, when all of the time
    has passed. *)
Lemma fire_until_done (r : Z) :
  0 <= r ->
  forall take c e,
    0 <= take <= MAX_SAFE_TIMEOUT ->
    exists n,
      run (repeat Fire (S n)) (mk false r (Some take) c e)
      = mk false 0 None (S c) (e + take + r) /\
      forall k, (k <= n)%nat ->
        calls (run (repeat Fire k) (mk false r (Some take) c e)) = c /\
        exists wait,
          pending (run (repeat Fire k) (mk false r (Some take) c e)) = Some wait /\
          0 <= wait <= MAX_SAFE_TIMEOUT.
Proof.
  intros Hr. remember (Z.to_nat r) as bound eqn:Hbound. revert r Hr Hbound.
  induction bound as [bound IH] using lt_wf_ind. intros r Hr Hbound take c e Htake.
  destruct (Z.eq_dec r 0) as [-> | Hpos].
  - exists O. split.
    + simpl. unfold fire. simpl. f_equal. lia.
    + intros k Hk. assert (k = O) as -> by lia. simpl. split; [reflexivity |].
      exists take. now split.
  - set (take' := Z.min r MAX_SAFE_TIMEOUT).
    assert (0 < take' <= MAX_SAFE_TIMEOUT) as Htake'
      by (unfold take', MAX_SAFE_TIMEOUT in *; lia).
    assert (fire (mk false r (Some take) c e)
            = mk false (r - take') (Some take') c (e + take)) as Hfire.
    { unfold fire. simpl. destruct (Z.leb_spec r 0); [lia |]. reflexivity. }
    destruct (IH (Z.to_nat (r - take')) ltac:(lia) (r - take') ltac:(lia) eq_refl
                 take' c (e + take) ltac:(lia)) as (n & Hdone & Hbefore).
    exists (S n). split.
    + rewrite run_repeat_fire_S, Hfire, Hdone. f_equal. lia.
    + intros [|k] Hk.
      * simpl. split; [reflexivity |]. exists take. now split.
      * rewrite run_repeat_fire_S, Hfire. apply Hbefore. lia.
Qed.

Lemma cancelled_stays (events : list Event) (s : t) :
  cancelled s = true ->
  calls (run events s) = calls s /\ cancelled (run events s) = true.
Proof.
  revert s. induction events as [|event events IH]; intros s Hs; [now split |].
  simpl. destruct event; simpl.
  - assert (calls (fire s) = calls s /\ cancelled (fire s) = true) as [Hcalls Hflag].
    { unfold fire. destruct (pending s); simpl; rewrite ?Hs; simpl; now split. }
    destruct (IH (fire s) Hflag) as [-> ->]. now split.
  - destruct (IH (cancel s) eq_refl) as [-> ->]. now split.
Qed.

Lemma done_stays (events : list Event) (s : t) :
  pending s = None -> calls (run events s) = calls s.
Proof.
  revert s. induction events as [|event events IH]; intros s Hs; [reflexivity |].
  simpl. destruct event; simpl.
  - unfold fire. rewrite Hs. now apply IH.
  - now rewrite (IH (cancel s) eq_refl).
Qed.

(** Once [cancel()] was called, [fn] does not run, whatever timeouts
    fire afterwards. *)
Lemma cancel_prevents_the_call (delayMs : Z) (before after : list Event) :
  let s := run before (scheduleWithClampedTimeout delayMs) in
  calls (run (before ++ Cancel :: after) (scheduleWithClampedTimeout delayMs)) = calls s.
Proof.
  intros s. rewrite run_app. fold s. simpl.
  now destruct (cancelled_stays after (cancel s) eq_refl).
Qed.

(** X27.  [scheduleWithClampedTimeout(fn, delayMs)], left to run: after a
    number of timeouts, none of them longer than [2^31 - 1] milliseconds,
    [fn] has run once, the time that has passed is [delayMs] (zero for a
    negative delay), and whatever happens afterwards [fn] does not run
    again; before that [fn] has not run.  From the moment [cancel()] is
    called [fn] does not run any more. *)
Theorem scheduleWithClampedTimeout_runs_once (delayMs : Z) :
  (exists n,
     let final := run (repeat Fire (S n)) (scheduleWithClampedTimeout delayMs) in
     calls final = 1%nat /\
     elapsed final = Z.max 0 delayMs /\
     (forall events, calls (run events final) = 1%nat) /\
     forall k, (k <= n)%nat ->
       calls (run (repeat Fire k) (scheduleWithClampedTimeout delayMs)) = O /\
       exists wait,
         pending (run (repeat Fire k) (scheduleWithClampedTimeout delayMs)) = Some wait /\
         0 <= wait <= MAX_SAFE_TIMEOUT) /\
  (forall before after,
     calls (run (before ++ Cancel :: after) (scheduleWithClampedTimeout delayMs))
     = calls (run before (scheduleWithClampedTimeout delayMs))).
Proof.
  split; [| intros before after; apply cancel_prevents_the_call].
  set (delay := Z.max 0 delayMs).
  set (take := Z.min delay MAX_SAFE_TIMEOUT).
  assert (scheduleWithClampedTimeout delayMs = mk false (delay - take) (Some take) 0 0) as Hstart
    by reflexivity.
  destruct (fire_until_done (delay - take) ltac:(unfold take, delay, MAX_SAFE_TIMEOUT; lia)
              take O 0 ltac:(unfold take, delay, MAX_SAFE_TIMEOUT; lia))
    as (n & Hdone & Hbefore).
  exists n. cbv zeta. rewrite Hstart, Hdone. cbn [calls elapsed].
  split; [reflexivity |]. split; [lia |]. split.
  - intros events. now rewrite done_stays.
  - exact Hbefore.
Qed.

Example three_timeouts_for_fifty_days :
  let fifty_days := 50 * 24 * 3600 * 1000 in
  map (fun k => pending (run (repeat Fire k) (scheduleWithClampedTimeout fifty_days)))
      [0; 1; 2; 3]%nat
  = [Some 2147483647; Some 2147483647; Some 25032706; None] /\
  calls (run (repeat Fire 3) (scheduleWithClampedTimeout fifty_days)) = 1%nat.
Proof. split; reflexivity. Qed.

End LongTimeouts.

(* ------------------------------------------------------------------ *)
(** ** The reminder handlers and a tick whose save fails *)
(* ------------------------------------------------------------------ *)

Section ReminderHandlers.
Import Reminders ReminderSpec.
Implicit Types (p : Process).

Lemma reminderList_effect p : reminderList p = (p, Returned (stored (files p))).
Proof.
  unfold reminderList, tryCatch, onFiles, loadReminders, gets. fold (stored (files p)).
  now destruct p.
Qed.

(** X28.  "reminder:remove" with a save that does not fail returns [true]
    whether or not a reminder has the id; afterwards no stored reminder has
    it, the others are kept in their order, and nothing is shown. *)
Theorem reminderRemove_always_reports_success (id : string) p :
  exists p',
    reminderRemove Fs.noFaults id p = (p', Returned true) /\
    (forall r, In r (stored (files p')) -> Reminder.id r <> id) /\
    stored (files p')
    = List.filter (fun r => negb (Reminder.id r =? id)%string) (stored (files p)) /\
    ((forall r, In r (stored (files p)) -> Reminder.id r <> id) ->
     stored (files p') = stored (files p)) /\
    shown p' = shown p.
Proof.
  destruct (reminderRemove_effect id p) as (p' & Hrun & Hstored & Hshown).
  exists p'. split; [exact Hrun |]. split; [| split; [exact Hstored | split; [| exact Hshown]]].
  - intros r Hr. rewrite Hstored in Hr. apply filter_In in Hr as [_ Hkeep].
    now apply negb_true_iff, String.eqb_neq in Hkeep.
  - intros Hnone. rewrite Hstored. apply filter_all. intros r Hr.
    apply negb_true_iff, String.eqb_neq. now apply Hnone.
Qed.

(** "reminder:add" with a timestamp that cannot be read throws
    "Invalid reminder timestamp", reports it on the console and leaves the
    file alone; with a timestamp, and a save that does not fail,
    "reminder:list" afterwards lists the new reminder among the ones stored
    before, and in ascending order of timestamp if they were. *)
Lemma reminderAdd_then_list (id title : string) (body : option string) (stamp : Z) p :
  reminderAdd Fs.noFaults id title body None p
  = (mkProcess (files p) (shown p)
               (console p ++ ["reminder:add failed: Invalid reminder timestamp"]),
     Thrown "Invalid reminder timestamp") /\
  exists p' item listed,
    reminderAdd Fs.noFaults id title body (Some stamp) p = (p', Returned item) /\
    Reminder.id item = id /\ Reminder.timestamp item = stamp /\
    reminderList p' = (p', Returned listed) /\
    Permutation (stored (files p) ++ [item]) listed /\
    ascending listed.
Proof.
  split.
  - unfold reminderAdd, tryCatch, bind, onFiles, loadReminders, gets, throw, consoleLog, modify.
    reflexivity.
  - destruct (reminderAdd_effect id title body stamp p) as (p' & Hrun & Hstored & _).
    exists p', (normalized (Reminder.mk id title body stamp)), (stored (files p')).
    split; [exact Hrun |]. split; [reflexivity |]. split; [reflexivity |].
    split; [apply reminderList_effect |]. rewrite Hstored. split.
    + apply sort_Permutation.
    + apply sort_ascending.
Qed.

(** A tick whose save fails at the final rename, the restore succeeding:
    the due reminders are shown, the error goes to the console and the file
    holds what it held. *)
Lemma check_with_failing_save now p :
  let failing := Fs.mkFaults false false true false in
  let due := List.filter (isDue now) (stored (files p)) in
  exists p',
    check failing now p = (p', Returned tt) /\
    stored (files p') = stored (files p) /\
    shown p' = shown p ++ due /\
    console p'
    = console p
      ++ match due with
         | [] => []
         | _ => ["Reminder checker failed: EPERM: rename file.tmp -> file"]
         end.
Proof.
  intros failing due. subst due.
  unfold check, tryCatch at 1, bind at 1, onFiles at 1, loadReminders, gets.
  fold (stored (files p)).
  destruct (stored (files p)) as [|r0 l0] eqn:Hstored.
  - exists p. simpl. rewrite !app_nil_r, Hstored. now destruct p.
  - rewrite <- Hstored in *. set (l := stored (files p)) in *.
    replace (mkProcess (files p) (shown p) (console p)) with p by now destruct p.
    destruct (List.filter (isDue now) l) as [|d due] eqn:Hdue.
    + exists p. rewrite Hstored. unfold ret. rewrite <- Hstored. fold l.
      rewrite !app_nil_r. auto.
    + rewrite Hstored. rewrite <- Hstored. fold l.
      unfold bind at 1. rewrite forEach_showNotification. cbv beta iota zeta.
      destruct p as [[[old|] tmp bak] shownBefore consoleBefore];
        [| unfold l, stored in Hstored; simpl in Hstored; discriminate].
      eexists. split; [reflexivity |]. cbn [files shown console]. repeat split.
Qed.

(** X29.  When the save of a tick fails at the rename into place and the
    file is restored from the backup, the reminders that were due stay in
    the file, and the next tick shows them a second time. *)
Theorem failed_save_shows_reminders_again (now now' : Z) p :
  now <= now' ->
  let failing := Fs.mkFaults false false true false in
  let before := stored (files p) in
  let after := fst (startReminderChecker [(now, failing); (now', Fs.noFaults)] p) in
  shown after
  = shown p ++ List.filter (isDue now) before ++ List.filter (isDue now') before /\
  (forall r, In r (List.filter (isDue now) before) ->
             In r (List.filter (isDue now') before)) /\
  stored (files after) = List.filter (isLater now') before.
Proof.
  intros Horder failing before after. subst after.
  destruct (check_with_failing_save now p) as (p1 & Hrun1 & Hstored1 & Hshown1 & _).
  destruct (check_effect now' p1) as (p2 & Hrun2 & Hshown2 & Hstored2 & _).
  assert (startReminderChecker [(now, failing); (now', Fs.noFaults)] p = (p2, Returned tt))
    as Hrun.
  { cbn [startReminderChecker]. unfold bind at 1. fold failing in Hrun1. rewrite Hrun1.
    unfold bind at 1. rewrite Hrun2. reflexivity. }
  rewrite Hrun. cbn [fst]. fold before in Hstored1, Hshown1.
  rewrite Hstored1 in Hshown2, Hstored2. split; [| split].
  - rewrite Hshown2, Hshown1. now rewrite app_assoc.
  - intros r Hr. apply filter_In in Hr as [Hin Hdue]. apply filter_In. split; [assumption |].
    unfold isDue in *. apply Z.leb_le in Hdue. apply Z.leb_le. lia.
  - exact Hstored2.
Qed.

Lemma failed_save_shows_reminders_again_witness :
  let p := mkProcess (Fs.mkFiles (Some sampleReminders) None (Some [])) [] [] in
  let failing := Fs.mkFaults false false true false in
  shown (fst (startReminderChecker [(1500, failing); (2500, Fs.noFaults)] p))
  = [] ++ [Reminder.mk "a" "Stand up" None 1000]
       ++ [Reminder.mk "a" "Stand up" None 1000;
           Reminder.mk "b" "Submit report" (Some "before noon") 2000].
Proof.
  intros p failing.
  apply (failed_save_shows_reminders_again 1500 2500 p). lia.
Defined.

End ReminderHandlers.

(* ------------------------------------------------------------------ *)
(** ** Two saves in a row *)
(* ------------------------------------------------------------------ *)

Section TwoSaves.
Context {T : Type}.
Implicit Types (data old : list T).

(** X30.  After a save that succeeded over an existing file, the backup holds
    the version before that save.  When the next save fails before the
    primary file is moved (writing the temporary file or renaming to the
    backup path throws) and the restore does not fail, the handler moves
    that backup over the primary file: the file then holds the version
    before the first save, and the caller gets the error. *)
Theorem failed_write_rolls_back_previous_save (faults : Fs.Faults) old data1 data2
    (tmp bak : option (list T)) :
  Fs.writeTemp faults || Fs.renameToBackup faults = true ->
  Fs.renameRestore faults = false ->
  let saved := fst (CsvDatabase.writeCSV Fs.noFaults data1 (Fs.mkFiles (Some old) tmp bak)) in
  let failed := CsvDatabase.writeCSV faults data2 saved in
  snd (CsvDatabase.readCSV saved) = Returned data1 /\
  isThrown (snd failed) = true /\
  snd (CsvDatabase.readCSV (fst failed)) = Returned old /\
  TimerDatabase.writeCSV faults data2 saved = failed.
Proof.
  intros Hearly Hrestore saved failed. subst saved failed.
  rewrite writeCSV_no_fault. cbn [fst Fs.primary].
  destruct faults as [[] [] intoPlace restore]; simpl in Hearly, Hrestore;
    try discriminate; subst restore; repeat split.
Qed.

End TwoSaves.

Lemma failed_write_rolls_back_previous_save_witness :
  let saved :=
    fst (CsvDatabase.writeCSV Fs.noFaults ["1,second"]
           (Fs.mkFiles (Some ["1,first"]) None None)) in
  let failed := CsvDatabase.writeCSV (Fs.mkFaults true false false false) ["1,third"] saved in
  snd (CsvDatabase.readCSV saved) = Returned ["1,second"] /\
  isThrown (snd failed) = true /\
  snd (CsvDatabase.readCSV (fst failed)) = Returned ["1,first"] /\
  TimerDatabase.writeCSV (Fs.mkFaults true false false false) ["1,third"] saved = failed.
Proof.
  exact (failed_write_rolls_back_previous_save (Fs.mkFaults true false false false)
           ["1,first"] ["1,second"] ["1,third"] None None eq_refl eq_refl).
Defined.
